(** * ADAM blockchain governance layer: a shallow embedding

    This development embeds the Python modules
      - [blockchain/python/blockchain_client.py]            (class [BlockchainClient]),
      - [blockchain/python/crew_blockchain_integration.py]  (class [CrewBlockchainIntegrator]),
      - [blockchain/python/crew_with_blockchain.py]         (the detection cycle),
    and states the properties of the governance specification over them.

    Conventions.
      - A Python [str] is a [string] holding its UTF-8 encoding; [bytes] are
        [list byte].
      - A Python [int] is a [Z]; a Python [float] is the rational it denotes
        ([Q]); NaN and the infinities are outside the model.
      - A [dict] whose iteration order matters is an association list in
        insertion order; a [dict] used only for lookup is a [gmap].
      - Everything outside the three modules (the JSON-RPC node reached
        through web3, the readings store, the reasoning service, the mailer,
        the clock) is an oracle: a transition function on an abstract state
        which may answer or raise.  Every interaction is recorded in a trace.
      - The [logging] calls of the source have no effect on control flow and
        are not modelled. *)

From Stdlib Require Import ZArith NArith QArith Lia List Ascii String Bool.
From Stdlib Require Import Strings.Byte DecimalString.
From Stdlib Require Import Permutation Sorted OrderedTypeEx.
From stdpp Require Import base option list sorting gmap strings.

Import ListNotations.
Local Open Scope string_scope.
Local Open Scope list_scope.
Local Open Scope Z_scope.

(* ------------------------------------------------------------------ *)
(** * Bytes and hexadecimal text *)
(* ------------------------------------------------------------------ *)

Module Bytes.

Definition bytes := list byte.

(** [s.encode("utf-8")] for a [str] held as its UTF-8 text. *)
Definition of_str (s : string) : bytes := list_byte_of_string s.

Definition byte_of_N (n : N) : byte :=
  match Byte.of_N (n mod 256) with
  | Some b => b
  | None => x00
  end.

Definition hex_digit (n : N) : ascii :=
  if (n <? 10)%N then ascii_of_N (48 + n) else ascii_of_N (87 + n).

(** Two lowercase hexadecimal digits per byte: [bytes.hex()]. *)
Fixpoint hex (bs : bytes) : string :=
  match bs with
  | [] => EmptyString
  | b :: rest =>
      String (hex_digit (Byte.to_N b / 16))
        (String (hex_digit (Byte.to_N b mod 16)) (hex rest))
  end.

(** Big-endian encoding of [n] on [len] bytes (the value is reduced
    modulo [256^len]; callers check the range first). *)
Fixpoint be_bytes (len : nat) (n : Z) : bytes :=
  match len with
  | O => []
  | S k => be_bytes k (n / 256) ++ [byte_of_N (Z.to_N (n mod 256))]
  end.

(** Little-endian encoding of a lane on [len] bytes. *)
Fixpoint le_bytes (len : nat) (n : N) : bytes :=
  match len with
  | O => []
  | S k => byte_of_N n :: le_bytes k (n / 256)
  end.

(** Little-endian decoding. *)
Fixpoint le_to_N (bs : bytes) : N :=
  match bs with
  | [] => 0%N
  | b :: rest => (Byte.to_N b + 256 * le_to_N rest)%N
  end.

End Bytes.

(* ------------------------------------------------------------------ *)
(** * Keccak-256, the digest behind [Web3.solidity_keccak] *)
(* ------------------------------------------------------------------ *)

(** The sponge construction over Keccak-f[1600] with rate 1088 bits and the
    original Keccak padding (domain byte [0x01]), as used by Ethereum.  The
    state is 25 lanes of 64 bits; lane [(x, y)] is at position [x + 5 * y]. *)
Module Keccak.
Import Bytes.
Local Open Scope N_scope.

Definition mask64 : N := 2 ^ 64 - 1.

Definition rotl64 (x n : N) : N :=
  N.lor (N.land (N.shiftl x n) mask64) (N.shiftr x (64 - n)).

Definition round_constants : list N :=
  [ 0x0000000000000001; 0x0000000000008082; 0x800000000000808A;
    0x8000000080008000; 0x000000000000808B; 0x0000000080000001;
    0x8000000080008081; 0x8000000000008009; 0x000000000000008A;
    0x0000000000000088; 0x0000000080008009; 0x000000008000000A;
    0x000000008000808B; 0x800000000000008B; 0x8000000000008089;
    0x8000000000008003; 0x8000000000008002; 0x8000000000000080;
    0x000000000000800A; 0x800000008000000A; 0x8000000080008081;
    0x8000000000008080; 0x0000000080000001; 0x8000000080008008 ].

(** Rotation offsets, position [x + 5 * y]. *)
Definition rotation_offsets : list N :=
  [ 0; 1; 62; 28; 27;
    36; 44; 6; 55; 20;
    3; 10; 43; 25; 39;
    41; 45; 15; 21; 8;
    18; 2; 61; 56; 14 ].

Definition lane (st : list N) (x y : nat) : N :=
  nth (x mod 5 + 5 * y)%nat st 0.

Definition positions : list nat := seq 0 25.

Definition theta (st : list N) : list N :=
  let C x :=
    N.lxor (lane st x 0)
      (N.lxor (lane st x 1)
         (N.lxor (lane st x 2) (N.lxor (lane st x 3) (lane st x 4)))) in
  let D x := N.lxor (C (x + 4)%nat) (rotl64 (C (x + 1)%nat) 1) in
  map (fun i => N.lxor (nth i st 0) (D (i mod 5)%nat)) positions.

(** [B[y, 2x + 3y] = rot(A[x, y], r[x, y])], read from the target side:
    the lane written at [(X, Y)] comes from [x = X + 3Y], [y = X]. *)
Definition rho_pi (st : list N) : list N :=
  map (fun i =>
         let X := (i mod 5)%nat in
         let Y := (i / 5)%nat in
         let x := ((X + 3 * Y) mod 5)%nat in
         let src := (x + 5 * X)%nat in
         rotl64 (nth src st 0) (nth src rotation_offsets 0)) positions.

Definition chi (st : list N) : list N :=
  map (fun i =>
         let x := (i mod 5)%nat in
         let y := (i / 5)%nat in
         N.lxor (lane st x y)
           (N.ldiff (lane st (x + 2) y) (lane st (x + 1) y))) positions.

Definition iota (rc : N) (st : list N) : list N :=
  match st with
  | [] => []
  | a :: rest => N.lxor a rc :: rest
  end.

Definition round (st : list N) (rc : N) : list N :=
  iota rc (chi (rho_pi (theta st))).

Definition keccak_f (st : list N) : list N :=
  fold_left round round_constants st.

Definition rate : nat := 136.

(** pad10*1 with the Keccak domain byte. *)
Definition pad (msg : bytes) : bytes :=
  let fill := (rate - (List.length msg mod rate))%nat in
  match fill with
  | 1%nat => msg ++ [x81]
  | _ => msg ++ [x01] ++ repeat x00 (fill - 2) ++ [x80]
  end.

(** The message cut into lanes of eight bytes, little-endian. *)
Fixpoint lanes_of (fuel : nat) (bs : bytes) : list N :=
  match fuel with
  | O => []
  | S k =>
      match bs with
      | [] => []
      | _ => le_to_N (firstn 8 bs) :: lanes_of k (skipn 8 bs)
      end
  end.

Definition xor_block (st block : list N) : list N :=
  map (fun i => N.lxor (nth i st 0) (nth i block 0)) positions.

(** Absorb the padded message, one block of 17 lanes at a time. *)
Fixpoint absorb (fuel : nat) (st : list N) (ls : list N) : list N :=
  match fuel with
  | O => st
  | S k =>
      match ls with
      | [] => st
      | _ => absorb k (keccak_f (xor_block st (firstn 17 ls))) (skipn 17 ls)
      end
  end.

Definition keccak256 (msg : bytes) : bytes :=
  let padded := pad msg in
  let ls := lanes_of (List.length padded) padded in
  let st := absorb (List.length ls) (repeat 0 25) ls in
  concat (map (le_bytes 8) (firstn 4 st)).


End Keccak.

(* ------------------------------------------------------------------ *)
(** * Python values *)
(* ------------------------------------------------------------------ *)

Module Py.

(** The JSON-shaped values that travel through the coordinator: readings,
    reasoner reports, decision payloads. *)
#[warnings="-register-all"] Inductive value : Type :=
| PNone
| PBool (b : bool)
| PInt (z : Z)
| PFloat (q : Q)
| PStr (s : string)
| PList (l : list value)
| PDict (items : list (string * value)).

(** A [dict] with string keys, in insertion order. *)
Definition dict := list (string * value).

(** [d.get(key)]: the first binding of [key]. *)
Fixpoint dict_get (key : string) (d : dict) : option value :=
  match d with
  | [] => None
  | (k, v) :: rest => if String.eqb k key then Some v else dict_get key rest
  end.

(** [d.get(key, dflt)]. *)
Definition get (d : dict) (key : string) (dflt : value) : value :=
  match dict_get key d with
  | Some v => v
  | None => dflt
  end.

(** Exceptions: the class name and [str(e)]. *)
Inductive exn : Type := PyExc (cls msg : string).

Definition exn_class (e : exn) : string := let 'PyExc c _ := e in c.
Definition exn_str (e : exn) : string := let 'PyExc _ m := e in m.

Inductive result (A : Type) : Type :=
| Ok (a : A)
| Raise (e : exn).
Arguments Ok {A} a.
Arguments Raise {A} e.

(** [str(n)] for an [int]. *)
Definition str_of_int (z : Z) : string := NilZero.string_of_int (Z.to_int z).

(** [int(x)] for a [float]: truncation toward zero. *)
Definition int_of_float (q : Q) : Z := Z.quot (Qnum q) (Z.pos (Qden q)).

(** [x >= y] on floats. *)
Definition float_ge (x y : Q) : bool := Qle_bool y x.

(** ** Text *)

Definition lower_ascii (c : ascii) : ascii :=
  let n := N_of_ascii c in
  if ((65 <=? n) && (n <=? 90))%N then ascii_of_N (n + 32) else c.

(** [s.lower()].  On UTF-8 text only the ASCII capitals are touched.  For
    the strings compared against in this program (ASCII words without the
    letter k) this agrees with the Unicode lowering: the only non-ASCII
    character whose lowering is pure ASCII is the Kelvin sign. *)
Fixpoint lower (s : string) : string :=
  match s with
  | EmptyString => EmptyString
  | String c rest => String (lower_ascii c) (lower rest)
  end.

(** A UTF-8 continuation byte, [10xxxxxx]. *)
Definition is_continuation (c : ascii) : bool :=
  let n := N_of_ascii c in ((128 <=? n) && (n <? 192))%N.

(** [s[:n]]: the first [n] characters (code points) of UTF-8 text. *)
Fixpoint take_chars (n : nat) (s : string) : string :=
  match s with
  | EmptyString => EmptyString
  | String c rest =>
      if is_continuation c then String c (take_chars n rest)
      else match n with
           | O => EmptyString
           | S k => String c (take_chars k rest)
           end
  end.

(** The code points of UTF-8 text.  [need] counts the continuation bytes
    still expected and [acc] holds the bits read so far. *)
Fixpoint code_points_from (s : string) (need : nat) (acc : N) : list N :=
  match s with
  | EmptyString => []
  | String c rest =>
      let b := N_of_ascii c in
      match need with
      | O =>
          if (b <? 128)%N then b :: code_points_from rest 0 0%N
          else if (b <? 224)%N then code_points_from rest 1 (N.land b 31)
          else if (b <? 240)%N then code_points_from rest 2 (N.land b 15)
          else code_points_from rest 3 (N.land b 7)
      | S k =>
          let acc' := (acc * 64 + N.land b 63)%N in
          match k with
          | O => acc' :: code_points_from rest 0 0%N
          | S _ => code_points_from rest k acc'
          end
      end
  end.

Definition code_points (s : string) : list N := code_points_from s 0 0%N.

(** [sep.join(parts)]. *)
Fixpoint join (sep : string) (parts : list string) : string :=
  match parts with
  | [] => EmptyString
  | [p] => p
  | p :: rest => p ++ sep ++ join sep rest
  end.

Fixpoint repeat_str (s : string) (n : nat) : string :=
  match n with
  | O => EmptyString
  | S k => s ++ repeat_str s k
  end.

(** Truthiness of the values tested with [if x:] in the source. *)
Definition truthy_int (z : option Z) : bool :=
  match z with
  | Some n => negb (n =? 0)%Z
  | None => false
  end.

Definition truthy_str (s : option string) : bool :=
  match s with
  | Some EmptyString | None => false
  | Some _ => true
  end.

(** ** Dictionaries as mappings *)

(** The invariant of Python dictionaries: keys are distinct, at every
    depth. *)
#[warnings="-register-all"] Inductive well_formed : value -> Prop :=
| wf_none : well_formed PNone
| wf_bool (b : bool) : well_formed (PBool b)
| wf_int (z : Z) : well_formed (PInt z)
| wf_float (q : Q) : well_formed (PFloat q)
| wf_str (s : string) : well_formed (PStr s)
| wf_list (l : list value) :
    Forall well_formed l -> well_formed (PList l)
| wf_dict (items : list (string * value)) :
    NoDup (map fst items) ->
    Forall (fun kv => well_formed (snd kv)) items ->
    well_formed (PDict items).

(** Two payloads hold exactly the same key/value pairs: they are equal up
    to the order in which the keys of their dictionaries, at any depth,
    were inserted. *)
#[warnings="-register-all"] Inductive same_pairs : value -> value -> Prop :=
| same_none : same_pairs PNone PNone
| same_bool (b : bool) : same_pairs (PBool b) (PBool b)
| same_int (z : Z) : same_pairs (PInt z) (PInt z)
| same_float (q : Q) : same_pairs (PFloat q) (PFloat q)
| same_str (s : string) : same_pairs (PStr s) (PStr s)
| same_list (l1 l2 : list value) :
    Forall2 same_pairs l1 l2 -> same_pairs (PList l1) (PList l2)
| same_dict (items1 reordered items2 : list (string * value)) :
    Permutation items1 reordered ->
    Forall2 (fun x y => fst x = fst y /\ same_pairs (snd x) (snd y))
      reordered items2 ->
    same_pairs (PDict items1) (PDict items2).

(** CPython primitives whose algorithms are outside the model: they are
    fixed but arbitrary functions. *)
Class Builtins : Type := {
  (** [float.__repr__], also [str(x)] and [f"{x}"] for a float. *)
  float_repr : Q -> string;
  (** [float(s)] for a [str]; [None] stands for [ValueError]. *)
  float_of_str : string -> option Q;
  (** [str(x)] for a list or a dict. *)
  container_str : value -> string;
}.

Section WithBuiltins.
Context `{Builtins}.

(** [str(v)], as used by f-strings. *)
Definition str (v : value) : string :=
  match v with
  | PNone => "None"
  | PBool true => "True"
  | PBool false => "False"
  | PInt z => str_of_int z
  | PFloat q => float_repr q
  | PStr s => s
  | PList _ | PDict _ => container_str v
  end.

(** [float(v)]. *)
Definition float (v : value) : result Q :=
  match v with
  | PBool b => Ok (if b then 1%Q else 0%Q)
  | PInt z => Ok (inject_Z z)
  | PFloat q => Ok q
  | PStr s =>
      match float_of_str s with
      | Some q => Ok q
      | None =>
          Raise (PyExc "ValueError"
                   ("could not convert string to float: " ++ s))
      end
  | PNone | PList _ | PDict _ =>
      Raise (PyExc "TypeError"
               "float() argument must be a string or a real number")
  end.

End WithBuiltins.

End Py.

(* ------------------------------------------------------------------ *)
(** * [json.dumps] *)
(* ------------------------------------------------------------------ *)

(** The encoder of the standard [json] module with its defaults
    ([ensure_ascii=True], [allow_nan=True]), for the two ways the program
    calls it: [sort_keys=True] and [indent=2]. *)
Module Json.
Import Py.

Definition char (n : nat) : string := String (ascii_of_nat n) EmptyString.
Definition quote : string := char 34.
Definition backslash : string := char 92.
Definition newline : string := char 10.

(** [format(n, "04x")]. *)
Definition hex4 (n : N) : string :=
  String (Bytes.hex_digit (n / 4096 mod 16))
    (String (Bytes.hex_digit (n / 256 mod 16))
       (String (Bytes.hex_digit (n / 16 mod 16))
          (String (Bytes.hex_digit (n mod 16)) EmptyString))).

(** The replacement of one character in [py_encode_basestring_ascii]:
    printable ASCII other than the quote and the backslash is kept, the
    usual short escapes are used, everything else becomes [\uXXXX], with a
    surrogate pair above the basic plane. *)
Definition escape_char (cp : N) : string :=
  if (cp =? 34)%N then backslash ++ quote
  else if (cp =? 92)%N then backslash ++ backslash
  else if (cp =? 8)%N then backslash ++ "b"
  else if (cp =? 12)%N then backslash ++ "f"
  else if (cp =? 10)%N then backslash ++ "n"
  else if (cp =? 13)%N then backslash ++ "r"
  else if (cp =? 9)%N then backslash ++ "t"
  else if ((32 <=? cp) && (cp <=? 126))%N then
    String (ascii_of_N cp) EmptyString
  else if (cp <? 65536)%N then backslash ++ "u" ++ hex4 cp
  else
    let n := (cp - 65536)%N in
    let s1 := N.lor 55296 (N.land (N.shiftr n 10) 1023) in
    let s2 := N.lor 56320 (N.land n 1023) in
    backslash ++ "u" ++ hex4 s1 ++ backslash ++ "u" ++ hex4 s2.

Definition encode_basestring_ascii (s : string) : string :=
  quote ++ String.concat EmptyString (map escape_char (code_points s)) ++ quote.

(** The order on dictionary items used by [sorted(dct.items())]: tuples
    compare by their first component (keys of a [dict] are distinct, so the
    second component never decides).  On UTF-8 text the byte-wise order is
    the code-point order of Python. *)
Definition item_le {A : Type} (x y : string * A) : Prop :=
  Is_true (String.leb (fst x) (fst y)).

#[global] Instance item_le_dec {A : Type} (x y : string * A) :
  Decision (item_le x y).
Proof. unfold item_le. apply _. Defined.

Definition sorted_items {A : Type} (items : list (string * A))
  : list (string * A) :=
  merge_sort item_le items.

Section Encoder.
Context `{Builtins}.
Variable indent : option nat.
Variable sort_keys : bool.

Definition item_separator : string :=
  match indent with
  | None => ", "
  | Some _ => ","
  end.

Definition key_separator : string := ": ".

Definition newline_indent (level : nat) : string :=
  match indent with
  | None => EmptyString
  | Some n => newline ++ repeat_str " " (n * level)
  end.

(** A list or a dict around its already encoded members. *)
Definition bracket (opening closing : string) (level : nat)
  (members : list string) : string :=
  match members with
  | [] => opening ++ closing
  | _ =>
      opening ++ newline_indent (S level)
      ++ join (item_separator ++ newline_indent (S level)) members
      ++ newline_indent level ++ closing
  end.

Definition in_order {A : Type} (items : list (string * A))
  : list (string * A) :=
  if sort_keys then sorted_items items else items.

Definition member (item : string * string) : string :=
  encode_basestring_ascii (fst item) ++ key_separator ++ snd item.

(** [_iterencode].  The values of a dict are encoded where they stand and
    the encoded items are then put in key order; sorting looks at keys only,
    so this is the text Python produces by sorting first. *)
Fixpoint iterencode (level : nat) (v : value) : string :=
  match v with
  | PNone => "null"
  | PBool true => "true"
  | PBool false => "false"
  | PInt z => str_of_int z
  | PFloat q => float_repr q
  | PStr s => encode_basestring_ascii s
  | PList l => bracket "[" "]" level (map (iterencode (S level)) l)
  | PDict items =>
      bracket "{" "}" level
        (map member
           (in_order
              (map (fun kv => let '(k, x) := kv in (k, iterencode (S level) x))
                 items)))
  end.

End Encoder.

(** [json.dumps(obj, indent=indent, sort_keys=sort_keys)]. *)
Definition dumps `{Builtins} (indent : option nat) (sort_keys : bool)
  (obj : value) : string :=
  iterencode indent sort_keys 0 obj.

End Json.

(* ------------------------------------------------------------------ *)
(** * The outside world *)
(* ------------------------------------------------------------------ *)

(** What the three modules talk to: the node behind web3 (contract reads,
    account state, transaction submission), the readings store, the
    reasoning service, the mailer and the clock. *)
Module World.
Import Py.
Export Bytes.

Definition address := string.

(** State-changing contract functions with their arguments. *)
Inductive contract_call : Type :=
| registerAgent (agent node : address) (role : Z)
| formCrew (event_id : bytes) (members : list address) (methane_ppm : Z)
| logDecision (crew_id : Z) (decision_hash : bytes)
    (decision_type severity methane_ppm : Z)
    (voters : list address) (signatures : list bytes) (notes : string)
| markExecuted (decision_id : Z)
| requestConsensus (crew_id : Z) (proposal_hash : bytes)
| castVote (request_id : Z) (approved : bool).

(** The dictionary returned by [build_transaction].  Signing it yields the
    raw transaction handed to the node; the raw bytes are represented by
    the transaction they encode. *)
Record transaction : Type := {
  tx_call : contract_call;
  tx_from : address;
  tx_nonce : Z;
  tx_gas : Z;
  tx_gasPrice : Z;
}.

(** Decoded event logs of a receipt. *)
Inductive log_entry : Type :=
| CrewFormed (crewId : Z)
| DecisionLogged (decisionId : Z)
| ConsensusRequested (requestId : Z).

Record receipt : Type := {
  status : Z;
  blockNumber : Z;
  logs : list log_entry;
}.

(** A transaction hash as the program passes it around: the [HexBytes]
    returned by the node, or its [.hex()] text. *)
Inductive tx_ref : Type :=
| ByHash (h : bytes)
| ByHex (s : string).

(** One request to the outside, indexed by the type of its answer. *)
Inductive request : Type -> Type :=
(* [contract.functions.f(args).call()] *)
| isCritical (methane_ppm : Z) : request bool
| getNonce (addr : address) : request Z
| hasConsensusPassed (request_id : Z) : request bool
(* [w3.eth] *)
| get_transaction_count (addr : address) : request Z
| gas_price : request Z
| send_raw_transaction (tx : transaction) : request bytes
| wait_for_transaction_receipt (tx_hash : tx_ref) : request receipt
(* collaborators *)
| get_recent_readings (limit : Z) : request (option (list dict))
| call_chatgpt_reasoner (anomalies context_readings : list dict)
  : request value
| send_email_alert (subject body : string) (to : list string) : request unit
(* [datetime.now(timezone.utc).isoformat()] *)
| utcnow_isoformat : request string.

(** A request together with what came back. *)
Inductive event : Type :=
| Event {B : Type} (r : request B) (res : result B).

(** Programs: return, raise, or ask the outside and continue with its
    answer, which may itself be an exception. *)
Inductive prog (A : Type) : Type :=
| Ret (a : A)
| Throw (e : exn)
| Ask {B : Type} (r : request B) (k : result B -> prog A).
Arguments Ret {A} a.
Arguments Throw {A} e.
Arguments Ask {A B} r k.

Fixpoint bind {A B : Type} (m : prog A) (f : A -> prog B) : prog B :=
  match m with
  | Ret a => f a
  | Throw e => Throw e
  | Ask r k => Ask r (fun res => bind (k res) f)
  end.

(** [try: m except Exception as e: h e]. *)
Fixpoint try_except {A : Type} (m : prog A) (h : exn -> prog A) : prog A :=
  match m with
  | Ret a => Ret a
  | Throw e => h e
  | Ask r k => Ask r (fun res => try_except (k res) h)
  end.

(** A pure computation that may raise. *)
Definition lift {A : Type} (r : result A) : prog A :=
  match r with
  | Ok a => Ret a
  | Raise e => Throw e
  end.

Definition call {B : Type} (r : request B) : prog B := Ask r lift.

#[global] Instance prog_ret : MRet prog := @Ret.
#[global] Instance prog_bind : MBind prog := fun A B f m => bind m f.

(** ** Running a program against an oracle *)

Record outcome (L A : Type) : Type := {
  returned : result A;
  final : L;
  trace : list event;
}.
Arguments returned {L A} o.
Arguments final {L A} o.
Arguments trace {L A} o.

Section Run.
Context {L : Type}.
Variable oracle : forall B : Type, L -> request B -> result B * L.

Fixpoint run {A : Type} (m : prog A) (s : L) : outcome L A :=
  match m with
  | Ret a => {| returned := Ok a; final := s; trace := [] |}
  | Throw e => {| returned := Raise e; final := s; trace := [] |}
  | Ask r k =>
      let '(res, s') := oracle _ s r in
      let o := run (k res) s' in
      {| returned := returned o; final := final o;
         trace := Event r res :: trace o |}
  end.

End Run.

(** ** Reading traces *)

(** The transaction submitted by an event, if it is a submission. *)
Definition submitted (ev : event) : option transaction :=
  match ev with
  | Event r _ =>
      match r with
      | send_raw_transaction tx => Some tx
      | _ => None
      end
  end.

(** A ledger write: a transaction handed to the node. *)
Definition is_write (ev : event) : bool :=
  match submitted ev with
  | Some _ => true
  | None => false
  end.

End World.

(* ------------------------------------------------------------------ *)
(** * The parts of web3 and eth_account that run in-process *)
(* ------------------------------------------------------------------ *)

Module Web3.
Import Py World.

(** A value with its Solidity type, as passed to [solidity_keccak]. *)
Inductive abi_value : Type :=
| abi_string (s : string)
| abi_bytes32 (b : bytes)
| abi_uint256 (n : Z).

(** Tightly packed encoding of one value.  The value is validated against
    its type first: at most 32 bytes for [bytes32], the unsigned 256-bit
    range for [uint256], which is then written on 32 bytes, big-endian. *)
Definition hex_encode_abi_type (v : abi_value) : result bytes :=
  match v with
  | abi_string s => Ok (of_str s)
  | abi_bytes32 b =>
      if (List.length b <=? 32)%nat then Ok b
      else Raise (PyExc "ValueError" "value is not of type bytes32")
  | abi_uint256 n =>
      if ((0 <=? n) && (n <? 2 ^ 256))%Z then Ok (be_bytes 32 n)
      else Raise (PyExc "ValueError" "value is not of type uint256")
  end.

Fixpoint encode_packed (values : list abi_value) : result bytes :=
  match values with
  | [] => Ok []
  | v :: rest =>
      match hex_encode_abi_type v with
      | Raise e => Raise e
      | Ok b =>
          match encode_packed rest with
          | Raise e => Raise e
          | Ok bs => Ok (b ++ bs)
          end
      end
  end.

(** [Web3.solidity_keccak(abi_types, values)]. *)
Definition solidity_keccak (values : list abi_value) : result bytes :=
  match encode_packed values with
  | Ok packed => Ok (Keccak.keccak256 packed)
  | Raise e => Raise e
  end.

(** [eth_account.messages.SignableMessage]. *)
Record SignableMessage : Type := {
  version : bytes;
  header : bytes;
  body : bytes;
}.

(** [encode_defunct(hexstr=h.hex())]: the EIP-191 personal message whose
    body is [h]. *)
Definition encode_defunct (primitive : bytes) : SignableMessage :=
  {| version := of_str "E";
     header := of_str ("thereum Signed Message:" ++ Json.newline
                       ++ str_of_int (Z.of_nat (List.length primitive)));
     body := primitive |}.

Definition _hash_eip191_message (m : SignableMessage) : bytes :=
  Keccak.keccak256 (x19 :: version m ++ header m ++ body m).

(** ECDSA over secp256k1 with the deterministic nonce of RFC 6979: a fixed
    function of the key and of the 32-byte digest, giving the 65 bytes
    [r || s || v].  Its arithmetic is outside the model. *)
Class Secp256k1 : Type := {
  ecdsa_sign : string -> bytes -> bytes;
}.

(** [Account.sign_message(message, private_key).signature]. *)
Definition sign_message `{Secp256k1} (private_key : string)
  (m : SignableMessage) : bytes :=
  ecdsa_sign private_key (_hash_eip191_message m).

End Web3.

(* ------------------------------------------------------------------ *)
(** * blockchain_client.py *)
(* ------------------------------------------------------------------ *)

Module BlockchainClient.
Import Py World Web3.

(** The fields of a client that the methods read.  [address] is the
    account derived from [private_key]; the web3 connection and the
    contract handles are the oracle. *)
Record t : Type := {
  address : World.address;
  private_key : string;
}.

Section Methods.
Context `{Secp256k1}.
Variable self : t.

(** *** Governance rules *)

Definition is_critical (methane_ppm : Z) : prog bool :=
  call (isCritical methane_ppm).

(** *** Utilities *)

Definition _send_transaction (tx : transaction) : prog string :=
  tx_hash ← call (send_raw_transaction tx);
  receipt ← call (wait_for_transaction_receipt (ByHash tx_hash));
  if (status receipt =? 1)%Z
  then Ret ("0x" ++ hex tx_hash)%string
  else Throw (PyExc "Exception" "Transaction failed").

(** [contract.functions.f(args).build_transaction({...})]: the dictionary
    is evaluated in source order, nonce before gas price. *)
Definition build_transaction (c : contract_call) (gas : Z)
  : prog transaction :=
  nonce ← call (get_transaction_count (address self));
  price ← call gas_price;
  Ret {| tx_call := c; tx_from := address self; tx_nonce := nonce;
         tx_gas := gas; tx_gasPrice := price |}.

(** [event.process_receipt(receipt)] for each of the three events. *)
Definition crew_formed_logs (r : receipt) : list Z :=
  omap (fun l => match l with CrewFormed i => Some i | _ => None end) (logs r).

Definition decision_logged_logs (r : receipt) : list Z :=
  omap (fun l => match l with DecisionLogged i => Some i | _ => None end)
    (logs r).

Definition consensus_requested_logs (r : receipt) : list Z :=
  omap (fun l => match l with ConsensusRequested i => Some i | _ => None end)
    (logs r).

Definition _extract_crew_id_from_receipt (r : receipt) : Z :=
  match crew_formed_logs r with
  | crewId :: _ => crewId
  | [] => 0
  end.

Definition _extract_decision_id_from_receipt (r : receipt) : Z :=
  match decision_logged_logs r with
  | decisionId :: _ => decisionId
  | [] => 0
  end.

Definition _extract_request_id_from_receipt (r : receipt) : Z :=
  match consensus_requested_logs r with
  | requestId :: _ => requestId
  | [] => 0
  end.

(** *** Crew registry *)

Definition register_agent (agent_address node_address : World.address)
  (role : Z) : prog string :=
  tx ← build_transaction (registerAgent agent_address node_address role)
         500000;
  _send_transaction tx.

Definition form_crew (event_id : bytes) (members : list World.address)
  (methane_ppm : Z) : prog (string * Z) :=
  tx ← build_transaction (formCrew event_id members methane_ppm) 1000000;
  tx_hash ← _send_transaction tx;
  receipt ← call (wait_for_transaction_receipt (ByHex tx_hash));
  let crew_id := _extract_crew_id_from_receipt receipt in
  Ret (tx_hash, crew_id).

(** *** Decision logger *)

Definition log_decision (crew_id : Z) (decision_hash : bytes)
  (decision_type severity methane_ppm : Z) (voters : list World.address)
  (signatures : list bytes) (notes : string) : prog (string * Z) :=
  tx ← build_transaction
         (logDecision crew_id decision_hash decision_type severity
            methane_ppm voters signatures notes) 2000000;
  tx_hash ← _send_transaction tx;
  receipt ← call (wait_for_transaction_receipt (ByHex tx_hash));
  let decision_id := _extract_decision_id_from_receipt receipt in
  Ret (tx_hash, decision_id).

Definition mark_executed (decision_id : Z) : prog string :=
  tx ← build_transaction (markExecuted decision_id) 100000;
  _send_transaction tx.

Definition get_nonce (agent_address : option World.address) : prog Z :=
  let addr :=
    match agent_address with
    | Some a => if String.eqb a EmptyString then address self else a
    | None => address self
    end in
  call (getNonce addr).

(** *** Consensus validator *)

Definition request_consensus (crew_id : Z) (proposal_hash : bytes)
  : prog (string * Z) :=
  tx ← build_transaction (requestConsensus crew_id proposal_hash) 500000;
  tx_hash ← _send_transaction tx;
  receipt ← call (wait_for_transaction_receipt (ByHex tx_hash));
  let request_id := _extract_request_id_from_receipt receipt in
  Ret (tx_hash, request_id).

Definition cast_vote (request_id : Z) (approved : bool) : prog string :=
  tx ← build_transaction (castVote request_id approved) 200000;
  _send_transaction tx.

Definition has_consensus_passed (request_id : Z) : prog bool :=
  call (hasConsensusPassed request_id).

(** *** Signing *)

(** The message covered by the signature of [decision_hash] at [nonce]:
    the EIP-191 wrapping of [keccak(decision_hash || nonce)]. *)
Definition signed_message (decision_hash : bytes) (nonce : Z)
  : result SignableMessage :=
  match solidity_keccak [abi_bytes32 decision_hash; abi_uint256 nonce] with
  | Ok message_hash => Ok (encode_defunct message_hash)
  | Raise e => Raise e
  end.

Definition sign_decision (decision_hash : bytes) : prog bytes :=
  nonce ← get_nonce None;
  message ← lift (signed_message decision_hash nonce);
  Ret (sign_message (private_key self) message).

End Methods.

End BlockchainClient.

(* ------------------------------------------------------------------ *)
(** * crew_blockchain_integration.py *)
(* ------------------------------------------------------------------ *)

Module CrewBlockchainIntegrator.
Import Py World Web3.

(** Decision types. *)
Definition DECISION_TYPE_CREW_FORMATION : Z := 0.
Definition DECISION_TYPE_ANOMALY_DETECTION : Z := 1.
Definition DECISION_TYPE_ACTION_EXECUTION : Z := 2.

(** Severity levels. *)
Definition SEVERITY_SAFE : Z := 0.
Definition SEVERITY_WARNING : Z := 1.
Definition SEVERITY_CRITICAL : Z := 2.

(** The state left by [__init__]: in simulation mode [enable_blockchain] is
    false and [client] is [None]. *)
Record t : Type := {
  enable_blockchain : bool;
  client : option BlockchainClient.t;
}.

(** [self.client.<method>]: attribute access on [None] raises. *)
Definition the_client (self : t) : prog BlockchainClient.t :=
  match client self with
  | Some c => Ret c
  | None =>
      Throw (PyExc "AttributeError" "'NoneType' object has no attribute")
  end.

(** [decision_data.get(key, dflt)] on a value that should be a dict. *)
Definition value_get (v : value) (key : string) (dflt : value)
  : result value :=
  match v with
  | PDict d => Ok (get d key dflt)
  | _ => Raise (PyExc "AttributeError" "object has no attribute 'get'")
  end.

(** The argument of [_map_severity] must be a str: [severity_str.lower()]
    raises on anything else. *)
Definition value_str (v : value) : result string :=
  match v with
  | PStr s => Ok s
  | _ => Raise (PyExc "AttributeError" "object has no attribute 'lower'")
  end.

(** [v[:200]] passed as the [string] argument [notes]: a str is cut to its
    first 200 characters; any other value fails, at the slice or when the
    contract function validates its arguments. *)
Definition notes_of (v : value) : result string :=
  match v with
  | PStr s => Ok (take_chars 200 s)
  | PList _ =>
      Raise (PyExc "Web3ValidationError"
               "could not identify the intended function")
  | _ => Raise (PyExc "TypeError" "object is not subscriptable")
  end.

(** *** Utilities *)

(** The text that is hashed into the event id. *)
Definition event_str `{Builtins} (timestamp node_id : value) : string :=
  str timestamp ++ "-" ++ str node_id.

(** The default of [event_data.get("timestamp", ...)] reads the clock
    whether or not the key is present. *)
Definition _generate_event_id `{Builtins} (event_data : dict) : prog bytes :=
  now ← call utcnow_isoformat;
  let timestamp := get event_data "timestamp" (PStr now) in
  let node_id := get event_data "node_id" (PStr "unknown") in
  lift (solidity_keccak [abi_string (event_str timestamp node_id)]).

Definition _generate_decision_hash `{Builtins} (decision_data : value)
  : result bytes :=
  let decision_json := Json.dumps None true decision_data in
  solidity_keccak [abi_string decision_json].

Definition severity_map : gmap string Z :=
  {[ "safe" := SEVERITY_SAFE;
     "normal" := SEVERITY_SAFE;
     "warning" := SEVERITY_WARNING;
     "critical" := SEVERITY_CRITICAL;
     "emergency" := SEVERITY_CRITICAL ]}.

Definition _map_severity (severity_str : string) : Z :=
  default SEVERITY_WARNING (severity_map !! lower severity_str).

Section Methods.
Context `{Builtins} `{Secp256k1}.
Variable self : t.

(** *** Crew formation *)

Definition validate_crew_formation (event_data : dict)
  (crew_members : list address) (methane_ppm : Q)
  : prog (bool * option Z * option string) :=
  if negb (enable_blockchain self) then Ret (true, None, None)
  else
    try_except
      (event_id ← _generate_event_id event_data;
       c ← the_client self;
       '(tx_hash, crew_id) ←
         BlockchainClient.form_crew c event_id crew_members
           (int_of_float methane_ppm);
       Ret (true, Some crew_id, Some tx_hash))
      (fun e => Ret (false, None, None)).

(** *** Decision validation *)

Definition validate_critical_decision (crew_id : Z) (decision_data : value)
  (crew_members : list address) (methane_ppm : Q)
  : prog (bool * option Z * option string) :=
  if negb (enable_blockchain self) then Ret (true, None, None)
  else
    c ← the_client self;
    critical ← BlockchainClient.is_critical (int_of_float methane_ppm);
    if negb critical then Ret (true, None, None)
    else
      try_except
        (decision_hash ← lift (_generate_decision_hash decision_data);
         severity_value ← lift (value_get decision_data "severity"
                                  (PStr "critical"));
         severity_str ← lift (value_str severity_value);
         let severity := _map_severity severity_str in
         signature ← BlockchainClient.sign_decision c decision_hash;
         let signatures := [signature] in
         let voters := [BlockchainClient.address c] in
         explanation ← lift (value_get decision_data "explanation"
                               (PStr EmptyString));
         notes ← lift (notes_of explanation);
         '(tx_hash, decision_id) ←
           BlockchainClient.log_decision c crew_id decision_hash
             DECISION_TYPE_ANOMALY_DETECTION severity
             (int_of_float methane_ppm) voters signatures notes;
         let proposal_hash := decision_hash in
         '(consensus_tx, request_id) ←
           BlockchainClient.request_consensus c crew_id proposal_hash;
         (if bool_decide (BlockchainClient.address c ∈ crew_members)
          then vote_tx ← BlockchainClient.cast_vote c request_id true; Ret tt
          else Ret tt);;
         consensus_passed ← BlockchainClient.has_consensus_passed request_id;
         Ret (consensus_passed, Some decision_id, Some tx_hash))
        (fun e => Ret (false, None, None)).

(** *** Action execution *)

Definition mark_action_executed (decision_id : option Z)
  (action_type : string) (success : bool) : prog (option string) :=
  match enable_blockchain self, decision_id with
  | true, Some decision_id =>
      try_except
        (c ← the_client self;
         tx_hash ← BlockchainClient.mark_executed c decision_id;
         Ret (Some tx_hash))
        (fun e => Ret None)
  | _, _ => Ret None
  end.

End Methods.

End CrewBlockchainIntegrator.

(* ------------------------------------------------------------------ *)
(** * crew_with_blockchain.py *)
(* ------------------------------------------------------------------ *)

Module CrewWithBlockchain.
Import Py World.

(** Module-level state: the configuration read from the environment at
    import time, the process environment, and the global integrator set by
    [initialize_blockchain] ([None] until then, or when it failed). *)
Record globals : Type := {
  ABSOLUTE_EMERGENCY_PPM : Q;
  environ : gmap string string;
  blockchain_integrator : option CrewBlockchainIntegrator.t;
}.

(** The dictionary [blockchain_info] returned by a detection pass. *)
Record blockchain_info : Type := {
  info_crew_id : option Z;
  info_decision_id : option Z;
  info_consensus_passed : option bool;
  info_transactions : list (string * option string);
}.

(** One element of [anomalies]. *)
Record anomaly : Type := {
  reason : string;
  reading : dict;
}.

(** [max(xs)]: the first of the largest elements. *)
Definition py_max (xs : list Q) : result Q :=
  match xs with
  | [] => Raise (PyExc "ValueError" "max() arg is an empty sequence")
  | x :: rest =>
      Ok (fold_left (fun m y => if Qle_bool y m then m else y) rest x)
  end.

(** [[f(x) for x in xs]] where [f] may raise. *)
Fixpoint map_result {A B : Type} (f : A -> result B) (xs : list A)
  : result (list B) :=
  match xs with
  | [] => Ok []
  | x :: rest =>
      match f x with
      | Raise e => Raise e
      | Ok y =>
          match map_result f rest with
          | Raise e => Raise e
          | Ok ys => Ok (y :: ys)
          end
      end
  end.

Section Detection.
Context `{Builtins} `{Web3.Secp256k1}.
Variable g : globals.

Definition getenv (name : string) : option string := environ g !! name.

Definition reading_ppm (r : dict) : result Q :=
  float (get r "methane_ppm" (PInt 0)).

(** Detect anomalies based on absolute threshold. *)
Fixpoint detect_anomalies_from_readings (readings : list dict)
  (absolute_threshold : Q) : result (list anomaly) :=
  match readings with
  | [] => Ok []
  | r :: rest =>
      match reading_ppm r with
      | Raise e => Raise e
      | Ok ppm =>
          match detect_anomalies_from_readings rest absolute_threshold with
          | Raise e => Raise e
          | Ok anomalies =>
              if float_ge ppm absolute_threshold
              then Ok ({| reason := "ppm >= " ++ float_repr absolute_threshold;
                          reading := r |} :: anomalies)
              else Ok anomalies
          end
      end
  end.

(** The dummy address appended when [n] addresses are known. *)
Definition dummy_address (n : nat) : string :=
  "0x" ++ repeat_str "0" 39 ++ str_of_int (Z.of_nat n + 1).

(** [while len(addresses) < 4: addresses.append(...)]; at most four rounds
    are ever needed. *)
Fixpoint pad_addresses (rounds : nat) (addresses : list string)
  : list string :=
  match rounds with
  | O => addresses
  | S k =>
      if (List.length addresses <? 4)%nat
      then pad_addresses k
             (addresses ++ [dummy_address (List.length addresses)])
      else addresses
  end.

Definition _get_crew_member_addresses : list string :=
  let node_num := default "1" (getenv "NODE_NUMBER") in
  let addresses :=
    [ getenv ("NODE" ++ node_num ++ "_SENSOR_ADDRESS");
      getenv ("NODE" ++ node_num ++ "_AGGREGATOR_ADDRESS");
      getenv ("NODE" ++ node_num ++ "_DECISION_ADDRESS");
      getenv ("NODE" ++ node_num ++ "_COORDINATOR_ADDRESS") ] in
  let addresses :=
    omap (fun addr => if truthy_str addr then addr else None) addresses in
  pad_addresses 4 addresses.

(** The integrator when [blockchain_integrator and
    blockchain_integrator.enable_blockchain] holds. *)
Definition enabled_integrator : option CrewBlockchainIntegrator.t :=
  match blockchain_integrator g with
  | Some bi =>
      if CrewBlockchainIntegrator.enable_blockchain bi then Some bi else None
  | None => None
  end.

(** The payload recorded when the reasoner fails. *)
Definition fallback_report (report_text : string) : value :=
  PDict [("severity", PStr "critical"); ("explanation", PStr report_text)].

Definition reasoner_failed (e : exn) : string :=
  "LLM reasoner failed: " ++ exn_str e.

(** The paragraph on governance appended to the alert. *)
Definition blockchain_status_text (crew_id decision_id : option Z)
  (info : blockchain_info) : string :=
  match crew_id with
  | Some c =>
      if truthy_int crew_id then
        Json.newline ++ Json.newline ++ "🔗 Blockchain Governance:"
        ++ Json.newline
        ++ "   Crew ID: " ++ str_of_int c ++ Json.newline
        ++ (match decision_id with
            | Some d =>
                if truthy_int decision_id then
                  "   Decision ID: " ++ str_of_int d ++ Json.newline
                  ++ "   Consensus: "
                  ++ (if default false (info_consensus_passed info)
                      then "✅ PASSED" else "⏳ Pending")
                  ++ Json.newline
                else EmptyString
            | None => EmptyString
            end)
        ++ (match info_transactions info with
            | [] => EmptyString
            | txs =>
                "   Transactions: "
                ++ str_of_int (Z.of_nat (List.length txs)) ++ Json.newline
            end)
      else EmptyString
  | None => EmptyString
  end.

(** A reading whose methane level converts to a float below the
    threshold. *)
Definition below_threshold (r : dict) : Prop :=
  exists ppm, reading_ppm r = Ok ppm /\ (ppm < ABSOLUTE_EMERGENCY_PPM g)%Q.

(** The [blockchain_info] a pass starts with. *)
Definition untouched : blockchain_info :=
  {| info_crew_id := None; info_decision_id := None;
     info_consensus_passed := None; info_transactions := [] |}.

Definition add_transaction (info : blockchain_info) (type : string)
  (hash : option string) : blockchain_info :=
  {| info_crew_id := info_crew_id info;
     info_decision_id := info_decision_id info;
     info_consensus_passed := info_consensus_passed info;
     info_transactions := info_transactions info ++ [(type, hash)] |}.

(** The function [run_detection_with_blockchain_validation] is one long
    body; its commented blocks are embedded one by one, under the comment
    that opens each of them in the source, and then put together. *)

(** [# Validate crew formation on blockchain (if critical)].  Returns the
    local [crew_id] and the updated [blockchain_info]. *)
Definition validate_crew_formation_block (anomalies : list anomaly)
  (max_ppm : Q) (blockchain_info : blockchain_info)
  : prog (option Z * CrewWithBlockchain.blockchain_info) :=
  match enabled_integrator with
  | Some bi =>
      if float_ge max_ppm (ABSOLUTE_EMERGENCY_PPM g) then
        (* Get crew member addresses (from environment or config) *)
        let crew_members := _get_crew_member_addresses in
        now ← call utcnow_isoformat;
        let first_reading :=
          match anomalies with
          | a :: _ => reading a
          | [] => []
          end in
        let event_data :=
          [ ("timestamp", PStr now);
            ("node_id", get first_reading "node_id" (PStr "unknown"));
            ("methane_ppm", PFloat max_ppm) ] in
        '(success, crew_id, tx_hash) ←
          CrewBlockchainIntegrator.validate_crew_formation bi event_data
            crew_members max_ppm;
        if success && truthy_int crew_id then
          Ret (crew_id,
               add_transaction
                 {| info_crew_id := crew_id;
                    info_decision_id := info_decision_id blockchain_info;
                    info_consensus_passed :=
                      info_consensus_passed blockchain_info;
                    info_transactions :=
                      info_transactions blockchain_info |}
                 "crew_formation" tx_hash)
        else Ret (crew_id, blockchain_info)
      else Ret (None, blockchain_info)
  | None => Ret (None, blockchain_info)
  end.

(** [# Call LLM reasoner].  Returns [report] and [report_text]. *)
Definition call_llm_reasoner_block (anomalies : list anomaly)
  (readings : list dict) : prog (value * string) :=
  try_except
    (let anomalies_readings := map reading anomalies in
     report ← call (call_chatgpt_reasoner anomalies_readings readings);
     let report_text :=
       match report with
       | PStr text => text
       | _ => Json.dumps (Some 2%nat) false report
       end in
     Ret (report, report_text))
    (fun e =>
       let report_text := reasoner_failed e in
       Ret (fallback_report report_text, report_text)).

(** [# Validate critical decision on blockchain].  Returns the local
    [decision_id] and the updated [blockchain_info]. *)
Definition validate_critical_decision_block (crew_id : option Z)
  (max_ppm : Q) (report : value) (blockchain_info : blockchain_info)
  : prog (option Z * CrewWithBlockchain.blockchain_info) :=
  match enabled_integrator with
  | Some bi =>
      match crew_id with
      | Some crew =>
          if truthy_int crew_id
             && float_ge max_ppm (ABSOLUTE_EMERGENCY_PPM g)
          then
            let crew_members := _get_crew_member_addresses in
            '(consensus_passed, decision_id, tx_hash) ←
              CrewBlockchainIntegrator.validate_critical_decision bi crew
                report crew_members max_ppm;
            if truthy_int decision_id then
              Ret (decision_id,
                   add_transaction
                     {| info_crew_id := info_crew_id blockchain_info;
                        info_decision_id := decision_id;
                        info_consensus_passed := Some consensus_passed;
                        info_transactions :=
                          info_transactions blockchain_info |}
                     "decision_log" tx_hash)
            else Ret (decision_id, blockchain_info)
          else Ret (None, blockchain_info)
      | None => Ret (None, blockchain_info)
      end
  | None => Ret (None, blockchain_info)
  end.

(** The recipients: the argument, or [ALERT_TO], or [GMAIL_USER]. *)
Definition recipients_of (send_to : option (list string)) : list string :=
  match send_to with
  | Some recipients => recipients
  | None =>
      let raw :=
        if truthy_str (getenv "ALERT_TO") then getenv "ALERT_TO"
        else getenv "GMAIL_USER" in
      match raw with
      | Some r => if truthy_str raw then [r] else []
      | None => []
      end
  end.

Definition alert_subject (anomalies : list anomaly) : string :=
  "⚠️ Methane Alert: " ++ str_of_int (Z.of_nat (List.length anomalies))
  ++ " reading(s) ≥ " ++ float_repr (ABSOLUTE_EMERGENCY_PPM g) ++ " ppm".

Definition alert_body (anomalies : list anomaly) (report_text : string)
  (blockchain_status : string) : string :=
  "Anomalies detected (threshold "
  ++ float_repr (ABSOLUTE_EMERGENCY_PPM g) ++ " ppm):"
  ++ Json.newline ++ Json.newline
  ++ report_text ++ Json.newline ++ Json.newline
  ++ "Raw anomalies:" ++ Json.newline
  ++ Json.dumps (Some 2%nat) false
       (PList (map (fun a => PDict (reading a)) anomalies))
  ++ blockchain_status.

(** [# Send alert], with the marking of the action as executed.  Returns
    the result of the pass. *)
Definition send_alert_block (send_to : option (list string))
  (anomalies : list anomaly) (report_text : string)
  (crew_id decision_id : option Z) (blockchain_info : blockchain_info)
  : prog (bool * string * CrewWithBlockchain.blockchain_info) :=
  match recipients_of send_to with
  | [] =>
      Ret (false,
           (report_text ++ Json.newline ++ Json.newline
            ++ "No recipients configured.")%string,
           blockchain_info)
  | send_to =>
      let subject := alert_subject anomalies in
      (* Include blockchain info in alert *)
      let blockchain_status :=
        blockchain_status_text crew_id decision_id blockchain_info in
      let body := alert_body anomalies report_text blockchain_status in
      try_except
        (call (send_email_alert subject body send_to);;
         (* Mark action as executed on blockchain *)
         blockchain_info ←
           match blockchain_integrator g with
           | Some bi =>
               if truthy_int decision_id then
                 tx_hash ←
                   CrewBlockchainIntegrator.mark_action_executed bi
                     decision_id "email_alert" true;
                 if truthy_str tx_hash
                 then Ret (add_transaction blockchain_info "mark_executed"
                             tx_hash)
                 else Ret blockchain_info
               else Ret blockchain_info
           | None => Ret blockchain_info
           end;
         Ret (true, report_text, blockchain_info))
        (fun e =>
           Ret (false,
                (report_text ++ Json.newline ++ Json.newline
                 ++ "Email error: " ++ exn_str e)%string,
                blockchain_info))
  end.

(** Run detection with blockchain validation for critical decisions.
    Returns [(alert_sent, report_text, blockchain_info)]. *)
Definition run_detection_with_blockchain_validation (limit : Z)
  (send_to : option (list string)) : prog (bool * string * blockchain_info) :=
  let blockchain_info := untouched in
  (* Get recent readings *)
  readings ← call (get_recent_readings limit);
  let readings := default [] readings in
  match readings with
  | [] => Ret (false, "No readings found.", blockchain_info)
  | _ :: _ =>
      (* Detect anomalies *)
      anomalies ← lift (detect_anomalies_from_readings readings
                          (ABSOLUTE_EMERGENCY_PPM g));
      match anomalies with
      | [] => Ret (false, "No anomalies found.", blockchain_info)
      | _ :: _ =>
          (* Extract methane level *)
          ppms ← lift (map_result (fun a => reading_ppm (reading a))
                         anomalies);
          max_ppm ← lift (py_max ppms);
          '(crew_id, blockchain_info) ←
            validate_crew_formation_block anomalies max_ppm blockchain_info;
          '(report, report_text) ←
            call_llm_reasoner_block anomalies readings;
          '(decision_id, blockchain_info) ←
            validate_critical_decision_block crew_id max_ppm report
              blockchain_info;
          send_alert_block send_to anomalies report_text crew_id decision_id
            blockchain_info
      end
  end.

End Detection.

End CrewWithBlockchain.

(* ------------------------------------------------------------------ *)
(** * The consensus evaluator *)
(* ------------------------------------------------------------------ *)

Module ConsensusEvaluator.

Inductive verdict : Type := PASS | FAIL | PENDING.

(** The number of voters whose vote is [approved]. *)
Definition count (approved : bool) (votes : gmap string bool) : Z :=
  Z.of_nat (List.length
              (filter (fun kv => snd kv = approved) (map_to_list votes))).

(** Modelled from the spec: the pure function [evaluate] of the Consensus
    Evaluator (design section 4.6), whose code, the on-chain
    ConsensusValidator, is not among the sources.  PASS when
    [count(approved=true) / total_eligible * 100 >= consensus_percentage]
    and [total_eligible > 0]; FAIL when
    [count(approved=false) / total_eligible * 100 > 100 - consensus_percentage]
    and, by the rule on an empty crew, when [total_eligible = 0]; PENDING
    otherwise.  The quotients are compared after multiplying both sides by
    the positive denominator. *)
Definition evaluate (votes : gmap string bool)
  (total_eligible consensus_percentage : Z) : verdict :=
  if (0 <? total_eligible)
     && (consensus_percentage * total_eligible <=? count true votes * 100)
  then PASS
  else if (total_eligible =? 0)
          || ((100 - consensus_percentage) * total_eligible
              <? count false votes * 100)
  then FAIL
  else PENDING.

End ConsensusEvaluator.

(* ------------------------------------------------------------------ *)
(** * Observations on traces and reasoning about all runs *)
(* ------------------------------------------------------------------ *)

Module Trace.
Import Py World.





(** The mailer accepted the alert. *)
Definition emailed (ev : event) : bool :=
  match ev with
  | Event r res =>
      match r with
      | send_email_alert _ _ _ =>
          match res with
          | Ok _ => true
          | Raise _ => false
          end
      | _ => false
      end
  end.





(** The receipt awaited by [_send_transaction] came back with a status
    other than 1: the ledger rejected the transaction. *)
Definition rejected (ev : event) : Prop :=
  match ev with
  | Event r res =>
      match r in request B return result B -> Prop with
      | wait_for_transaction_receipt (ByHash _) =>
          fun res => match res with
                     | Ok receipt => status receipt <> 1
                     | Raise _ => False
                     end
      | _ => fun _ => False
      end res
  end.

(** ** Weakest preconditions over every possible answer *)

(** [wp m Q]: whatever the outside answers, the result of [m] and the
    trace of its requests satisfy [Q]. *)
Fixpoint wp {A : Type} (m : prog A) (Q : result A -> list event -> Prop)
  : Prop :=
  match m with
  | Ret a => Q (Ok a) []
  | Throw e => Q (Raise e) []
  | Ask r k => forall res, wp (k res) (fun out t => Q out (Event r res :: t))
  end.

End Trace.

(* ------------------------------------------------------------------ *)
(** * Shapes of traces *)
(* ------------------------------------------------------------------ *)

Module Shape.
Import Py World Trace CrewWithBlockchain.



Section Fallback.
Import CrewBlockchainIntegrator.
Context `{Builtins}.



End Fallback.



End Shape.

(* ------------------------------------------------------------------ *)
(** * Concrete worlds *)
(* ------------------------------------------------------------------ *)

(** Stand-ins and small worlds on which the model is run. *)
Module Scenario.
Import Py World.

(** Prints the floats with an integral value below [10^16] the way Python
    does; the scenarios use no others. *)
#[local] Instance builtins : Builtins := {|
  float_repr := fun q => (str_of_int (int_of_float q) ++ ".0")%string;
  float_of_str := fun _ => None;
  container_str := fun _ => "[...]";
|}.

(** A placeholder of the right length for the signature. *)
#[local] Instance signer : Web3.Secp256k1 := {|
  Web3.ecdsa_sign := fun _ digest => (digest ++ digest ++ [x1b])%list;
|}.

Definition agent : BlockchainClient.t :=
  {| BlockchainClient.address := "0x00000000000000000000000000000000000000A1";
     BlockchainClient.private_key := "agent-key" |}.

Definition integrator : CrewBlockchainIntegrator.t :=
  {| CrewBlockchainIntegrator.enable_blockchain := true;
     CrewBlockchainIntegrator.client := Some agent |}.

Definition simulation : CrewBlockchainIntegrator.t :=
  {| CrewBlockchainIntegrator.enable_blockchain := false;
     CrewBlockchainIntegrator.client := None |}.

(** What the world of a scenario answers. *)
Record setting : Type := {
  readings : list dict;
  critical : bool;
  receipt_status : Z;
  consensus : bool;
  reasoner : result value;
}.

Definition the_receipt (w : setting) : receipt :=
  {| status := receipt_status w; blockNumber := 12;
     logs := [CrewFormed 1; DecisionLogged 7; ConsensusRequested 3] |}.

(** A node and collaborators without state: every request of a kind gets
    the same answer. *)
Definition world (w : setting) (B : Type) (s : unit) (r : request B)
  : result B * unit :=
  match r in request B return result B * unit with
  | isCritical _ => (Ok (critical w), s)
  | getNonce _ => (Ok 0, s)
  | hasConsensusPassed _ => (Ok (consensus w), s)
  | get_transaction_count _ => (Ok 5, s)
  | gas_price => (Ok 1, s)
  | send_raw_transaction _ => (Ok [xab; xcd], s)
  | wait_for_transaction_receipt _ => (Ok (the_receipt w), s)
  | get_recent_readings _ => (Ok (Some (readings w)), s)
  | call_chatgpt_reasoner _ _ => (reasoner w, s)
  | send_email_alert _ _ _ => (Ok tt, s)
  | utcnow_isoformat => (Ok "2024-05-01T12:00:00.000250+00:00", s)
  end.

Definition reading_of (ppm : Z) : dict :=
  [("methane_ppm", PInt ppm); ("node_id", PStr "node-1")].

Definition a_report : value :=
  PDict [("severity", PStr "Critical"); ("explanation", PStr "methane leak")].

(** 6000 ppm against a threshold of 5000 ppm; the ledger accepts every
    transaction; the consensus poll answers [consensus]. *)
Definition critical_event (consensus : bool) (reasoner : result value)
  : setting :=
  {| readings := [reading_of 6000]; critical := true; receipt_status := 1;
     consensus := consensus; reasoner := reasoner |}.

(** 1000 ppm against the same threshold. *)
Definition quiet : setting :=
  {| readings := [reading_of 1000]; critical := false; receipt_status := 1;
     consensus := false; reasoner := Ok a_report |}.

Definition module_state (bi : option CrewBlockchainIntegrator.t)
  : CrewWithBlockchain.globals :=
  {| CrewWithBlockchain.ABSOLUTE_EMERGENCY_PPM := 5000;
     CrewWithBlockchain.environ := ∅;
     CrewWithBlockchain.blockchain_integrator := bi |}.

Definition recipients : option (list string) := Some ["ops@example.org"].

(** The same decision with its keys in two different orders, at both
    levels. *)
Definition payload_a : value :=
  PDict [ ("severity", PStr "critical");
          ("explanation", PStr "leak at valve 3");
          ("actions",
           PDict [("notify", PBool true); ("shutdown", PBool false)]) ].

Definition payload_b : value :=
  PDict [ ("actions",
           PDict [("shutdown", PBool false); ("notify", PBool true)]);
          ("explanation", PStr "leak at valve 3");
          ("severity", PStr "critical") ].

(** The ledger reverts every transaction. *)
Definition rejecting : setting :=
  {| readings := [reading_of 6000]; critical := true; receipt_status := 0;
     consensus := false; reasoner := Ok a_report |}.

Definition a_transaction : transaction :=
  {| tx_call := markExecuted 7; tx_from := BlockchainClient.address agent;
     tx_nonce := 5; tx_gas := 100000; tx_gasPrice := 1 |}.

(** The event payload built by a detection pass at a given instant. *)
Definition event_at (timestamp : string) : dict :=
  [ ("timestamp", PStr timestamp); ("node_id", PStr "node-1");
    ("methane_ppm", PFloat 6000) ].


(** The same scenario with a reasoning service that times out. *)
Definition timeout : exn := PyExc "TimeoutError" "reasoner timed out".

Definition degraded_pass
  : outcome unit (bool * string * CrewWithBlockchain.blockchain_info) :=
  run (world (critical_event true (Raise timeout)))
    (CrewWithBlockchain.run_detection_with_blockchain_validation
       (module_state (Some integrator)) 50 recipients) tt.


End Scenario.

(* ------------------------------------------------------------------ *)
(** * Statements that are put to the test *)
(* ------------------------------------------------------------------ *)

Module AsStated.
Import Py World Trace.

(** A rejected submission raises a [LedgerRejection] that carries the
    reason of the rejection. *)
Definition rejection_raises_LedgerRejection {L : Type}
  (oracle : forall B : Type, L -> request B -> result B * L) (s : L)
  (tx : transaction) : Prop :=
  forall h r s1 s2,
    oracle _ s (send_raw_transaction tx) = (Ok h, s1) ->
    oracle _ s1 (wait_for_transaction_receipt (ByHash h)) = (Ok r, s2) ->
    status r <> 1 ->
    exists reason,
      returned (run oracle (BlockchainClient._send_transaction tx) s)
      = Raise (PyExc "LedgerRejection" reason).



End AsStated.

(* ------------------------------------------------------------------ *)
(** * Further observations *)
(* ------------------------------------------------------------------ *)

(** Functions that read values and traces, used to state what the program
    does. *)
Module Observe.
Import Py World.

(** [len(s)] for a [str]: the number of code points, that is, of bytes that
    are not continuation bytes. *)
Fixpoint len (s : string) : nat :=
  match s with
  | EmptyString => O
  | String c rest => if is_continuation c then len rest else S (len rest)
  end.

(** The suffixes of the environment variables that name the agents of a
    node, in the order in which [_get_crew_member_addresses] reads them. *)
Definition role_variables : list string :=
  [ "_SENSOR_ADDRESS"; "_AGGREGATOR_ADDRESS"; "_DECISION_ADDRESS";
    "_COORDINATOR_ADDRESS" ].

(** The addresses the environment configures for this node: the values of
    the four variables that are set and not empty. *)
Definition configured_addresses (g : CrewWithBlockchain.globals)
  : list string :=
  let node_num := default "1" (CrewWithBlockchain.getenv g "NODE_NUMBER") in
  omap (fun suffix =>
          match CrewWithBlockchain.getenv g ("NODE" ++ node_num ++ suffix) with
          | Some EmptyString | None => None
          | Some a => Some a
          end) role_variables.

Section WithBuiltins.
Context `{Builtins}.

(** The test of the detection loop on one reading. *)
Definition at_or_above (threshold : Q) (r : dict) : bool :=
  match CrewWithBlockchain.reading_ppm r with
  | Ok ppm => float_ge ppm threshold
  | Raise _ => false
  end.

(** The methane level of the reading converts to a float. *)
Definition convertible (r : dict) : Prop :=
  exists ppm, CrewWithBlockchain.reading_ppm r = Ok ppm.

(** If the event is an answered fetch of the readings, the methane level of
    every reading it brought converts to a float. *)
Definition readings_convert (ev : event) : Prop :=
  match ev with
  | Event r res =>
      match r in request B return result B -> Prop with
      | get_recent_readings _ =>
          fun res =>
            match res with
            | Ok answer => Forall convertible (default [] answer)
            | Raise _ => True
            end
      | _ => fun _ => True
      end res
  end.

End WithBuiltins.

(** The transactions handed to the node, in order. *)
Definition submissions (t : list event) : list transaction :=
  omap submitted t.

(** The contract calls they carry. *)
Definition calls (t : list event) : list contract_call :=
  map tx_call (submissions t).

(** The state-changing functions of the contracts. *)
Inductive kind : Type :=
| RegisterAgent
| FormCrew
| LogDecision
| MarkExecuted
| RequestConsensus
| CastVote.

Definition kind_of (c : contract_call) : kind :=
  match c with
  | registerAgent _ _ _ => RegisterAgent
  | formCrew _ _ _ => FormCrew
  | logDecision _ _ _ _ _ _ _ _ => LogDecision
  | markExecuted _ => MarkExecuted
  | requestConsensus _ _ => RequestConsensus
  | castVote _ _ => CastVote
  end.

(** A request that goes to the node behind web3. *)
Definition to_node {B : Type} (r : request B) : bool :=
  match r with
  | isCritical _ | getNonce _ | hasConsensusPassed _
  | get_transaction_count _ | gas_price | send_raw_transaction _
  | wait_for_transaction_receipt _ => true
  | _ => false
  end.

Definition touches_ledger (ev : event) : bool :=
  match ev with
  | Event r _ => to_node r
  end.

(** An attempt to send the alert, accepted or not. *)
Definition mail_attempt (ev : event) : bool :=
  match ev with
  | Event r _ =>
      match r with
      | send_email_alert _ _ _ => true
      | _ => false
      end
  end.

(** A reading of the clock. *)
Definition reads_clock (ev : event) : bool :=
  match ev with
  | Event r _ =>
      match r with
      | utcnow_isoformat => true
      | _ => false
      end
  end.

(** What the integrator asks: the node and the clock, nothing else. *)
Definition backstage (ev : event) : bool :=
  touches_ledger ev || reads_clock ev.

(** A call of the reasoning service. *)
Definition asks_reasoner (ev : event) : bool :=
  match ev with
  | Event r _ =>
      match r with
      | call_chatgpt_reasoner _ _ => true
      | _ => false
      end
  end.

(** The reasoning service answered with [report]. *)
Definition reasoner_said (report : value) (ev : event) : Prop :=
  match ev with
  | Event r res =>
      match r in request B return result B -> Prop with
      | call_chatgpt_reasoner _ _ => fun res => res = Ok report
      | _ => fun _ => False
      end res
  end.

(** The kinds of the calls submitted, in order. *)
Definition kinds (t : list event) : list kind := map kind_of (calls t).

(** A fetch of the readings. *)
Definition fetch (limit : Z) (ev : event) : bool :=
  match ev with
  | Event r _ =>
      match r with
      | get_recent_readings l => l =? limit
      | _ => false
      end
  end.

(** A request of a detection pass that no handler stands behind failed:
    the fetch of the readings, the clock, or the [isCritical] read. *)
Definition fatal (ev : event) : bool :=
  match ev with
  | Event r res =>
      match res with
      | Raise _ =>
          match r with
          | get_recent_readings _ | isCritical _ | utcnow_isoformat => true
          | _ => false
          end
      | Ok _ => false
      end
  end.

End Observe.

(* ------------------------------------------------------------------ *)
(** * Shapes of results *)
(* ------------------------------------------------------------------ *)

Module Outcome.
Import Py World Observe CrewWithBlockchain.

(** What a state-changing method of the client leaves in the trace: at
    most one transaction, which carries the call [c] from the account of the
    client with the gas limit [gas], the nonce and the gas price being
    answers of the node in the same trace; exactly one when the method
    returns. *)
Definition submits_once {A : Type} (self : BlockchainClient.t)
  (c : contract_call) (gas : Z) (out : result A) (t : list event) : Prop :=
  (List.length (submissions t) <= 1)%nat
  /\ Forall (fun tx =>
              tx_call tx = c
              /\ tx_from tx = BlockchainClient.address self
              /\ tx_gas tx = gas
              /\ In (Event (get_transaction_count
                              (BlockchainClient.address self))
                       (Ok (tx_nonce tx))) t
              /\ In (Event gas_price (Ok (tx_gasPrice tx))) t)
       (submissions t)
  /\ ((exists a, out = Ok a) -> List.length (submissions t) = 1%nat).

(** How [_send_transaction] can end: with the hash of a transaction whose
    receipt has status 1, as text; with the error of the node, at the
    submission or while waiting for the receipt; or with "Transaction
    failed" on a receipt of another status. *)
Definition sent_or_failed (tx : transaction) (out : result string)
  (t : list event) : Prop :=
  match out with
  | Ok tx_hash =>
      exists h r,
        t = [ Event (send_raw_transaction tx) (Ok h);
              Event (wait_for_transaction_receipt (ByHash h)) (Ok r) ]
        /\ status r = 1
        /\ tx_hash = ("0x" ++ hex h)%string
  | Raise e =>
      t = [Event (send_raw_transaction tx) (Raise e)]
      \/ (exists h,
            t = [ Event (send_raw_transaction tx) (Ok h);
                  Event (wait_for_transaction_receipt (ByHash h)) (Raise e) ])
      \/ (exists h r,
            t = [ Event (send_raw_transaction tx) (Ok h);
                  Event (wait_for_transaction_receipt (ByHash h)) (Ok r) ]
            /\ status r <> 1
            /\ e = PyExc "Exception" "Transaction failed")
  end.


Section WithBuiltins.
Context `{Builtins} `{Web3.Secp256k1}.

(** The calls [validate_critical_decision] submits for a payload: none;
    or the decision, logged for the given crew as an anomaly detection
    voted and signed by the client alone (the signature being the one of
    the decision hash at some nonce), with the severity and the notes read
    from a dictionary payload; then the request for consensus on the same
    hash; then, if the client is a member of the crew, its approval. *)
Definition decision_writes (self : CrewBlockchainIntegrator.t) (crew_id : Z)
  (decision_data : value) (crew_members : list address) (methane_ppm : Q)
  (cs : list contract_call) : Prop :=
  cs = []
  \/ exists c d severity explanation hash nonce message,
       CrewBlockchainIntegrator.client self = Some c
       /\ decision_data = PDict d
       /\ get d "severity" (PStr "critical") = PStr severity
       /\ get d "explanation" (PStr EmptyString) = PStr explanation
       /\ CrewBlockchainIntegrator._generate_decision_hash decision_data
          = Ok hash
       /\ BlockchainClient.signed_message hash nonce = Ok message
       /\ let logged :=
            logDecision crew_id hash
              CrewBlockchainIntegrator.DECISION_TYPE_ANOMALY_DETECTION
              (CrewBlockchainIntegrator._map_severity severity)
              (int_of_float methane_ppm) [BlockchainClient.address c]
              [Web3.sign_message (BlockchainClient.private_key c) message]
              (take_chars 200 explanation) in
          let requested := requestConsensus crew_id hash in
          cs = [logged]
          \/ cs = [logged; requested]
          \/ exists request_id,
               cs = [logged; requested; castVote request_id true]
               /\ BlockchainClient.address c ∈ crew_members.

End WithBuiltins.

Section CrewFormation.
Context `{Builtins}.

(** How [validate_crew_formation] can end.  It never raises.  In
    simulation mode it reports success without asking anything.  Otherwise
    it reports a failure, with at most one transaction submitted, or a
    success with the id and the hash of the crew, after exactly one
    transaction: [formCrew] for the given members and the methane level cut
    to an integer, under the digest of the timestamp of the payload (the
    time of the clock if it has none), a dash and its node id ("unknown" if
    it has none). *)
Definition crew_formation_ends (self : CrewBlockchainIntegrator.t)
  (event_data : dict) (crew_members : list address) (methane_ppm : Q)
  (out : result (bool * option Z * option string)) (t : list event) : Prop :=
  match out with
  | Raise _ => False
  | Ok (success, crew_id, tx_hash) =>
      if CrewBlockchainIntegrator.enable_blockchain self then
        (success = false /\ crew_id = None /\ tx_hash = None
         /\ (calls t = []
             \/ exists event_id,
                  calls t
                  = [ formCrew event_id crew_members
                        (int_of_float methane_ppm) ]))
        \/ exists c now id h,
             success = true /\ crew_id = Some id /\ tx_hash = Some h
             /\ CrewBlockchainIntegrator.client self = Some c
             /\ In (Event utcnow_isoformat (Ok now)) t
             /\ calls t
                = [ formCrew
                      (Keccak.keccak256
                         (of_str
                            (CrewBlockchainIntegrator.event_str
                               (get event_data "timestamp" (PStr now))
                               (get event_data "node_id" (PStr "unknown")))))
                      crew_members (int_of_float methane_ppm) ]
      else success = true /\ crew_id = None /\ tx_hash = None /\ t = []
  end.

End CrewFormation.

(** How [validate_critical_decision] can end.  With a decision id it
    returns the hash of the logging transaction and, as first component,
    the answer of the consensus poll, its last request; the decision was
    logged and consensus requested.  Without a decision id there is no hash
    either; the first component is true only when the validation was
    bypassed, nothing being asked in simulation mode and [isCritical] having
    answered false otherwise.  It raises only when the [isCritical] read
    fails, with the error of that read, or when an enabled integrator has no
    client. *)
Definition decision_validation_ends (self : CrewBlockchainIntegrator.t)
  (methane_ppm : Q) (out : result (bool * option Z * option string))
  (t : list event) : Prop :=
  match out with
  | Ok (consensus_passed, Some decision_id, tx_hash) =>
      (exists h, tx_hash = Some h)
      /\ (exists request_id,
            last t = Some (Event (hasConsensusPassed request_id)
                             (Ok consensus_passed)))
      /\ (exists logged requested rest,
            calls t = logged :: requested :: rest
            /\ kind_of logged = LogDecision
            /\ kind_of requested = RequestConsensus)
  | Ok (consensus_passed, None, tx_hash) =>
      tx_hash = None
      /\ (consensus_passed = true ->
          (CrewBlockchainIntegrator.enable_blockchain self = false /\ t = [])
          \/ t = [Event (isCritical (int_of_float methane_ppm)) (Ok false)])
  | Raise e =>
      CrewBlockchainIntegrator.enable_blockchain self = true
      /\ ((CrewBlockchainIntegrator.client self = None /\ t = [])
          \/ t = [Event (isCritical (int_of_float methane_ppm)) (Raise e)])
  end.

(** How [mark_action_executed] can end.  It never raises.  Without a
    decision id, or in simulation mode, it asks nothing and returns no
    hash.  Otherwise it submits at most one transaction, [markExecuted] for
    the decision, and returns its hash when it was confirmed. *)
Definition marking_ends (self : CrewBlockchainIntegrator.t)
  (decision_id : option Z) (out : result (option string)) (t : list event)
  : Prop :=
  match out with
  | Raise _ => False
  | Ok tx_hash =>
      match decision_id with
      | Some d =>
          if CrewBlockchainIntegrator.enable_blockchain self then
            match tx_hash with
            | Some h =>
                calls t = [markExecuted d]
                /\ exists hash r,
                     last t = Some (Event (wait_for_transaction_receipt
                                             (ByHash hash)) (Ok r))
                     /\ status r = 1 /\ h = ("0x" ++ hex hash)%string
            | None => calls t = [] \/ calls t = [markExecuted d]
            end
          else tx_hash = None /\ t = []
      | None => tx_hash = None /\ t = []
      end
  end.


(** The sequences of calls a detection pass can submit: the crew is
    formed, the decision logged, consensus requested, the vote cast, the
    action marked executed, each only after the ones before it, the vote
    being optional. *)
Definition write_sequences : list (list kind) :=
  [ [];
    [FormCrew];
    [FormCrew; LogDecision];
    [FormCrew; LogDecision; RequestConsensus];
    [FormCrew; LogDecision; RequestConsensus; CastVote];
    [FormCrew; LogDecision; RequestConsensus; MarkExecuted];
    [FormCrew; LogDecision; RequestConsensus; CastVote; MarkExecuted] ].

(** An enabled integrator has a client. *)
Definition client_present (g : globals) : Prop :=
  forall bi,
    blockchain_integrator g = Some bi ->
    CrewBlockchainIntegrator.enable_blockchain bi = true ->
    is_Some (CrewBlockchainIntegrator.client bi).

(** The local [crew_id] and [blockchain_info] after the crew formation
    block of a pass. *)
Definition after_crew (crew_id : option Z) (info : blockchain_info) : Prop :=
  (truthy_int crew_id = false /\ info = untouched)
  \/ exists c h,
       crew_id = Some c /\ c <> 0
       /\ info = {| info_crew_id := Some c; info_decision_id := None;
                    info_consensus_passed := None;
                    info_transactions := [("crew_formation", Some h)] |}.

(** The local [decision_id] and [blockchain_info] after the decision
    block. *)
Definition after_decision (crew_id decision_id : option Z)
  (before info : blockchain_info) : Prop :=
  (truthy_int decision_id = false /\ info = before)
  \/ exists d b h,
       decision_id = Some d /\ d <> 0 /\ truthy_int crew_id = true
       /\ info = {| info_crew_id := info_crew_id before;
                    info_decision_id := Some d;
                    info_consensus_passed := Some b;
                    info_transactions :=
                      info_transactions before ++ [("decision_log", Some h)] |}.

(** The [blockchain_info] after the alert block. *)
Definition after_alert (decision_id : option Z)
  (before info : blockchain_info) : Prop :=
  info = before
  \/ exists h,
       truthy_int decision_id = true
       /\ info = add_transaction before "mark_executed" (Some h).

(** How the crew formation block of a pass can end, from an untouched
    [blockchain_info]. *)
Definition crew_block_ends (g : globals)
  (out : result (option Z * blockchain_info)) (t : list event) : Prop :=
  Forall (fun ev => backstage ev = true) t
  /\ (enabled_integrator g = None -> t = [])
  /\ match out with
     | Raise e => t = [Event utcnow_isoformat (Raise e)]
     | Ok (crew_id, info) =>
         after_crew crew_id info
         /\ if truthy_int crew_id then kinds t = [FormCrew]
            else kinds t = [] \/ kinds t = [FormCrew]
     end.

(** How the reasoner block can end: after one call of the reasoning
    service, with its answer or with the fallback report. *)
Definition reasoner_block_ends (anomalies : list anomaly)
  (readings : list dict) (out : result (value * string)) (t : list event)
  : Prop :=
  exists res report text,
    t = [Event (call_chatgpt_reasoner (map reading anomalies) readings) res]
    /\ out = Ok (report, text)
    /\ match res with
       | Ok answer => report = answer
       | Raise e =>
           report = fallback_report (reasoner_failed e)
           /\ text = reasoner_failed e
       end.

(** How the decision block can end. *)
Definition decision_block_ends (g : globals) (crew_id : option Z)
  (report : value) (before : blockchain_info)
  (out : result (option Z * blockchain_info)) (t : list event) : Prop :=
  Forall (fun ev => backstage ev = true) t
  /\ (enabled_integrator g = None \/ truthy_int crew_id = false ->
      t = [] /\ out = Ok (None, before))
  /\ ((forall d, report <> PDict d) ->
      kinds t = []
      /\ forall decision_id info,
           out = Ok (decision_id, info) ->
           decision_id = None /\ info = before)
  /\ match out with
     | Raise e =>
         (exists ppm, t = [Event (isCritical ppm) (Raise e)])
         \/ (t = [] /\ ~ client_present g)
     | Ok (decision_id, info) =>
         after_decision crew_id decision_id before info
         /\ if truthy_int decision_id
            then kinds t = [LogDecision; RequestConsensus]
                 \/ kinds t = [LogDecision; RequestConsensus; CastVote]
            else In (kinds t)
                   [ []; [LogDecision]; [LogDecision; RequestConsensus];
                     [LogDecision; RequestConsensus; CastVote] ]
     end.

(** How the alert block can end: without recipients nothing is asked;
    otherwise the alert is handed to the mailer, and only when it was
    accepted and there is a decision may the marking follow. *)
Definition alert_block_ends (g : globals) (send_to : option (list string))
  (decision_id : option Z) (before : blockchain_info)
  (out : result (bool * string * blockchain_info)) (t : list event) : Prop :=
  exists sent text info,
    out = Ok (sent, text, info)
    /\ after_alert decision_id before info
    /\ match t with
       | [] => sent = false /\ recipients_of g send_to = [] /\ info = before
       | mail :: rest =>
           mail_attempt mail = true
           /\ recipients_of g send_to <> []
           /\ sent = Trace.emailed mail
           /\ Forall (fun ev => backstage ev = true) rest
           /\ (kinds rest = [] \/ kinds rest = [MarkExecuted])
           /\ (Trace.emailed mail = false \/ truthy_int decision_id = false ->
               rest = [] /\ info = before)
       end.

Section Pass.
Context `{Builtins}.
Variable g : globals.
Variable limit : Z.
Variable send_to : option (list string).

(** The ways through a detection pass, with what each leaves in the
    trace: the early ends, and the four blocks one after the other, each
    starting from what the one before it returned. *)
Inductive pass_shape
  : result (bool * string * blockchain_info) -> list event -> Prop :=
| fetch_failed (e : exn) :
    pass_shape (Raise e) [Event (get_recent_readings limit) (Raise e)]
| no_readings (answer : option (list dict)) :
    default [] answer = [] ->
    pass_shape (Ok (false, "No readings found.", untouched))
      [Event (get_recent_readings limit) (Ok answer)]
| malformed_reading (answer : option (list dict)) (e : exn) :
    detect_anomalies_from_readings (default [] answer)
      (ABSOLUTE_EMERGENCY_PPM g) = Raise e ->
    pass_shape (Raise e) [Event (get_recent_readings limit) (Ok answer)]
| no_anomalies (answer : option (list dict)) :
    detect_anomalies_from_readings (default [] answer)
      (ABSOLUTE_EMERGENCY_PPM g) = Ok [] ->
    pass_shape (Ok (false, "No anomalies found.", untouched))
      [Event (get_recent_readings limit) (Ok answer)]
| crew_block_raised (answer : option (list dict)) (e : exn)
    (t1 : list event) :
    crew_block_ends g (Raise e) t1 ->
    pass_shape (Raise e)
      (Event (get_recent_readings limit) (Ok answer) :: t1)
| decision_block_raised (answer : option (list dict))
    (anomalies : list anomaly) (crew_id : option Z) (info1 : blockchain_info)
    (report : value) (report_text : string) (e : exn)
    (t1 t2 t3 : list event) :
    crew_block_ends g (Ok (crew_id, info1)) t1 ->
    reasoner_block_ends anomalies (default [] answer)
      (Ok (report, report_text)) t2 ->
    decision_block_ends g crew_id report info1 (Raise e) t3 ->
    pass_shape (Raise e)
      (Event (get_recent_readings limit) (Ok answer) :: t1 ++ t2 ++ t3)
| alert_block_reached (answer : option (list dict))
    (anomalies : list anomaly) (crew_id decision_id : option Z)
    (info1 info2 : blockchain_info) (report : value) (report_text : string)
    (out : result (bool * string * blockchain_info))
    (t1 t2 t3 t4 : list event) :
    crew_block_ends g (Ok (crew_id, info1)) t1 ->
    reasoner_block_ends anomalies (default [] answer)
      (Ok (report, report_text)) t2 ->
    decision_block_ends g crew_id report info1 (Ok (decision_id, info2)) t3 ->
    alert_block_ends g send_to decision_id info2 out t4 ->
    pass_shape out
      (Event (get_recent_readings limit) (Ok answer)
       :: t1 ++ t2 ++ t3 ++ t4).

End Pass.

(** The invariant of the [blockchain_info] a pass returns.  Ids are set
    only to non-zero values; a decision needs a crew; the outcome of the
    consensus is recorded exactly when a decision is; the transactions are,
    in this order, the formation of the crew, the logging of the decision
    and the marking of the action, each present only after the one before
    and each with its hash. *)
Definition well_formed_info (info : blockchain_info) : Prop :=
  match info_crew_id info with
  | None => info = untouched
  | Some c =>
      c <> 0
      /\ exists h1,
           match info_decision_id info with
           | None =>
               info_consensus_passed info = None
               /\ info_transactions info = [("crew_formation", Some h1)]
           | Some d =>
               d <> 0
               /\ exists b h2,
                    info_consensus_passed info = Some b
                    /\ (info_transactions info
                        = [("crew_formation", Some h1);
                           ("decision_log", Some h2)]
                        \/ exists h3,
                             info_transactions info
                             = [("crew_formation", Some h1);
                                ("decision_log", Some h2);
                                ("mark_executed", Some h3)])
           end
  end.

End Outcome.
(* ------------------------------------------------------------------ *)
(** * Start-up *)
(* ------------------------------------------------------------------ *)

(** The constructors of [BlockchainClient] and [CrewBlockchainIntegrator],
    [get_governance_thresholds] and [initialize_blockchain].  What they ask
    of the outside is of another kind than what a detection pass asks: the
    connection to the node, the account of a key, the deployment files, and
    reads of the registry and of the governance rules.  The process
    environment is a finite map. *)
Module Startup.
Import Py.

Inductive request : Type -> Type :=
(* [w3.is_connected()] on [Web3(Web3.HTTPProvider(rpc_url))] *)
| is_connected (rpc_url : string) : request bool
(* [w3.eth.chain_id] *)
| chain_id : request Z
(* [Account.from_key(private_key).address] *)
| from_key (private_key : string) : request World.address
(* [self._load_contracts(deployment_file)]: reads the deployment file and
   the artifacts; the contract handles it returns are the oracle of
   [World] *)
| _load_contracts (deployment_file : option string) : request unit
(* [contract.functions.f(args).call()] *)
| isActiveAgent (agent_address : World.address) : request bool
| criticalThreshold : request Z
| warningThreshold : request Z
| sameEventWindow : request Z
| consensusPercentage : request Z.

Inductive event : Type :=
| Event {B : Type} (r : request B) (res : result B).

Inductive prog (A : Type) : Type :=
| Ret (a : A)
| Throw (e : exn)
| Ask {B : Type} (r : request B) (k : result B -> prog A).
Arguments Ret {A} a.
Arguments Throw {A} e.
Arguments Ask {A B} r k.

Fixpoint bind {A B : Type} (m : prog A) (f : A -> prog B) : prog B :=
  match m with
  | Ret a => f a
  | Throw e => Throw e
  | Ask r k => Ask r (fun res => bind (k res) f)
  end.

(** [try: m except Exception as e: h e]. *)
Fixpoint try_except {A : Type} (m : prog A) (h : exn -> prog A) : prog A :=
  match m with
  | Ret a => Ret a
  | Throw e => h e
  | Ask r k => Ask r (fun res => try_except (k res) h)
  end.

Definition call {B : Type} (r : request B) : prog B :=
  Ask r (fun res => match res with Ok b => Ret b | Raise e => Throw e end).

#[global] Instance prog_ret : MRet prog := @Ret.
#[global] Instance prog_bind : MBind prog := fun A B f m => bind m f.

Record outcome (L A : Type) : Type := {
  returned : result A;
  final : L;
  trace : list event;
}.
Arguments returned {L A} o.
Arguments final {L A} o.
Arguments trace {L A} o.

Section Run.
Context {L : Type}.
Variable oracle : forall B : Type, L -> request B -> result B * L.

Fixpoint run {A : Type} (m : prog A) (s : L) : outcome L A :=
  match m with
  | Ret a => {| returned := Ok a; final := s; trace := [] |}
  | Throw e => {| returned := Raise e; final := s; trace := [] |}
  | Ask r k =>
      let '(res, s') := oracle _ s r in
      let o := run (k res) s' in
      {| returned := returned o; final := final o;
         trace := Event r res :: trace o |}
  end.

End Run.

(** [wp m Q]: whatever the outside answers, the result of [m] and the
    trace of its requests satisfy [Q]. *)
Fixpoint wp {A : Type} (m : prog A) (Q : result A -> list event -> Prop)
  : Prop :=
  match m with
  | Ret a => Q (Ok a) []
  | Throw e => Q (Raise e) []
  | Ask r k => forall res, wp (k res) (fun out t => Q out (Event r res :: t))
  end.


(** The object left by [CrewBlockchainIntegrator.__init__] in simulation
    mode. *)
Definition simulation : CrewBlockchainIntegrator.t :=
  {| CrewBlockchainIntegrator.enable_blockchain := false;
     CrewBlockchainIntegrator.client := None |}.

Section Setup.
Variable environ : gmap string string.

Definition getenv (name : string) : option string := environ !! name.









End Setup.

(** ** How start-up can end *)






End Startup.
(* ------------------------------------------------------------------ *)
(** * The monitoring loop *)
(* ------------------------------------------------------------------ *)

(** [run_monitoring_loop] of crew_with_blockchain.py.  The loop has no
    exit of its own: it is left only by what its handler does not catch, a
    [KeyboardInterrupt], which is outside the model, or an error of the
    sleep; [close_client] is then called, which is outside the model too.
    The loop is embedded by its first [rounds] iterations. *)
Module Monitoring.
Import Py World CrewWithBlockchain.

Section Loop.
Context `{Builtins} `{Web3.Secp256k1}.
Variable g : globals.

(** The interval read from the environment when the module is loaded. *)
Variable CHECK_INTERVAL_SECONDS : Q.

(** The guarded part of an iteration: a detection pass, then the clock
    for the log line; any exception ends it quietly. *)
Definition detection_round (limit : Z) (send_to : option (list string))
  : prog unit :=
  try_except
    ('(sent, report, blockchain_info) ←
       run_detection_with_blockchain_validation g limit send_to;
     now ← call utcnow_isoformat;
     Ret tt)
    (fun e => Ret tt).

(** [time.sleep(seconds)]: nothing but the passing of time, and an error
    on a negative length. *)
Definition sleep (seconds : Q) : prog unit :=
  if Qle_bool 0 seconds then Ret tt
  else Throw (PyExc "ValueError" "sleep length must be non-negative").

Fixpoint run_monitoring_loop (rounds : nat) (limit : Z)
  (send_to : option (list string)) : prog unit :=
  match rounds with
  | O => Ret tt
  | S k =>
      detection_round limit send_to;;
      sleep CHECK_INTERVAL_SECONDS;;
      run_monitoring_loop k limit send_to
  end.

End Loop.

End Monitoring.

(* ------------------------------------------------------------------ *)
(** ** What the transactions of a pass carry *)
(* ------------------------------------------------------------------ *)

Module PassCalls.
Import Py World CrewWithBlockchain.

Section Carried.
Context `{Builtins}.
Variable g : globals.



End Carried.

End PassCalls.
(* ================================================================== *)
(** * Properties *)
(* ================================================================== *)

(** ** Known answers of the digest *)

Example keccak256_empty :
  Bytes.hex (Keccak.keccak256 []) =
  "c5d2460186f7233c927e7db2dcc703c0e500b653ca82273b7bfad8045d85a470".
Proof. vm_compute. reflexivity. Qed.

Example keccak256_abc :
  Bytes.hex (Keccak.keccak256 (Bytes.of_str "abc")) =
  "4e03657aea45a94fc7d47ba826c8d667c0d1e6e33a64a036ec44f58fa12d6c45".
Proof. vm_compute. reflexivity. Qed.

(** A message longer than one block of the sponge. *)
Example keccak256_two_blocks :
  Bytes.hex (Keccak.keccak256 (repeat "a"%byte 137)) =
  "d869f639c7046b4929fc92a4d988a8b22c55fbadb802c0c66ebcd484f1915f39".
Proof. vm_compute. reflexivity. Qed.


(* ------------------------------------------------------------------ *)
(** ** The consensus evaluator *)
(* ------------------------------------------------------------------ *)

Section EvaluatorProperties.
Import ConsensusEvaluator.

(** Quorum boundary at 51 percent of four voters: two approvals are not
    enough, three are; three rejections fail.  (Two rejections already make
    PASS unreachable, and the rule of section 4.6 then says FAIL.) *)
Example evaluate_two_of_four :
  evaluate {[ "a" := true; "b" := true ]} 4 51 = PENDING.
Proof. vm_compute. reflexivity. Qed.

Example evaluate_three_of_four :
  evaluate {[ "a" := true; "b" := true; "c" := true ]} 4 51 = PASS.
Proof. vm_compute. reflexivity. Qed.

Example evaluate_three_against :
  evaluate {[ "a" := false; "b" := false; "c" := false ]} 4 51 = FAIL.
Proof. vm_compute. reflexivity. Qed.

(** C2.  The evaluator is fail-safe on an empty crew: with
    [total_eligible = 0] the verdict is FAIL, and so never PASS, for every
    vote mapping and every consensus percentage. *)
Theorem evaluate_empty_crew_fails (votes : gmap string bool)
  (consensus_percentage : Z) :
  evaluate votes 0 consensus_percentage = FAIL
  /\ evaluate votes 0 consensus_percentage <> PASS.
Proof.
  assert (E : evaluate votes 0 consensus_percentage = FAIL).
  { unfold evaluate.
    replace (0 <? 0) with false by reflexivity.
    replace (0 =? 0) with true by reflexivity.
    reflexivity. }
  split; [exact E | rewrite E; discriminate].
Qed.

End EvaluatorProperties.

(* ------------------------------------------------------------------ *)
(** ** Severity mapping *)
(* ------------------------------------------------------------------ *)

Section SeverityProperties.
Import Py CrewBlockchainIntegrator.

Example map_severity_mixed_case : _map_severity "CriTical" = 2.
Proof. vm_compute. reflexivity. Qed.

Example map_severity_unknown : _map_severity "catastrophic" = 1.
Proof. vm_compute. reflexivity. Qed.

Lemma severity_map_lookup (k : string) :
  severity_map !! k =
  if String.eqb k "safe" then Some SEVERITY_SAFE
  else if String.eqb k "normal" then Some SEVERITY_SAFE
  else if String.eqb k "warning" then Some SEVERITY_WARNING
  else if String.eqb k "critical" then Some SEVERITY_CRITICAL
  else if String.eqb k "emergency" then Some SEVERITY_CRITICAL
  else None.
Proof.
  unfold severity_map.
  destruct (String.eqb_spec k "safe") as [-> | ?]; [ reflexivity | ].
  rewrite lookup_insert_ne by congruence.
  destruct (String.eqb_spec k "normal") as [-> | ?]; [ reflexivity | ].
  rewrite lookup_insert_ne by congruence.
  destruct (String.eqb_spec k "warning") as [-> | ?]; [ reflexivity | ].
  rewrite lookup_insert_ne by congruence.
  destruct (String.eqb_spec k "critical") as [-> | ?]; [ reflexivity | ].
  rewrite lookup_insert_ne by congruence.
  destruct (String.eqb_spec k "emergency") as [-> | ?]; [ reflexivity | ].
  apply lookup_singleton_ne. congruence.
Qed.

(** C7.  The severity mapping is the fixed closed table, looked up without
    regard to case: safe and normal give Safe (0), warning gives
    Warning (1), critical and emergency give Critical (2), and every other
    string gives the default Warning (1). *)
Theorem map_severity_table (s : string) :
  _map_severity s =
  if String.eqb (lower s) "safe" || String.eqb (lower s) "normal"
  then SEVERITY_SAFE
  else if String.eqb (lower s) "warning"
  then SEVERITY_WARNING
  else if String.eqb (lower s) "critical" || String.eqb (lower s) "emergency"
  then SEVERITY_CRITICAL
  else SEVERITY_WARNING.
Proof.
  unfold _map_severity. rewrite severity_map_lookup.
  repeat (destruct (String.eqb (lower s) _); [ reflexivity | ]).
  reflexivity.
Qed.

End SeverityProperties.

(* ------------------------------------------------------------------ *)
(** ** Running programs: general facts *)
(* ------------------------------------------------------------------ *)

Arguments Keccak.keccak256 : simpl never.
Arguments Json.dumps : simpl never.
Arguments Py.take_chars : simpl never.
Arguments CrewBlockchainIntegrator._map_severity : simpl never.
Arguments CrewWithBlockchain._get_crew_member_addresses : simpl never.

Section RunFacts.
Import Py World Trace.
Context {L : Type}.
Variable oracle : forall B : Type, L -> request B -> result B * L.

Lemma run_call {B : Type} (r : request B) (s s' : L) (res : result B) :
  oracle B s r = (res, s') ->
  run oracle (call r) s =
  {| returned := res; final := s'; trace := [Event r res] |}.
Proof.
  intros E. unfold call. cbn. rewrite E. destruct res; reflexivity.
Qed.

(** A bind runs its first part, then the rest from where that stopped. *)
Lemma run_bind {A B : Type} (m : prog A) (f : A -> prog B) (s : L) :
  run oracle (m ≫= f) s =
  match returned (run oracle m s) with
  | Ok a =>
      let o := run oracle (f a) (final (run oracle m s)) in
      {| returned := returned o; final := final o;
         trace := trace (run oracle m s) ++ trace o |}
  | Raise e =>
      {| returned := Raise e; final := final (run oracle m s);
         trace := trace (run oracle m s) |}
  end.
Proof.
  change (m ≫= f) with (bind m f).
  revert s. induction m as [a | e | C r k IH]; intros s; cbn.
  - destruct (run oracle (f a) s); reflexivity.
  - reflexivity.
  - destruct (oracle C s r) as [res s']. cbn. rewrite IH.
    destruct (returned (run oracle (k res) s')); reflexivity.
Qed.

(** What is proved for every answer holds of every run. *)
Lemma wp_run {A : Type} (m : prog A) (Q : result A -> list event -> Prop)
  (s : L) :
  wp m Q -> Q (returned (run oracle m s)) (trace (run oracle m s)).
Proof.
  revert Q s. induction m as [a | e | C r k IH]; intros Q s W; cbn in *.
  - exact W.
  - exact W.
  - destruct (oracle C s r) as [res s']. cbn.
    apply (IH res (fun out t => Q out (Event r res :: t))). apply W.
Qed.

End RunFacts.

Section WpRules.
Import Py World Trace.

Lemma wp_mono {A : Type} (m : prog A) (Q Q' : result A -> list event -> Prop) :
  (forall out t, Q out t -> Q' out t) -> wp m Q -> wp m Q'.
Proof.
  revert Q Q'. induction m as [a | e | C r k IH]; intros Q Q' I W; cbn in *.
  - auto.
  - auto.
  - intros res. eapply IH; [ | apply W ]. cbn. auto.
Qed.

Lemma wp_bind {A B : Type} (m : prog A) (f : A -> prog B)
  (Q : result B -> list event -> Prop) :
  wp m (fun out t =>
          match out with
          | Ok a => wp (f a) (fun out' t' => Q out' (t ++ t'))
          | Raise e => Q (Raise e) t
          end) ->
  wp (m ≫= f) Q.
Proof.
  change (m ≫= f) with (bind m f).
  revert Q. induction m as [a | e | C r k IH]; intros Q W; cbn in *.
  - eapply wp_mono; [ | exact W ]. auto.
  - exact W.
  - intros res. apply IH. eapply wp_mono; [ | apply W ].
    intros [a | e] t; cbn; auto.
Qed.

Lemma wp_try_except {A : Type} (m : prog A) (h : exn -> prog A)
  (Q : result A -> list event -> Prop) :
  wp m (fun out t =>
          match out with
          | Ok a => Q (Ok a) t
          | Raise e => wp (h e) (fun out' t' => Q out' (t ++ t'))
          end) ->
  wp (try_except m h) Q.
Proof.
  revert Q. induction m as [a | e | C r k IH]; intros Q W; cbn in *.
  - exact W.
  - eapply wp_mono; [ | exact W ]. auto.
  - intros res. apply IH. eapply wp_mono; [ | apply W ].
    intros [a | e] t; cbn; auto.
Qed.

Lemma wp_call {B : Type} (r : request B) (Q : result B -> list event -> Prop) :
  (forall res, Q res [Event r res]) -> wp (call r) Q.
Proof. intros W res. destruct res; cbn; apply W. Qed.

Lemma wp_lift {A : Type} (r : result A) (Q : result A -> list event -> Prop) :
  Q r [] -> wp (lift r) Q.
Proof. destruct r; cbn; auto. Qed.

End WpRules.

(* ------------------------------------------------------------------ *)
(** ** Bypass of governance *)
(* ------------------------------------------------------------------ *)

Section Bypass.
Import Py World Trace CrewBlockchainIntegrator CrewWithBlockchain.
Context `{Builtins} `{Web3.Secp256k1}.
Context {L : Type}.
Variable oracle : forall B : Type, L -> request B -> result B * L.

(** C10.  When blockchain integration is disabled, or when [is_critical]
    answers false, [validate_critical_decision] returns
    [(True, None, None)] and writes nothing to the ledger: its trace holds
    no submitted transaction, so no decision is logged, no consensus is
    requested and no vote is cast. *)
Theorem validate_critical_decision_bypass (self : CrewBlockchainIntegrator.t)
  (crew_id : Z) (decision_data : value) (crew_members : list address)
  (methane_ppm : Q) (s : L) :
  enable_blockchain self = false
  \/ (exists c s',
        enable_blockchain self = true /\ client self = Some c
        /\ oracle bool s (isCritical (int_of_float methane_ppm))
           = (Ok false, s')) ->
  let o :=
    run oracle
      (validate_critical_decision self crew_id decision_data crew_members
         methane_ppm) s in
  returned o = Ok (true, None, None)
  /\ Forall (fun ev => is_write ev = false) (trace o).
Proof.
  intros [D | (c & s' & E & C & A)]; unfold validate_critical_decision.
  - rewrite D. cbn. split; [ reflexivity | constructor ].
  - rewrite E. cbn [negb].
    unfold the_client, BlockchainClient.is_critical. rewrite C.
    rewrite run_bind. cbn [run returned final trace app].
    rewrite run_bind, (run_call oracle _ _ _ _ A). cbn.
    split; [ reflexivity | repeat constructor ].
Qed.

End Bypass.

Section BypassWitnesses.
Import Py World.

(** The integrator of the scenario asks the ledger, which answers that
    1000 ppm is not critical. *)
Lemma validate_critical_decision_bypass_witness :
  let o :=
    run (Scenario.world Scenario.quiet)
      (@CrewBlockchainIntegrator.validate_critical_decision
         Scenario.builtins Scenario.signer Scenario.integrator 1
         Scenario.a_report [] 1000) tt in
  returned o = Ok (true, None, None)
  /\ Forall (fun ev => is_write ev = false) (trace o).
Proof.
  apply (@validate_critical_decision_bypass Scenario.builtins
           Scenario.signer unit (Scenario.world Scenario.quiet)).
  right. exists Scenario.agent, tt.
  split; [ reflexivity | split; reflexivity ].
Defined.

End BypassWitnesses.

(* ------------------------------------------------------------------ *)
(** ** Non-critical passes *)
(* ------------------------------------------------------------------ *)

Section NonCritical.
Import Py World Trace CrewBlockchainIntegrator CrewWithBlockchain.
Context {builtins : Builtins} {signer : Web3.Secp256k1}.
Context {L : Type}.
Variable oracle : forall B : Type, L -> request B -> result B * L.
Variable g : globals.

Lemma float_ge_below (ppm threshold : Q) :
  (ppm < threshold)%Q -> float_ge ppm threshold = false.
Proof.
  intros Lt. unfold float_ge.
  destruct (Qle_bool threshold ppm) eqn:E; [ | reflexivity ].
  apply Qle_bool_iff in E. exfalso. eapply Qlt_not_le; eauto.
Qed.

Lemma no_anomalies_below (readings : list dict) :
  Forall (below_threshold g) readings ->
  detect_anomalies_from_readings readings (ABSOLUTE_EMERGENCY_PPM g) = Ok [].
Proof.
  induction 1 as [ | r rest (ppm & E & Lt) _ IH ]; cbn.
  - reflexivity.
  - rewrite E, IH, (float_ge_below _ _ Lt). reflexivity.
Qed.

(** C6.  A detection pass whose readings are all below the critical
    threshold returns early, with no alert and an untouched
    [blockchain_info]; its only request is the fetch of the readings, so it
    performs no ledger write at all: no crew formation, no decision
    logging, no consensus request, no vote. *)
Theorem noncritical_pass_bypasses_governance (limit : Z)
  (send_to : option (list string)) (s s' : L)
  (readings : option (list dict)) :
  oracle _ s (get_recent_readings limit) = (Ok readings, s') ->
  Forall (below_threshold g) (default [] readings) ->
  let o :=
    run oracle (run_detection_with_blockchain_validation g limit send_to) s in
  (exists text, returned o = Ok (false, text, untouched))
  /\ trace o = [Event (get_recent_readings limit) (Ok readings)]
  /\ Forall (fun ev => is_write ev = false) (trace o).
Proof.
  intros A Below. unfold run_detection_with_blockchain_validation.
  rewrite run_bind, (run_call oracle _ _ _ _ A). cbn [returned final trace].
  destruct (default [] readings) as [ | r rest ] eqn:E.
  - cbn. split; [ eexists; reflexivity | ].
    split; [ reflexivity | repeat constructor ].
  - rewrite run_bind, (no_anomalies_below _ Below). cbn.
    split; [ eexists; reflexivity | ].
    split; [ reflexivity | repeat constructor ].
Qed.

End NonCritical.

Section NonCriticalWitnesses.
Import Py World CrewWithBlockchain.

(** The bypass scenario: 1000 ppm against 5000 ppm. *)
Lemma noncritical_pass_bypasses_governance_witness :
  let g := Scenario.module_state (Some Scenario.integrator) in
  let o :=
    run (Scenario.world Scenario.quiet)
      (@run_detection_with_blockchain_validation Scenario.builtins
         Scenario.signer g 50 Scenario.recipients) tt in
  (exists text, returned o = Ok (false, text, untouched))
  /\ trace o =
     [Event (get_recent_readings 50)
        (Ok (Some [Scenario.reading_of 1000]))]
  /\ Forall (fun ev => is_write ev = false) (trace o).
Proof.
  apply (@noncritical_pass_bypasses_governance Scenario.builtins
           Scenario.signer unit (Scenario.world Scenario.quiet)
           (Scenario.module_state (Some Scenario.integrator)) 50
           Scenario.recipients tt tt (Some [Scenario.reading_of 1000])).
  - reflexivity.
  - repeat constructor. exists (inject_Z 1000).
    split; [ reflexivity | reflexivity ].
Defined.

End NonCriticalWitnesses.


(* ------------------------------------------------------------------ *)
(** ** Symbolic execution *)
(* ------------------------------------------------------------------ *)

Section WpFacts.
Import Py World Trace.

Lemma wp_true {A : Type} (m : prog A) : wp m (fun _ _ => True).
Proof. induction m; cbn; auto. Qed.

Lemma wp_conj {A : Type} (m : prog A)
  (Q1 Q2 : result A -> list event -> Prop) :
  wp m Q1 -> wp m Q2 -> wp m (fun out t => Q1 out t /\ Q2 out t).
Proof.
  revert Q1 Q2. induction m as [a | e | C r k IH]; intros Q1 Q2 W1 W2;
    cbn in *.
  - split; assumption.
  - split; assumption.
  - intros res. apply (IH res _ _ (W1 res) (W2 res)).
Qed.

End WpFacts.

Ltac head_of t :=
  lazymatch t with
  | ?f _ => head_of f
  | _ => t
  end.

(** One step of a program under [wp]: split a bind or a handler, answer a
    request in both ways, decide a test, or open a definition. *)
Ltac wp_step :=
  lazymatch goal with
  | |- Trace.wp (mbind _ _) _ => apply wp_bind
  | |- Trace.wp (World.try_except _ _) _ => apply wp_try_except
  | |- Trace.wp (World.call _) _ => apply wp_call; intros [? | ?]
  | |- Trace.wp (World.lift _) _ => apply wp_lift
  | |- Trace.wp (World.Ret _) _ => cbn [Trace.wp]
  | |- Trace.wp (World.Throw _) _ => cbn [Trace.wp]
  | |- Trace.wp (if ?b then _ else _) _ => destruct b eqn:?
  | |- Trace.wp (match ?x with _ => _ end) _ => destruct x eqn:?
  | |- match ?r with Py.Ok _ => _ | Py.Raise _ => _ end => destruct r eqn:?
  end; cbn beta iota zeta.

(** Open the definition at the head of the program. *)
Ltac wp_open :=
  lazymatch goal with
  | |- Trace.wp ?m _ => let h := head_of m in unfold h
  end; cbn beta iota zeta.

(** Run a program to its ends, opening every definition on the way. *)
Ltac wp_run_through := repeat first [ wp_step | wp_open ].

(** Use a proved fact about the program at the head. *)
Ltac wp_apply L :=
  eapply wp_mono; [ | apply L ]; cbn beta.

(** A hypothesis that some event of a concrete trace has a property, split
    into one case per event. *)
Ltac some_event H :=
  cbn [app] in H;
  repeat first
    [ apply Exists_nil in H; contradiction
    | apply Exists_cons in H as [H | H] ];
  cbn in H.


(* ------------------------------------------------------------------ *)
(** ** The digest has 32 bytes *)
(* ------------------------------------------------------------------ *)

Section DigestLength.
Import Bytes Keccak.

Lemma iota_length (rc : N) (st : list N) :
  List.length (iota rc st) = List.length st.
Proof. destruct st; reflexivity. Qed.

Lemma round_length (st : list N) (rc : N) : List.length (round st rc) = 25%nat.
Proof.
  unfold round. rewrite iota_length. unfold chi.
  rewrite length_map. reflexivity.
Qed.

Lemma keccak_f_length (st : list N) : List.length (keccak_f st) = 25%nat.
Proof.
  unfold keccak_f, round_constants. cbn [fold_left]. apply round_length.
Qed.

Lemma absorb_length (fuel : nat) (st ls : list N) :
  List.length st = 25%nat -> List.length (absorb fuel st ls) = 25%nat.
Proof.
  revert st ls. induction fuel as [ | fuel IH ]; intros st ls E;
    cbn [absorb].
  - exact E.
  - destruct ls; [ exact E | ]. apply IH, keccak_f_length.
Qed.

Lemma keccak256_length (msg : bytes) :
  List.length (keccak256 msg) = 32%nat.
Proof.
  unfold keccak256. cbv zeta.
  match goal with
  | |- context [absorb ?n ?st ?ls] =>
      pose proof (absorb_length n st ls eq_refl) as E;
      generalize dependent (absorb n st ls)
  end.
  intros st E.
  destruct st as [ | a [ | b [ | c [ | d rest ] ] ] ]; try discriminate E.
  reflexivity.
Qed.

End DigestLength.

(* ------------------------------------------------------------------ *)
(** ** Canonical decision hashing *)
(* ------------------------------------------------------------------ *)

Section KeyOrder.
Import Py Json.

Lemma leb_cases (a b : string) :
  String.leb a b = true <-> a = b \/ String_as_OT.lt a b.
Proof.
  unfold String.leb.
  destruct (String.compare a b) eqn:E.
  - apply String_as_OT.cmp_eq in E. tauto.
  - apply String_as_OT.cmp_lt in E. tauto.
  - split; [ discriminate | ].
    intros [-> | Lt].
    + assert (E' : String_as_OT.cmp b b = Eq)
        by (apply String_as_OT.cmp_eq; reflexivity).
      unfold String_as_OT.cmp in E'. congruence.
    + apply String_as_OT.cmp_lt in Lt. unfold String_as_OT.cmp in Lt.
      congruence.
Qed.

Lemma leb_trans (a b c : string) :
  String.leb a b = true -> String.leb b c = true -> String.leb a c = true.
Proof.
  rewrite !leb_cases. intros [-> | L1] [-> | L2]; auto.
  right. eapply String_as_OT.lt_trans; eauto.
Qed.

Lemma item_le_total {A : Type} : Total (@item_le A).
Proof.
  intros x y. unfold item_le.
  destruct (String.leb_total (fst x) (fst y)) as [E | E]; rewrite E; cbn; auto.
Qed.

Lemma item_le_trans {A : Type} : Transitive (@item_le A).
Proof.
  intros x y z. unfold item_le. rewrite !Is_true_true. apply leb_trans.
Qed.

(** Items sorted by key are determined by the set of items when keys are
    distinct. *)
Lemma sorted_by_key_unique {A : Type} (l1 l2 : list (string * A)) :
  StronglySorted item_le l1 -> StronglySorted item_le l2 ->
  Permutation l1 l2 -> NoDup (map fst l1) -> l1 = l2.
Proof.
  revert l2. induction l1 as [ | x l1 IH ]; intros l2 S1 S2 P N.
  - apply Permutation_nil in P. congruence.
  - destruct l2 as [ | y l2 ].
    { symmetry in P. apply Permutation_nil in P. discriminate. }
    apply StronglySorted_inv in S1 as [S1 F1].
    apply StronglySorted_inv in S2 as [S2 F2].
    inversion N as [ | ? ? Nx N' ]; subst.
    assert (x = y) as <-.
    { assert (Iy : In y (x :: l1))
        by (eapply Permutation_in; [ symmetry; exact P | left; reflexivity ]).
      assert (Ix : In x (y :: l2))
        by (eapply Permutation_in; [ exact P | left; reflexivity ]).
      destruct Iy as [ | Iy ]; [ assumption | ].
      destruct Ix as [ | Ix ]; [ congruence | ].
      exfalso. apply Nx.
      rewrite Forall_forall in F1, F2.
      assert (K : fst x = fst y).
      { apply String.leb_antisym; apply Is_true_true.
        - apply (F1 y). apply list_elem_of_In; exact Iy.
        - apply (F2 x). apply list_elem_of_In; exact Ix. }
      rewrite K. apply list_elem_of_In, in_map, Iy. }
    f_equal. apply IH; auto.
    eapply Permutation_cons_inv; eauto.
Qed.

(** Sorting by key forgets the insertion order. *)
Lemma sorted_items_permutation {A : Type} (l1 l2 : list (string * A)) :
  Permutation l1 l2 -> NoDup (map fst l1) ->
  sorted_items l1 = sorted_items l2.
Proof.
  intros P N. unfold sorted_items.
  apply sorted_by_key_unique.
  - apply StronglySorted_merge_sort; [ apply item_le_trans | apply item_le_total ].
  - apply StronglySorted_merge_sort; [ apply item_le_trans | apply item_le_total ].
  - rewrite !merge_sort_Permutation. exact P.
  - assert (E : Permutation (map fst (merge_sort item_le l1)) (map fst l1))
      by apply Permutation_map, merge_sort_Permutation.
    rewrite E. exact N.
Qed.

End KeyOrder.

Section CanonicalHash.
Import Py Json CrewBlockchainIntegrator.
Context {builtins : Builtins}.

(** Induction on [same_pairs] with the hypothesis available for the
    members of lists and dictionaries. *)
Section SamePairsInduction.
Variable P : value -> value -> Prop.
Hypothesis Hnone : P PNone PNone.
Hypothesis Hbool : forall b, P (PBool b) (PBool b).
Hypothesis Hint : forall z, P (PInt z) (PInt z).
Hypothesis Hfloat : forall q, P (PFloat q) (PFloat q).
Hypothesis Hstr : forall s, P (PStr s) (PStr s).
Hypothesis Hlist : forall l1 l2,
  Forall2 same_pairs l1 l2 -> Forall2 P l1 l2 -> P (PList l1) (PList l2).
Hypothesis Hdict : forall items1 reordered items2,
  Permutation items1 reordered ->
  Forall2 (fun x y => fst x = fst y /\ same_pairs (snd x) (snd y))
    reordered items2 ->
  Forall2 (fun x y => fst x = fst y /\ P (snd x) (snd y)) reordered items2 ->
  P (PDict items1) (PDict items2).

Lemma same_pairs_strong_ind (v1 v2 : value) : same_pairs v1 v2 -> P v1 v2.
Proof.
  revert v1 v2. fix IH 3. intros v1 v2 S.
  destruct S as [ | b | z | q | s | l1 l2 F | items1 reordered items2 Perm F ].
  - exact Hnone.
  - apply Hbool.
  - apply Hint.
  - apply Hfloat.
  - apply Hstr.
  - apply Hlist; [ exact F | ].
    revert l1 l2 F. fix members 3. intros l1 l2 F.
    destruct F as [ | x y l1 l2 h t ]; constructor.
    + apply IH. exact h.
    + apply members. exact t.
  - apply (Hdict items1 reordered items2 Perm F).
    clear Perm. revert reordered items2 F. fix members 3. intros l1 l2 F.
    destruct F as [ | x y l1 l2 [k h] t ]; constructor.
    + split; [ exact k | apply IH; exact h ].
    + apply members. exact t.
Qed.

End SamePairsInduction.

(** With [sort_keys=True] the text does not depend on the order of the keys,
    whatever the indentation and the nesting depth. *)
Lemma iterencode_sorted_same_pairs (indent : option nat) (v1 v2 : value) :
  same_pairs v1 v2 -> well_formed v1 ->
  forall level,
    iterencode indent true level v1 = iterencode indent true level v2.
Proof.
  intros S. induction S as
    [ | b | z | q | s | l1 l2 _ IH | items1 reordered items2 Perm _ IH ]
    using same_pairs_strong_ind; intros W level; try reflexivity.
  - (* lists *)
    cbn. f_equal.
    inversion W as [ | | | | | l Wl | ]; subst.
    clear W. induction IH as [ | x y l1 l2 E _ IHl ]; [ reflexivity | ].
    inversion Wl; subst. cbn. f_equal; auto.
  - (* dictionaries *)
    inversion W as [ | | | | | | items N Wv ]; subst.
    cbn [iterencode]. f_equal. f_equal. unfold in_order.
    set (enc := fun kv : string * value =>
                  let '(k, x) := kv in
                  (k, iterencode indent true (S level) x)).
    transitivity (sorted_items (map enc reordered)).
    + apply sorted_items_permutation.
      * apply Permutation_map. exact Perm.
      * rewrite map_map.
        erewrite map_ext; [ exact N | ]. intros [k x]. reflexivity.
    + f_equal.
      assert (Wr : Forall (fun kv => well_formed (snd kv)) reordered).
      { rewrite Forall_forall in Wv |- *. intros kv I. apply Wv.
        rewrite Perm. exact I. }
      clear Perm N Wv W.
      induction IH as [ | [k1 x1] [k2 x2] l1 l2 [K E] _ IHl ];
        [ reflexivity | ].
      inversion Wr; subst. cbn in *. subst k2.
      rewrite (E ltac:(assumption) (S level)). f_equal. auto.
Qed.

(** C5.  Decision hashing is canonical and order-independent: two decision
    payloads holding exactly the same key/value pairs, whatever the order
    in which their keys appear, have the same [decision_hash], the digest
    being taken over the sorted-key serialization. *)
Theorem decision_hash_order_independent (payload1 payload2 : value) :
  well_formed payload1 ->
  same_pairs payload1 payload2 ->
  Json.dumps None true payload1 = Json.dumps None true payload2
  /\ _generate_decision_hash payload1 = _generate_decision_hash payload2.
Proof.
  intros W S.
  assert (E : Json.dumps None true payload1 = Json.dumps None true payload2)
    by (unfold Json.dumps; apply iterencode_sorted_same_pairs; assumption).
  split; [ exact E | ].
  unfold _generate_decision_hash. rewrite E. reflexivity.
Qed.

End CanonicalHash.

Section CanonicalHashWitnesses.
Import Py CrewBlockchainIntegrator.

(** The same decision written by two processes, keys in different orders at
    both levels. *)
Lemma decision_hash_order_independent_witness :
  @Json.dumps Scenario.builtins None true Scenario.payload_a
  = @Json.dumps Scenario.builtins None true Scenario.payload_b
  /\ @_generate_decision_hash Scenario.builtins Scenario.payload_a
     = @_generate_decision_hash Scenario.builtins Scenario.payload_b.
Proof.
  apply (@decision_hash_order_independent Scenario.builtins).
  - constructor.
    + compute_done.
    + repeat constructor; compute_done.
  - unfold Scenario.payload_a, Scenario.payload_b.
    eapply same_dict with
      (reordered :=
         [ ("actions",
            PDict [("notify", PBool true); ("shutdown", PBool false)]);
           ("explanation", PStr "leak at valve 3");
           ("severity", PStr "critical") ]).
    + eapply perm_trans; [ apply perm_skip, perm_swap | ].
      eapply perm_trans; [ apply perm_swap | ].
      apply perm_skip, perm_swap.
    + repeat constructor.
      eapply same_dict with
        (reordered := [("shutdown", PBool false); ("notify", PBool true)]).
      * apply perm_swap.
      * repeat constructor.
Defined.

End CanonicalHashWitnesses.

(* ------------------------------------------------------------------ *)
(** ** Nonce-bound signatures *)
(* ------------------------------------------------------------------ *)

Section NonceBinding.
Import Py World Web3 BlockchainClient.



(** What [signed_message] computes for a 32-byte hash and a nonce in
    range. *)
Lemma signed_message_in_range (decision_hash : bytes) (nonce : Z) :
  List.length decision_hash = 32%nat -> 0 <= nonce < 2 ^ 256 ->
  signed_message decision_hash nonce =
  Ok (encode_defunct
        (Keccak.keccak256 (decision_hash ++ be_bytes 32 nonce))).
Proof.
  intros Len [Lo Hi]. unfold signed_message, solidity_keccak.
  cbn [encode_packed hex_encode_abi_type]. rewrite Len.
  replace (32 <=? 32)%nat with true by reflexivity.
  apply Z.leb_le in Lo. apply Z.ltb_lt in Hi. rewrite Lo, Hi.
  cbn [andb]. rewrite app_nil_r. reflexivity.
Qed.

(** The signature returned by [sign_decision] is the signature of the
    message for the nonce the ledger reports. *)
Lemma sign_decision_signs_message {signer : Secp256k1} {L : Type}
  (oracle : forall B : Type, L -> request B -> result B * L)
  (self : BlockchainClient.t) (decision_hash : bytes) (nonce : Z)
  (m : SignableMessage) (s s' : L) :
  oracle Z s (getNonce (address self)) = (Ok nonce, s') ->
  signed_message decision_hash nonce = Ok m ->
  returned (run oracle (sign_decision self decision_hash) s)
  = Ok (ecdsa_sign (private_key self) (_hash_eip191_message m)).
Proof.
  intros A M. unfold sign_decision, get_nonce.
  rewrite run_bind, (run_call oracle _ _ _ _ A). cbn [returned final].
  rewrite run_bind, M. reflexivity.
Qed.



End NonceBinding.

(* ------------------------------------------------------------------ *)
(** ** Event identity *)
(* ------------------------------------------------------------------ *)

Section EventIdentity.
Import Py World CrewBlockchainIntegrator.

(** The id is the digest of the timestamp text as given, a dash and the
    node id: nothing rounds the timestamp to a window. *)
Lemma generate_event_id_digest {builtins : Builtins} {L : Type}
  (oracle : forall B : Type, L -> request B -> result B * L)
  (event_data : dict) (now : string) (s s' : L) :
  oracle _ s utcnow_isoformat = (Ok now, s') ->
  returned (run oracle (_generate_event_id event_data) s)
  = Ok (Keccak.keccak256
          (of_str (event_str (get event_data "timestamp" (PStr now))
                     (get event_data "node_id" (PStr "unknown"))))).
Proof.
  intros A. unfold _generate_event_id.
  rewrite run_bind, (run_call oracle _ _ _ _ A). cbn [returned final].
  unfold Web3.solidity_keccak. cbn [Web3.encode_packed Web3.hex_encode_abi_type].
  rewrite app_nil_r. reflexivity.
Qed.

(** C3 (the code departs from it).  Two detections by the same node, 650
    microseconds apart and so within one same-event window of 30 seconds,
    get different event ids: the id hashes the full timestamp. *)
Theorem event_id_differs_within_window :
  let first := Scenario.event_at "2024-05-01T12:00:00.000250+00:00" in
  let retry := Scenario.event_at "2024-05-01T12:00:00.000900+00:00" in
  let id_of event_data :=
    returned
      (run (Scenario.world Scenario.quiet)
         (@_generate_event_id Scenario.builtins event_data) tt) in
  exists id1 id2,
    id_of first = Ok id1 /\ id_of retry = Ok id2
    /\ hex id1
       = "2db1519f15c9311af64c9e9e0b2f6b174069f14c2a72a3d1fb0d0ff7108fccd7"
    /\ hex id2
       = "9da56201db3c9b30c60fd858c7cf91984333316a0fa6905ad48e27a5302d8b1e"
    /\ id1 <> id2.
Proof.
  cbv zeta. do 2 eexists.
  split; [ vm_compute; reflexivity | ].
  split; [ vm_compute; reflexivity | ].
  split; [ vm_compute; reflexivity | ].
  split; [ vm_compute; reflexivity | ].
  vm_compute. discriminate.
Qed.

End EventIdentity.

(* ------------------------------------------------------------------ *)
(** ** Rejected submissions *)
(* ------------------------------------------------------------------ *)

Section Rejection.
Import Py World Trace BlockchainClient CrewBlockchainIntegrator.
Context {builtins : Builtins} {signer : Web3.Secp256k1}.

(** The receipt that let the submission through was not a rejection. *)
Ltac accepted_not_rejected :=
  match goal with
  | A : (status ?r =? 1) = true, R : status ?r <> 1 |- _ =>
      apply Z.eqb_eq in A; contradiction
  end.

Ltac rejected_cases :=
  let R := fresh "R" in
  intros R; some_event R;
  try contradiction; try reflexivity; try accepted_not_rejected.

Lemma send_transaction_rejected (tx : transaction) :
  wp (_send_transaction tx)
    (fun out t => Exists rejected t -> out = Raise (PyExc "Exception" "Transaction failed")).
Proof. wp_run_through; rejected_cases. Qed.

Lemma validate_crew_formation_status (self : CrewBlockchainIntegrator.t)
  (event_data : dict) (crew_members : list World.address) (methane_ppm : Q) :
  wp (validate_crew_formation self event_data crew_members methane_ppm)
    (fun out t =>
       (exists v, out = Ok v)
       /\ (Exists rejected t -> out = Ok (false, None, None))).
Proof.
  wp_run_through; (split; [ eexists; reflexivity | rejected_cases ]).
Qed.

Lemma validate_critical_decision_status (self : CrewBlockchainIntegrator.t)
  (crew_id : Z) (decision_data : value) (crew_members : list World.address)
  (methane_ppm : Q) :
  wp (validate_critical_decision self crew_id decision_data crew_members
        methane_ppm)
    (fun out t => Exists rejected t -> out = Ok (false, None, None)).
Proof. wp_run_through; rejected_cases. Qed.

Lemma mark_action_executed_status (self : CrewBlockchainIntegrator.t)
  (decision_id : option Z) (action_type : string) (success : bool) :
  wp (mark_action_executed self decision_id action_type success)
    (fun out t =>
       (exists v, out = Ok v) /\ (Exists rejected t -> out = Ok None)).
Proof.
  wp_run_through; (split; [ eexists; reflexivity | rejected_cases ]).
Qed.

Context {L : Type}.
Variable oracle : forall B : Type, L -> request B -> result B * L.

(** C9 (amended).  A submission whose receipt has a status other than 1
    makes the client raise a plain [Exception] with the fixed message
    "Transaction failed": no typed rejection, no reason.  The integrator
    turns it into a status: [validate_crew_formation] and
    [mark_action_executed] always return, and return [(False, None, None)]
    and [None] after a rejection; [validate_critical_decision] returns
    [(False, None, None)] after a rejection. *)
Theorem rejected_submission_becomes_status (self : CrewBlockchainIntegrator.t)
  (tx : transaction) (event_data : dict) (crew_members : list World.address)
  (methane_ppm : Q) (crew_id : Z) (decision_data : value)
  (decision_id : option Z) (action_type : string) (success : bool) (s : L) :
  let sent := run oracle (_send_transaction tx) s in
  let formed :=
    run oracle
      (validate_crew_formation self event_data crew_members methane_ppm) s in
  let decided :=
    run oracle
      (validate_critical_decision self crew_id decision_data crew_members
         methane_ppm) s in
  let marked :=
    run oracle (mark_action_executed self decision_id action_type success) s in
  (Exists rejected (trace sent) ->
   returned sent = Raise (PyExc "Exception" "Transaction failed"))
  /\ (exists v, returned formed = Ok v)
  /\ (Exists rejected (trace formed) ->
      returned formed = Ok (false, None, None))
  /\ (Exists rejected (trace decided) ->
      returned decided = Ok (false, None, None))
  /\ (exists v, returned marked = Ok v)
  /\ (Exists rejected (trace marked) -> returned marked = Ok None).
Proof.
  cbv zeta.
  pose proof (wp_run oracle _ _ s (send_transaction_rejected tx)) as S.
  pose proof (wp_run oracle _ _ s
                (validate_crew_formation_status self event_data crew_members
                   methane_ppm)) as [F1 F2].
  pose proof (wp_run oracle _ _ s
                (validate_critical_decision_status self crew_id decision_data
                   crew_members methane_ppm)) as D.
  pose proof (wp_run oracle _ _ s
                (mark_action_executed_status self decision_id action_type
                   success)) as [M1 M2].
  repeat split; assumption.
Qed.

End Rejection.

Section RejectionScenario.
Import Py World Trace BlockchainClient CrewBlockchainIntegrator.

(** When the ledger reverts the transaction, what the client raises is not
    a [LedgerRejection]. *)
Lemma rejection_is_a_plain_exception :
  ~ AsStated.rejection_raises_LedgerRejection
      (Scenario.world Scenario.rejecting) tt Scenario.a_transaction.
Proof.
  intros C.
  destruct (C [xab; xcd] (Scenario.the_receipt Scenario.rejecting) tt tt
              eq_refl eq_refl) as [reason E].
  - cbn. discriminate.
  - vm_compute in E. discriminate E.
Qed.

(** The reverted crew formation as the integrator reports it. *)
Example rejected_crew_formation :
  let o :=
    run (Scenario.world Scenario.rejecting)
      (@validate_crew_formation Scenario.builtins Scenario.integrator
         (Scenario.event_at "2024-05-01T12:00:00.000250+00:00") [] 6000) tt in
  returned o = Ok (false, None, None) /\ Exists rejected (trace o).
Proof.
  split; [ vm_compute; reflexivity | ].
  do 4 apply Exists_cons_tl. apply Exists_cons_hd. cbn. discriminate.
Qed.

End RejectionScenario.



(* ------------------------------------------------------------------ *)
(** ** Execution marking *)
(* ------------------------------------------------------------------ *)

Section ExecutionMarking.
Import Py World Trace CrewBlockchainIntegrator CrewWithBlockchain Shape.
Context {builtins : Builtins} {signer : Web3.Secp256k1}.





Variable g : globals.





Lemma truthy_int_Some (z : option Z) :
  truthy_int z = true -> exists d, z = Some d /\ d <> 0.
Proof.
  destruct z as [d | ]; [ | discriminate ]. cbn. intros T.
  exists d. split; [ reflexivity | ].
  intros ->. discriminate T.
Qed.





End ExecutionMarking.

Section ExecutionMarkingTheorem.
Import Py World Trace CrewBlockchainIntegrator CrewWithBlockchain Shape.
Context {builtins : Builtins} {signer : Web3.Secp256k1}.
Context {L : Type}.
Variable oracle : forall B : Type, L -> request B -> result B * L.
Variable g : globals.


End ExecutionMarkingTheorem.

Section ExecutionMarkingScenario.
Import Py World Trace CrewWithBlockchain.



End ExecutionMarkingScenario.

(* ------------------------------------------------------------------ *)
(** ** Reasoning failure *)
(* ------------------------------------------------------------------ *)

Section ReasoningFailure.
Import Py World Trace Web3 BlockchainClient CrewBlockchainIntegrator.
Import CrewWithBlockchain Shape.
Context {builtins : Builtins} {signer : Web3.Secp256k1}.

Lemma generate_decision_hash_digest (decision_data : value) :
  _generate_decision_hash decision_data
  = Ok (Keccak.keccak256 (of_str (Json.dumps None true decision_data))).
Proof.
  unfold _generate_decision_hash, solidity_keccak.
  cbn [encode_packed hex_encode_abi_type]. rewrite app_nil_r. reflexivity.
Qed.









Variable g : globals.

Lemma enabled_integrator_enabled (bi : CrewBlockchainIntegrator.t) :
  enabled_integrator g = Some bi -> enable_blockchain bi = true.
Proof.
  unfold enabled_integrator.
  destruct (blockchain_integrator g) as [bi' | ]; [ | discriminate ].
  destruct (enable_blockchain bi') eqn:E; [ | discriminate ].
  intros [= <-]. exact E.
Qed.









End ReasoningFailure.

Section ReasoningFailureTheorem.
Import Py World Trace CrewBlockchainIntegrator CrewWithBlockchain Shape.
Context {builtins : Builtins} {signer : Web3.Secp256k1}.
Context {L : Type}.
Variable oracle : forall B : Type, L -> request B -> result B * L.
Variable g : globals.


End ReasoningFailureTheorem.

Section ReasoningFailureScenario.
Import Py World Trace CrewWithBlockchain Shape.



End ReasoningFailureScenario.
(* ------------------------------------------------------------------ *)
(** ** Crew member addresses *)
(* ------------------------------------------------------------------ *)

Section CrewMembers.
Import Py CrewWithBlockchain Observe.

Lemma pad_addresses_closed (l : list string) :
  (List.length l <= 4)%nat ->
  pad_addresses 4 l
  = l ++ map dummy_address (seq (List.length l) (4 - List.length l)).
Proof.
  intros Le.
  destruct l as [ | a [ | b [ | c [ | d [ | e l ] ] ] ] ];
    try reflexivity.
  cbn in Le. lia.
Qed.

Lemma kept_addresses (g : globals) :
  omap (fun addr : option string => if truthy_str addr then addr else None)
    (map (fun suffix =>
            getenv g ("NODE" ++ default "1" (getenv g "NODE_NUMBER") ++ suffix))
       role_variables)
  = configured_addresses g.
Proof.
  unfold configured_addresses. cbv zeta.
  generalize (default "1" (getenv g "NODE_NUMBER")). intros node_num.
  generalize role_variables. intros l.
  induction l as [ | x l IH ]; [ reflexivity | ].
  cbn. rewrite IH.
  match goal with
  | |- context [getenv g ?n] => destruct (getenv g n) as [ [ | ? ? ] | ]
  end; reflexivity.
Qed.

Lemma configured_addresses_length (g : globals) :
  (List.length (configured_addresses g) <= 4)%nat.
Proof.
  unfold configured_addresses. cbv zeta.
  generalize (default "1" (getenv g "NODE_NUMBER")). intros node_num.
  change 4%nat with (List.length role_variables).
  generalize role_variables. intros l.
  induction l as [ | x l IH ]; cbn; [ lia | ].
  match goal with
  | |- context [getenv g ?n] => destruct (getenv g n) as [ [ | ? ? ] | ]
  end; cbn; lia.
Qed.

Lemma configured_addresses_nonempty (g : globals) :
  Forall (fun a => a <> EmptyString) (configured_addresses g).
Proof.
  unfold configured_addresses. cbv zeta.
  generalize (default "1" (getenv g "NODE_NUMBER")). intros node_num.
  generalize role_variables. intros l.
  induction l as [ | x l IH ]; cbn; [ constructor | ].
  match goal with
  | |- context [getenv g ?n] => destruct (getenv g n) as [ [ | ? ? ] | ]
  end; cbn; try exact IH.
  constructor; [ discriminate | exact IH ].
Qed.

Lemma crew_member_addresses_closed (g : globals) :
  _get_crew_member_addresses g
  = configured_addresses g
    ++ map dummy_address
         (seq (List.length (configured_addresses g))
            (4 - List.length (configured_addresses g))).
Proof.
  unfold _get_crew_member_addresses. cbv zeta.
  change [getenv g ?a; getenv g ?b; getenv g ?c; getenv g ?d] with
    (map (fun suffix =>
            getenv g ("NODE" ++ default "1" (getenv g "NODE_NUMBER") ++ suffix))
       role_variables).
  rewrite kept_addresses. apply pad_addresses_closed.
  apply configured_addresses_length.
Qed.

Lemma dummy_addresses_length (k : nat) :
  (k <= 4)%nat ->
  Forall (fun a => String.length a = 42%nat)
    (map dummy_address (seq k (4 - k))).
Proof.
  intros Le.
  destruct k as [ | [ | [ | [ | [ | n ] ] ] ] ]; try lia; repeat constructor.
Qed.

(** X1.  [_get_crew_member_addresses] always returns exactly four
    addresses, none of them empty, whatever the environment holds. *)
Theorem crew_member_addresses_four (g : globals) :
  List.length (_get_crew_member_addresses g) = 4%nat
  /\ Forall (fun a => a <> EmptyString) (_get_crew_member_addresses g).
Proof.
  rewrite crew_member_addresses_closed.
  pose proof (configured_addresses_length g) as Le. split.
  - rewrite length_app, length_map, length_seq. lia.
  - apply Forall_app. split; [ apply configured_addresses_nonempty | ].
    eapply Forall_impl; [ apply dummy_addresses_length, Le | ].
    cbn. intros a L ->. discriminate L.
Qed.

(** X2.  The addresses configured in the environment come first, in the
    order sensor, aggregator, decision, coordinator; the list is filled up
    to four with placeholder addresses of 42 characters, the placeholder at
    (0-based) position [k] being [dummy_address k], "0x", 39 zeros and the
    digit [k + 1]. *)
Theorem crew_member_addresses_padding (g : globals) :
  let configured := configured_addresses g in
  let missing := (4 - List.length configured)%nat in
  _get_crew_member_addresses g
  = configured ++ map dummy_address (seq (List.length configured) missing)
  /\ Forall (fun a => String.length a = 42%nat)
       (map dummy_address (seq (List.length configured) missing))
  /\ map dummy_address (seq 0 4)
     = [ "0x0000000000000000000000000000000000000001";
         "0x0000000000000000000000000000000000000002";
         "0x0000000000000000000000000000000000000003";
         "0x0000000000000000000000000000000000000004" ].
Proof.
  cbv zeta. split; [ apply crew_member_addresses_closed | ].
  split; [ apply dummy_addresses_length, configured_addresses_length | ].
  reflexivity.
Qed.

End CrewMembers.

(* ------------------------------------------------------------------ *)
(** ** Anomaly detection *)
(* ------------------------------------------------------------------ *)

Section DetectionFacts.
Import Py CrewWithBlockchain Observe.
Context {builtins : Builtins}.

Lemma detect_ok_inv (r : dict) (rest : list dict) (thr : Q)
  (anomalies : list anomaly) :
  detect_anomalies_from_readings (r :: rest) thr = Ok anomalies ->
  exists ppm tail,
    reading_ppm r = Ok ppm
    /\ detect_anomalies_from_readings rest thr = Ok tail
    /\ anomalies =
       if float_ge ppm thr
       then {| reason := "ppm >= " ++ float_repr thr; reading := r |} :: tail
       else tail.
Proof.
  cbn. destruct (reading_ppm r) as [ppm | e]; [ | discriminate ].
  destruct (detect_anomalies_from_readings rest thr) as [tail | e];
    [ | discriminate ].
  intros E. exists ppm, tail. repeat split.
  destruct (float_ge ppm thr); congruence.
Qed.

Lemma detect_anomalies_filter (readings : list dict) (thr : Q)
  (anomalies : list anomaly) :
  detect_anomalies_from_readings readings thr = Ok anomalies ->
  map reading anomalies = List.filter (at_or_above thr) readings
  /\ Forall (fun a => reason a = ("ppm >= " ++ float_repr thr)%string
                      /\ at_or_above thr (reading a) = true) anomalies.
Proof.
  revert anomalies.
  induction readings as [ | r rest IH ]; intros anomalies E.
  - injection E as <-. split; constructor.
  - apply detect_ok_inv in E as (ppm & tail & P & T & ->).
    destruct (IH tail T) as [M F].
    cbn [List.filter]. unfold at_or_above at 1 3. rewrite P.
    destruct (float_ge ppm thr) eqn:G.
    + cbn [map reading]. rewrite M. split; [ reflexivity | ].
      constructor; [ | exact F ].
      cbn. split; [ reflexivity | ]. unfold at_or_above. rewrite P. exact G.
    + split; assumption.
Qed.

(** X3.  When detection returns, the anomalies are the readings at or
    above the threshold, each once and in the order of the readings, and
    each carries the reason "ppm >= threshold". *)
Theorem detected_anomalies_are_readings_above (readings : list dict)
  (thr : Q) :
  match detect_anomalies_from_readings readings thr with
  | Ok anomalies =>
      map reading anomalies = List.filter (at_or_above thr) readings
      /\ Forall (fun a => reason a = ("ppm >= " ++ float_repr thr)%string)
           anomalies
  | Raise _ => True
  end.
Proof.
  destruct (detect_anomalies_from_readings readings thr) as [anomalies | e]
    eqn:E; [ | exact I ].
  destruct (detect_anomalies_filter _ _ _ E) as [M F].
  split; [ exact M | ].
  eapply Forall_impl; [ exact F | ]. cbn. tauto.
Qed.

Lemma detection_returns_iff (readings : list dict) (thr : Q) :
  (exists anomalies, detect_anomalies_from_readings readings thr
                     = Ok anomalies)
  <-> Forall convertible readings.
Proof.
  induction readings as [ | r rest IH ].
  - split; [ constructor | eexists; reflexivity ].
  - split.
    + intros [anomalies E].
      apply detect_ok_inv in E as (ppm & tail & P & T & _).
      constructor; [ exists ppm; exact P | apply IH; eauto ].
    + intros F. apply Forall_cons in F as [[ppm P] F].
      apply IH in F as [tail T]. cbn. rewrite P, T.
      destruct (float_ge ppm thr); eexists; reflexivity.
Qed.

(** X4.  Detection returns exactly when the methane level of every
    reading converts to a float; otherwise it raises the conversion error of
    the first reading that does not convert, whatever the threshold and
    whatever the other readings hold. *)
Theorem detection_fails_on_malformed_reading (readings : list dict)
  (thr : Q) :
  ((exists anomalies, detect_anomalies_from_readings readings thr
                      = Ok anomalies)
   <-> Forall convertible readings)
  /\ forall good bad rest e,
       readings = good ++ bad :: rest ->
       Forall convertible good ->
       reading_ppm bad = Raise e ->
       detect_anomalies_from_readings readings thr = Raise e.
Proof.
  split; [ apply detection_returns_iff | ].
  intros good bad rest e -> G B.
  induction G as [ | r good [ppm P] _ IH ]; cbn.
  - rewrite B. reflexivity.
  - rewrite P, IH. reflexivity.
Qed.

Lemma float_ge_refl_trans (a b c : Q) :
  float_ge b c = true -> float_ge a b = true -> float_ge a c = true.
Proof.
  unfold float_ge. rewrite !Qle_bool_iff. intros; eapply Qle_trans; eauto.
Qed.

(** [max] is at least each of its arguments. *)
Lemma fold_max_ge (rest : list Q) (x : Q) :
  float_ge (fold_left (fun m y => if Qle_bool y m then m else y) rest x) x
  = true.
Proof.
  revert x. induction rest as [ | y rest IH ]; intros x; cbn [fold_left].
  - unfold float_ge. apply Qle_bool_iff, Qle_refl.
  - destruct (Qle_bool y x) eqn:E; [ apply IH | ].
    eapply float_ge_refl_trans; [ | apply IH ].
    unfold float_ge. apply Qle_bool_iff.
    destruct (Qlt_le_dec x y) as [Lt | Le].
    + apply Qlt_le_weak, Lt.
    + apply Qle_bool_iff in Le. congruence.
Qed.

Lemma anomalies_reach_threshold (readings : list dict) (thr : Q)
  (anomalies : list anomaly) :
  detect_anomalies_from_readings readings thr = Ok anomalies ->
  anomalies <> [] ->
  exists ppms max_ppm,
    map_result (fun a => reading_ppm (reading a)) anomalies = Ok ppms
    /\ py_max ppms = Ok max_ppm
    /\ float_ge max_ppm thr = true.
Proof.
  intros E Ne.
  destruct (detect_anomalies_filter _ _ _ E) as [_ F]. clear E.
  assert (M : exists ppms,
             map_result (fun a => reading_ppm (reading a)) anomalies = Ok ppms
             /\ Forall (fun ppm => float_ge ppm thr = true) ppms
             /\ List.length ppms = List.length anomalies).
  { clear Ne. induction F as [ | a anomalies [_ A] _ (ppms & M & G & Len) ].
    - exists []. repeat split. constructor.
    - unfold at_or_above in A. cbn [map_result].
      destruct (reading_ppm (reading a)) as [ppm | e]; [ | discriminate A ].
      rewrite M. exists (ppm :: ppms). repeat split.
      + constructor; assumption.
      + cbn. rewrite Len. reflexivity. }
  destruct M as (ppms & M & G & Len).
  destruct ppms as [ | x rest ].
  { destruct anomalies; [ contradiction | discriminate Len ]. }
  exists (x :: rest). eexists. split; [ exact M | ].
  split; [ reflexivity | ].
  apply Forall_cons in G as [G _].
  eapply float_ge_refl_trans; [ exact G | apply fold_max_ge ].
Qed.

(** [max] returns one of its arguments. *)
Lemma fold_max_in (rest : list Q) (x : Q) :
  In (fold_left (fun m y => if Qle_bool y m then m else y) rest x)
    (x :: rest).
Proof.
  revert x. induction rest as [ | y rest IH ]; intros x; cbn [fold_left].
  - left. reflexivity.
  - destruct (IH (if Qle_bool y x then x else y)) as [<- | I].
    + destruct (Qle_bool y x); [ left | right; left ]; reflexivity.
    + right. right. exact I.
Qed.

(** [max] is at least all of its arguments. *)
Lemma fold_max_upper (rest : list Q) (x : Q) :
  Forall
    (fun y =>
       float_ge (fold_left (fun m y => if Qle_bool y m then m else y) rest x)
         y = true)
    (x :: rest).
Proof.
  constructor; [ apply fold_max_ge | ].
  revert x. induction rest as [ | y rest IH ]; intros x; cbn [fold_left];
    constructor; [ | apply IH ].
  eapply float_ge_refl_trans; [ | apply fold_max_ge ].
  unfold float_ge. destruct (Qle_bool y x) eqn:E; [ exact E | ].
  apply Qle_bool_iff, Qle_refl.
Qed.

(** X5.  The maximum taken over the anomalies never fails: it is the
    level of one of them, at least the level of each, and at or above the
    threshold.  Once anomalies were detected, the second threshold test of
    the pass, on [max_ppm], always succeeds. *)
Theorem max_anomaly_reaches_threshold (readings : list dict) (thr : Q)
  (anomalies : list anomaly) :
  detect_anomalies_from_readings readings thr = Ok anomalies ->
  anomalies <> [] ->
  exists ppms max_ppm,
    map_result (fun a => reading_ppm (reading a)) anomalies = Ok ppms
    /\ py_max ppms = Ok max_ppm
    /\ In max_ppm ppms
    /\ Forall (fun ppm => float_ge max_ppm ppm = true) ppms
    /\ float_ge max_ppm thr = true.
Proof.
  intros E Ne.
  destruct (anomalies_reach_threshold _ _ _ E Ne)
    as (ppms & max_ppm & M & P & G).
  exists ppms, max_ppm. split; [ exact M | ]. split; [ exact P | ].
  destruct ppms as [ | x rest ]; [ discriminate P | ].
  injection P as <-.
  split; [ apply fold_max_in | ]. split; [ apply fold_max_upper | exact G ].
Qed.

End DetectionFacts.

Section DetectionMore.
Import Py CrewWithBlockchain Observe.
Context {builtins : Builtins}.

(** X6.  A reading without a methane level counts as 0 ppm: under a
    positive threshold it is passed over, and detection goes on with the
    other readings. *)
Theorem reading_without_level_is_ignored (r : dict) (rest : list dict)
  (thr : Q) :
  dict_get "methane_ppm" r = None -> (0 < thr)%Q ->
  reading_ppm r = Ok 0%Q
  /\ detect_anomalies_from_readings (r :: rest) thr
     = detect_anomalies_from_readings rest thr.
Proof.
  intros Missing Positive.
  assert (P : reading_ppm r = Ok 0%Q).
  { unfold reading_ppm, get. rewrite Missing. reflexivity. }
  split; [ exact P | ].
  cbn [detect_anomalies_from_readings]. rewrite P.
  rewrite (float_ge_below _ _ Positive).
  destruct (detect_anomalies_from_readings rest thr); reflexivity.
Qed.

End DetectionMore.

Section DetectionWitnesses.
Import Py CrewWithBlockchain.

(** One reading of 6000 ppm against 5000 ppm. *)
Lemma max_anomaly_reaches_threshold_witness :
  exists ppms max_ppm,
    map_result (fun a => @reading_ppm Scenario.builtins (reading a))
      [ {| reason := "ppm >= 5000.0"; reading := Scenario.reading_of 6000 |} ]
    = Ok ppms
    /\ py_max ppms = Ok max_ppm
    /\ In max_ppm ppms
    /\ Forall (fun ppm => float_ge max_ppm ppm = true) ppms
    /\ float_ge max_ppm 5000 = true.
Proof.
  apply (@max_anomaly_reaches_threshold Scenario.builtins
           [Scenario.reading_of 6000] 5000).
  - reflexivity.
  - discriminate.
Defined.

(** A reading that names its node only, before one of 6000 ppm. *)
Lemma reading_without_level_is_ignored_witness :
  @reading_ppm Scenario.builtins [("node_id", PStr "node-1")] = Ok 0%Q
  /\ @detect_anomalies_from_readings Scenario.builtins
       [ [("node_id", PStr "node-1")]; Scenario.reading_of 6000 ] 5000
     = @detect_anomalies_from_readings Scenario.builtins
         [Scenario.reading_of 6000] 5000.
Proof.
  apply (@reading_without_level_is_ignored Scenario.builtins).
  - reflexivity.
  - reflexivity.
Defined.

End DetectionWitnesses.

(* ------------------------------------------------------------------ *)
(** ** Hashes and notes *)
(* ------------------------------------------------------------------ *)

Section HashShapes.
Import Py World Web3 BlockchainClient CrewBlockchainIntegrator Observe.
Context {builtins : Builtins}.

(** X7.  Every payload has a decision hash, of 32 bytes: it is accepted as
    the [bytes32] it is signed as, at every nonce of the unsigned 256-bit
    range. *)
Theorem decision_hash_is_bytes32 (decision_data : value) :
  exists hash,
    _generate_decision_hash decision_data = Ok hash
    /\ List.length hash = 32%nat
    /\ forall nonce,
         0 <= nonce < 2 ^ 256 ->
         exists message, signed_message hash nonce = Ok message.
Proof.
  rewrite generate_decision_hash_digest. eexists.
  split; [ reflexivity | ].
  split; [ apply keccak256_length | ].
  intros nonce R. eexists.
  apply signed_message_in_range; [ apply keccak256_length | exact R ].
Qed.

Context {L1 L2 : Type}.
Variable oracle1 : forall B : Type, L1 -> request B -> result B * L1.
Variable oracle2 : forall B : Type, L2 -> request B -> result B * L2.

(** X8.  The event id is fixed by the timestamp and the node id of the
    payload: two payloads that agree on them get the same id, of 32 bytes,
    whatever else they hold and whatever the clock shows when the id is
    computed. *)
Theorem event_id_fixed_by_timestamp_and_node (event_data1 event_data2 : dict)
  (timestamp : value) (now1 now2 : string) (s1 s1' : L1) (s2 s2' : L2) :
  dict_get "timestamp" event_data1 = Some timestamp ->
  dict_get "timestamp" event_data2 = Some timestamp ->
  dict_get "node_id" event_data1 = dict_get "node_id" event_data2 ->
  oracle1 _ s1 utcnow_isoformat = (Ok now1, s1') ->
  oracle2 _ s2 utcnow_isoformat = (Ok now2, s2') ->
  exists event_id,
    returned (run oracle1 (_generate_event_id event_data1) s1) = Ok event_id
    /\ returned (run oracle2 (_generate_event_id event_data2) s2)
       = Ok event_id
    /\ List.length event_id = 32%nat.
Proof.
  intros T1 T2 N A1 A2.
  rewrite (generate_event_id_digest oracle1 _ _ _ _ A1).
  rewrite (generate_event_id_digest oracle2 _ _ _ _ A2).
  unfold get. rewrite T1, T2, N. eexists.
  split; [ reflexivity | ]. split; [ reflexivity | apply keccak256_length ].
Qed.

Lemma take_chars_prefix (n : nat) (s : string) :
  exists rest, s = (take_chars n s ++ rest)%string.
Proof.
  revert n. induction s as [ | c s IH ]; intros n.
  - exists EmptyString. reflexivity.
  - unfold take_chars; fold take_chars. destruct (is_continuation c).
    + destruct (IH n) as [rest E]. exists rest.
      change (String c s = String c (take_chars n s ++ rest)).
      f_equal. exact E.
    + destruct n as [ | n ].
      * eexists. reflexivity.
      * destruct (IH n) as [rest E]. exists rest.
        change (String c s = String c (take_chars n s ++ rest)).
        f_equal. exact E.
Qed.

Lemma take_chars_len (n : nat) (s : string) :
  (len (take_chars n s) <= n)%nat.
Proof.
  revert n. induction s as [ | c s IH ]; intros n.
  - change (0 <= n)%nat. lia.
  - unfold take_chars; fold take_chars. destruct (is_continuation c) eqn:C.
    + cbn [len]. rewrite C. apply IH.
    + destruct n as [ | n ]; [ cbn; lia | ].
      cbn [len]. rewrite C. specialize (IH n). lia.
Qed.

Lemma take_chars_short (n : nat) (s : string) :
  (len s <= n)%nat -> take_chars n s = s.
Proof.
  revert n. induction s as [ | c s IH ]; intros n Le.
  - reflexivity.
  - unfold take_chars; fold take_chars. cbn [len] in Le.
    destruct (is_continuation c).
    + rewrite IH by exact Le. reflexivity.
    + destruct n as [ | n ]; [ lia | ].
      rewrite IH by lia. reflexivity.
Qed.

(** X9.  The notes logged with a decision are the explanation cut to its
    first 200 characters: a prefix of the explanation of at most 200
    characters, and the whole explanation when it is that short. *)
Theorem notes_are_a_bounded_prefix (explanation : string) :
  exists notes,
    notes_of (PStr explanation) = Ok notes
    /\ (len notes <= 200)%nat
    /\ (exists rest, explanation = (notes ++ rest)%string)
    /\ ((len explanation <= 200)%nat -> notes = explanation).
Proof.
  exists (take_chars 200 explanation).
  split; [ reflexivity | ].
  split; [ apply take_chars_len | ].
  split; [ apply take_chars_prefix | apply take_chars_short ].
Qed.

End HashShapes.

Section HashShapesWitnesses.
Import Py World CrewBlockchainIntegrator.

(** Two payloads of one detection that differ in the methane level and in
    the order of their keys. *)
Lemma event_id_fixed_by_timestamp_and_node_witness :
  exists event_id,
    returned
      (run (Scenario.world Scenario.quiet)
         (@_generate_event_id Scenario.builtins
            (Scenario.event_at "2024-05-01T12:00:00+00:00")) tt)
    = Ok event_id
    /\ returned
         (run (Scenario.world Scenario.rejecting)
            (@_generate_event_id Scenario.builtins
               [ ("methane_ppm", PFloat 7000); ("node_id", PStr "node-1");
                 ("timestamp", PStr "2024-05-01T12:00:00+00:00") ]) tt)
       = Ok event_id
    /\ List.length event_id = 32%nat.
Proof.
  apply (@event_id_fixed_by_timestamp_and_node Scenario.builtins unit unit
           (Scenario.world Scenario.quiet) (Scenario.world Scenario.rejecting)
           _ _ (PStr "2024-05-01T12:00:00+00:00")
           "2024-05-01T12:00:00.000250+00:00"
           "2024-05-01T12:00:00.000250+00:00" tt tt tt tt);
    reflexivity.
Defined.

End HashShapesWitnesses.
(* ------------------------------------------------------------------ *)
(** ** The client *)
(* ------------------------------------------------------------------ *)

Section ClientFacts.
Import Py World Trace Web3 BlockchainClient Observe Outcome.
Context {signer : Secp256k1}.
Variable self : BlockchainClient.t.

Ltac one_submission :=
  unfold submits_once, submissions; cbn;
  repeat split;
  try lia;
  try (intros [? ?]; discriminate);
  repeat first
    [ apply Forall_nil; exact I
    | apply Forall_cons; split; [ repeat split; tauto | ] ].

Lemma register_agent_once (agent_address node_address : World.address)
  (role : Z) :
  wp (register_agent self agent_address node_address role)
    (submits_once self (registerAgent agent_address node_address role) 500000).
Proof. wp_run_through; one_submission. Qed.

Lemma form_crew_once (event_id : bytes) (members : list World.address)
  (methane_ppm : Z) :
  wp (form_crew self event_id members methane_ppm)
    (submits_once self (formCrew event_id members methane_ppm) 1000000).
Proof. wp_run_through; one_submission. Qed.

Lemma log_decision_once (crew_id : Z) (decision_hash : bytes)
  (decision_type severity methane_ppm : Z) (voters : list World.address)
  (signatures : list bytes) (notes : string) :
  wp (log_decision self crew_id decision_hash decision_type severity
        methane_ppm voters signatures notes)
    (submits_once self
       (logDecision crew_id decision_hash decision_type severity methane_ppm
          voters signatures notes) 2000000).
Proof. wp_run_through; one_submission. Qed.

Lemma mark_executed_once (decision_id : Z) :
  wp (mark_executed self decision_id)
    (submits_once self (markExecuted decision_id) 100000).
Proof. wp_run_through; one_submission. Qed.

Lemma request_consensus_once (crew_id : Z) (proposal_hash : bytes) :
  wp (request_consensus self crew_id proposal_hash)
    (submits_once self (requestConsensus crew_id proposal_hash) 500000).
Proof. wp_run_through; one_submission. Qed.

Lemma cast_vote_once (request_id : Z) (approved : bool) :
  wp (cast_vote self request_id approved)
    (submits_once self (castVote request_id approved) 200000).
Proof. wp_run_through; one_submission. Qed.





Lemma send_transaction_sent_or_failed (tx : transaction) :
  wp (_send_transaction tx) (sent_or_failed tx).
Proof.
  wp_run_through; cbn.
  - do 2 eexists. split; [ reflexivity | ].
    split; [ apply Z.eqb_eq; assumption | reflexivity ].
  - right. right. do 2 eexists. split; [ reflexivity | ].
    split; [ apply Z.eqb_neq; assumption | reflexivity ].
  - right. left. eexists. reflexivity.
  - left. reflexivity.
Qed.

End ClientFacts.

Section ClientTheorems.
Import Py World Trace Web3 BlockchainClient Observe Outcome.
Context {signer : Secp256k1}.
Context {L : Type}.
Variable oracle : forall B : Type, L -> request B -> result B * L.
Variable self : BlockchainClient.t.

(** X10.  [_send_transaction] hands the transaction to the node and waits
    for its receipt.  It returns only on a receipt of status 1, and then
    the hash the node gave, as "0x" and lowercase hexadecimal digits; an
    error of the node, at the submission or while waiting, is passed on as
    it is; a receipt of another status raises "Transaction failed". *)
Theorem send_transaction_ends (tx : transaction) (s : L) :
  let o := run oracle (_send_transaction tx) s in
  sent_or_failed tx (returned o) (trace o).
Proof. exact (wp_run oracle _ _ s (send_transaction_sent_or_failed tx)). Qed.

(** X11.  Each state-changing method of the client hands at most one
    transaction to the node, and exactly one when it returns: the contract
    call it is named after with the arguments it was given, sent from the
    account of the client, with the nonce and the gas price the node
    answered and with the gas limit of the method (500000 to register an
    agent, 1000000 to form a crew, 2000000 to log a decision, 100000 to
    mark it executed, 500000 to request consensus, 200000 to vote). *)
Theorem client_writes_submit_once (agent_address node_address : World.address)
  (role : Z) (event_id : bytes) (members : list World.address)
  (methane_ppm crew_id : Z) (decision_hash : bytes)
  (decision_type severity : Z) (voters : list World.address)
  (signatures : list bytes) (notes : string) (decision_id : Z)
  (proposal_hash : bytes) (request_id : Z) (approved : bool) (s : L) :
  let ends {A : Type} (m : prog A) (c : contract_call) (gas : Z) :=
    submits_once self c gas (returned (run oracle m s))
      (trace (run oracle m s)) in
  ends (register_agent self agent_address node_address role)
    (registerAgent agent_address node_address role) 500000
  /\ ends (form_crew self event_id members methane_ppm)
       (formCrew event_id members methane_ppm) 1000000
  /\ ends (log_decision self crew_id decision_hash decision_type severity
             methane_ppm voters signatures notes)
       (logDecision crew_id decision_hash decision_type severity methane_ppm
          voters signatures notes) 2000000
  /\ ends (mark_executed self decision_id) (markExecuted decision_id) 100000
  /\ ends (request_consensus self crew_id proposal_hash)
       (requestConsensus crew_id proposal_hash) 500000
  /\ ends (cast_vote self request_id approved)
       (castVote request_id approved) 200000.
Proof.
  cbv zeta.
  split; [ exact (wp_run oracle _ _ s
                  (register_agent_once self agent_address node_address role)) | ].
  split; [ exact (wp_run oracle _ _ s
                  (form_crew_once self event_id members methane_ppm)) | ].
  split; [ exact (wp_run oracle _ _ s
                  (log_decision_once self crew_id decision_hash decision_type severity
                      methane_ppm voters signatures notes)) | ].
  split; [ exact (wp_run oracle _ _ s
                  (mark_executed_once self decision_id)) | ].
  split; [ exact (wp_run oracle _ _ s
                  (request_consensus_once self crew_id proposal_hash)) | ].
  exact (wp_run oracle _ _ s (cast_vote_once self request_id approved)).
Qed.



(** X13.  [sign_decision] asks the ledger once, for the nonce of the
    client's own account, and submits nothing.  For a hash of 32 bytes and
    a nonce in the unsigned 256-bit range it returns the signature, under
    the private key of the client, of the Ethereum signed-message digest of
    [keccak(decision_hash || nonce)]: the digest of the byte 0x19, the text
    "Ethereum Signed Message:", a newline, the length "32" and the 32 bytes
    of that hash. *)
Theorem sign_decision_signs_eth_message (decision_hash : bytes) (nonce : Z)
  (s s' : L) :
  oracle Z s (getNonce (address self)) = (Ok nonce, s') ->
  List.length decision_hash = 32%nat ->
  0 <= nonce < 2 ^ 256 ->
  let o := run oracle (sign_decision self decision_hash) s in
  returned o
  = Ok (ecdsa_sign (private_key self)
          (Keccak.keccak256
             (x19 :: of_str "Ethereum Signed Message:" ++ [x0a]
              ++ of_str "32"
              ++ Keccak.keccak256 (decision_hash ++ be_bytes 32 nonce))))
  /\ trace o = [Event (getNonce (address self)) (Ok nonce)].
Proof.
  intros A Len R. cbv zeta. split.
  - rewrite (sign_decision_signs_message oracle self decision_hash nonce _ s s'
               A (signed_message_in_range _ _ Len R)).
    unfold _hash_eip191_message, encode_defunct.
    cbn [version header body]. rewrite keccak256_length. reflexivity.
  - unfold sign_decision, get_nonce.
    rewrite run_bind, (run_call oracle _ _ _ _ A). cbn [returned final trace].
    rewrite run_bind, (signed_message_in_range _ _ Len R). reflexivity.
Qed.

End ClientTheorems.

Section ClientWitnesses.
Import Py World Web3 BlockchainClient.

(** The agent of the scenario signs at the nonce 0 its ledger reports. *)
Lemma sign_decision_signs_eth_message_witness :
  let decision_hash := Keccak.keccak256 (of_str "decision") in
  let o :=
    run (Scenario.world Scenario.quiet)
      (@sign_decision Scenario.signer Scenario.agent decision_hash) tt in
  returned o
  = Ok (@ecdsa_sign Scenario.signer (private_key Scenario.agent)
          (Keccak.keccak256
             (x19 :: of_str "Ethereum Signed Message:" ++ [x0a]
              ++ of_str "32"
              ++ Keccak.keccak256 (decision_hash ++ be_bytes 32 0))))
  /\ trace o = [Event (getNonce (address Scenario.agent)) (Ok 0)].
Proof.
  apply (@sign_decision_signs_eth_message Scenario.signer unit
           (Scenario.world Scenario.quiet) Scenario.agent
           (Keccak.keccak256 (of_str "decision")) 0 tt tt).
  - reflexivity.
  - apply keccak256_length.
  - lia.
Defined.

End ClientWitnesses.
(* ------------------------------------------------------------------ *)
(** ** The integrator *)
(* ------------------------------------------------------------------ *)

Section IntegratorFacts.
Import Py World Trace Web3 BlockchainClient CrewBlockchainIntegrator.
Import Observe Outcome.
Context {builtins : Builtins} {signer : Secp256k1}.
Variable self : CrewBlockchainIntegrator.t.

Lemma value_get_ok (v : value) (key : string) (dflt x : value) :
  value_get v key dflt = Ok x -> exists d, v = PDict d /\ x = get d key dflt.
Proof.
  destruct v; try discriminate. intros [= <-]. eexists. split; reflexivity.
Qed.

Lemma value_str_ok (v : value) (s : string) :
  value_str v = Ok s -> v = PStr s.
Proof. destruct v; try discriminate. intros [= <-]. reflexivity. Qed.

Lemma notes_of_ok (v : value) (notes : string) :
  notes_of v = Ok notes ->
  exists explanation, v = PStr explanation
                      /\ notes = take_chars 200 explanation.
Proof.
  destruct v; try discriminate. intros [= <-]. eexists. split; reflexivity.
Qed.

(** What the payload must have been for the run to get as far as it did. *)
Ltac payload_shape :=
  repeat match goal with
         | G : value_get ?v _ _ = Ok _ |- _ =>
             is_var v; apply value_get_ok in G as (? & -> & ->)
         | G : value_get (PDict _) _ _ = Ok _ |- _ =>
             cbn [value_get] in G; injection G as <-
         | G : value_str _ = Ok _ |- _ => apply value_str_ok in G
         | G : notes_of _ = Ok _ |- _ => apply notes_of_ok in G as (? & ? & ->)
         end.

Lemma validate_critical_decision_writes (crew_id : Z) (decision_data : value)
  (crew_members : list World.address) (methane_ppm : Q) :
  wp (validate_critical_decision self crew_id decision_data crew_members
        methane_ppm)
    (fun out t =>
       decision_writes self crew_id decision_data crew_members methane_ppm
         (calls t)).
Proof.
  wp_run_through. all: unfold calls, submissions; cbn.
  all: try (left; reflexivity).
  all: payload_shape; right.
  all: match goal with
       | C : client self = Some ?c,
         D : _generate_decision_hash (PDict ?d) = Ok ?h,
         S : get ?d "severity" _ = PStr ?sev,
         E : get ?d "explanation" _ = PStr ?ex,
         M : signed_message ?h ?n = Ok ?m |- _ =>
           exists c, d, sev, ex, h, n, m;
           repeat (split; [ first [ assumption | reflexivity ] | ]);
           cbv zeta
       end.
  all: first
         [ left; reflexivity
         | right; left; reflexivity
         | right; right; eexists;
           split; [ reflexivity | eapply bool_decide_eq_true_1; eassumption ] ].
Qed.

Lemma validate_crew_formation_ends (event_data : dict)
  (crew_members : list World.address) (methane_ppm : Q) :
  wp (validate_crew_formation self event_data crew_members methane_ppm)
    (crew_formation_ends self event_data crew_members methane_ppm).
Proof.
  unfold crew_formation_ends.
  destruct (enable_blockchain self) eqn:En;
    unfold validate_crew_formation; rewrite En; cbn [negb];
    [ | cbn; repeat split ].
  wp_run_through; unfold calls, submissions; cbn.
  all: try (left; repeat split;
            first [ left; reflexivity | right; eexists; reflexivity ]).
  right. do 4 eexists. repeat split; try eassumption.
  - left. reflexivity.
  - unfold solidity_keccak in *. cbn [encode_packed hex_encode_abi_type] in *.
    rewrite app_nil_r in *. congruence.
Qed.

Lemma validate_critical_decision_ends (crew_id : Z) (decision_data : value)
  (crew_members : list World.address) (methane_ppm : Q) :
  wp (validate_critical_decision self crew_id decision_data crew_members
        methane_ppm)
    (decision_validation_ends self methane_ppm).
Proof.
  unfold decision_validation_ends.
  wp_run_through; unfold calls, submissions; cbn.
  all: repeat match goal with
              | G : negb _ = true |- _ => apply negb_true_iff in G
              | G : negb _ = false |- _ => apply negb_false_iff in G
              end; subst.
  all: first
         [ split;
           [ eexists; reflexivity
           | split; [ eexists; reflexivity | do 3 eexists; repeat split ] ]
         | split;
           [ reflexivity
           | first
               [ discriminate
               | intros _;
                 first [ left; split; [ assumption | reflexivity ]
                       | right; reflexivity ] ] ]
         | split;
           [ assumption
           | first [ left; split; reflexivity | right; reflexivity ] ] ].
Qed.

Lemma mark_action_executed_ends (decision_id : option Z)
  (action_type : string) (success : bool) :
  wp (mark_action_executed self decision_id action_type success)
    (marking_ends self decision_id).
Proof.
  unfold marking_ends, mark_action_executed.
  destruct decision_id as [d | ], (enable_blockchain self);
    try (cbn; split; reflexivity).
  wp_run_through; unfold calls, submissions; cbn.
  all: try (left; reflexivity); try (right; reflexivity).
  split; [ reflexivity | ]. do 2 eexists.
  split; [ reflexivity | ].
  split; [ apply Z.eqb_eq; assumption | reflexivity ].
Qed.

(** The integrator asks the node and the clock only. *)
Ltac backstage_trace :=
  cbn [app]; repeat (apply Forall_cons; split; [ reflexivity | ]);
  apply Forall_nil; exact I.

Lemma validate_crew_formation_backstage (event_data : dict)
  (crew_members : list World.address) (methane_ppm : Q) :
  wp (validate_crew_formation self event_data crew_members methane_ppm)
    (fun out t => Forall (fun ev => backstage ev = true) t).
Proof. wp_run_through; backstage_trace. Qed.

Lemma validate_critical_decision_backstage (crew_id : Z)
  (decision_data : value) (crew_members : list World.address)
  (methane_ppm : Q) :
  wp (validate_critical_decision self crew_id decision_data crew_members
        methane_ppm)
    (fun out t => Forall (fun ev => backstage ev = true) t).
Proof. wp_run_through; backstage_trace. Qed.

Lemma mark_action_executed_backstage (decision_id : option Z)
  (action_type : string) (success : bool) :
  wp (mark_action_executed self decision_id action_type success)
    (fun out t => Forall (fun ev => backstage ev = true) t).
Proof. wp_run_through; backstage_trace. Qed.

End IntegratorFacts.

Section IntegratorTheorems.
Import Py World Trace Web3 BlockchainClient CrewBlockchainIntegrator.
Import Observe Outcome.
Context {builtins : Builtins} {signer : Secp256k1}.
Context {L : Type}.
Variable oracle : forall B : Type, L -> request B -> result B * L.
Variable self : CrewBlockchainIntegrator.t.

(** X14.  [validate_crew_formation] never raises.  In simulation mode it
    reports success and asks nothing.  Otherwise it reports either a
    failure, having submitted nothing or the one [formCrew] transaction, or
    a success with the id and the hash of the crew, after exactly one
    transaction: [formCrew] for the given members and the methane level cut
    to an integer, under the digest of timestamp, dash and node id of the
    payload (the time of the clock and "unknown" where it has none). *)
Theorem crew_formation_validation_ends (event_data : dict)
  (crew_members : list World.address) (methane_ppm : Q) (s : L) :
  let o :=
    run oracle
      (validate_crew_formation self event_data crew_members methane_ppm) s in
  crew_formation_ends self event_data crew_members methane_ppm (returned o)
    (trace o).
Proof.
  exact (wp_run oracle _ _ s
           (validate_crew_formation_ends self event_data crew_members
              methane_ppm)).
Qed.

(** X15.  The transactions of [validate_critical_decision] come in a fixed
    order and say what the payload says.  First the decision: for the given
    crew, of type anomaly detection, with the hash of the payload, the
    severity mapped from its "severity" entry ("critical" if it has none),
    the methane level cut to an integer, the client as only voter, its
    signature of the hash as only signature, and the first 200 characters
    of its "explanation" entry as notes.  Then the request for consensus,
    on the same crew and hash.  Then, only if the address of the client is
    among the crew members, its vote, an approval.  Nothing is submitted
    for a payload that is not a dictionary with a textual severity and a
    textual explanation. *)
Theorem decision_validation_writes (crew_id : Z) (decision_data : value)
  (crew_members : list World.address) (methane_ppm : Q) (s : L) :
  let o :=
    run oracle
      (validate_critical_decision self crew_id decision_data crew_members
         methane_ppm) s in
  decision_writes self crew_id decision_data crew_members methane_ppm
    (calls (trace o)).
Proof.
  exact (wp_run oracle _ _ s
           (validate_critical_decision_writes self crew_id decision_data
              crew_members methane_ppm)).
Qed.


(** X17.  [mark_action_executed] never raises.  Without a decision id, or
    in simulation mode, it asks nothing and returns no hash.  Otherwise it
    submits at most one transaction, [markExecuted] for that decision, and
    it returns a hash only after the receipt of that transaction came back
    with status 1: the hash of that transaction. *)
Theorem action_marking_ends (decision_id : option Z) (action_type : string)
  (success : bool) (s : L) :
  let o :=
    run oracle
      (mark_action_executed self decision_id action_type success) s in
  marking_ends self decision_id (returned o) (trace o).
Proof.
  exact (wp_run oracle _ _ s
           (mark_action_executed_ends self decision_id action_type success)).
Qed.

End IntegratorTheorems.
(* ------------------------------------------------------------------ *)
(** ** The detection pass, block by block *)
(* ------------------------------------------------------------------ *)

Section PassBlocks.
Import Py World Trace CrewBlockchainIntegrator CrewWithBlockchain.
Import Observe Outcome.
Context {builtins : Builtins} {signer : Web3.Secp256k1}.
Variable g : globals.


(** The structure of a detection pass, once and for all: its early ends,
    then its four blocks one after the other. *)
Lemma detection_pass_rule (limit : Z) (send_to : option (list string))
  (Q : result (bool * string * blockchain_info) -> list event -> Prop) :
  (forall e, Q (Raise e) [Event (get_recent_readings limit) (Raise e)]) ->
  (forall answer,
     default [] answer = [] ->
     Q (Ok (false, "No readings found.", untouched))
       [Event (get_recent_readings limit) (Ok answer)]) ->
  (forall answer e,
     detect_anomalies_from_readings (default [] answer)
       (ABSOLUTE_EMERGENCY_PPM g) = Raise e ->
     Q (Raise e) [Event (get_recent_readings limit) (Ok answer)]) ->
  (forall answer,
     detect_anomalies_from_readings (default [] answer)
       (ABSOLUTE_EMERGENCY_PPM g) = Ok [] ->
     Q (Ok (false, "No anomalies found.", untouched))
       [Event (get_recent_readings limit) (Ok answer)]) ->
  (forall answer anomalies max_ppm,
     detect_anomalies_from_readings (default [] answer)
       (ABSOLUTE_EMERGENCY_PPM g) = Ok anomalies ->
     anomalies <> [] ->
     float_ge max_ppm (ABSOLUTE_EMERGENCY_PPM g) = true ->
     let fetched := Event (get_recent_readings limit) (Ok answer) in
     wp (validate_crew_formation_block g anomalies max_ppm untouched)
       (fun out1 t1 =>
          match out1 with
          | Raise e => Q (Raise e) (fetched :: t1)
          | Ok (crew_id, info1) =>
              wp (call_llm_reasoner_block anomalies (default [] answer))
                (fun out2 t2 =>
                   match out2 with
                   | Raise e => Q (Raise e) (fetched :: t1 ++ t2)
                   | Ok (report, report_text) =>
                       wp (validate_critical_decision_block g crew_id max_ppm
                             report info1)
                         (fun out3 t3 =>
                            match out3 with
                            | Raise e =>
                                Q (Raise e) (fetched :: t1 ++ t2 ++ t3)
                            | Ok (decision_id, info2) =>
                                wp (send_alert_block g send_to anomalies
                                      report_text crew_id decision_id info2)
                                  (fun out t4 =>
                                     Q out
                                       (fetched :: t1 ++ t2 ++ t3 ++ t4))
                            end)
                   end)
          end)) ->
  wp (run_detection_with_blockchain_validation g limit send_to) Q.
Proof.
  intros Fetch Empty Malformed Quiet Blocks.
  unfold run_detection_with_blockchain_validation.
  cbn zeta. wp_step. wp_step; [ | apply Fetch ].
  destruct (default [] a) as [ | r readings ] eqn:E; [ apply Empty, E | ].
  wp_step. wp_step. rewrite <- E.
  destruct (detect_anomalies_from_readings (default [] a)
              (ABSOLUTE_EMERGENCY_PPM g)) as [anomalies | e] eqn:D;
    cbn beta iota; [ | apply Malformed, D ].
  destruct anomalies as [ | first_anomaly anomalies ];
    [ apply Quiet, D | ].
  destruct (anomalies_reach_threshold _ _ _ D ltac:(discriminate))
    as (ppms & max_ppm & M & P & G).
  wp_step. wp_step. rewrite M. cbn beta iota.
  wp_step. wp_step. rewrite P. cbn beta iota.
  wp_step.
  eapply wp_mono; [ | apply (Blocks a _ max_ppm D ltac:(discriminate) G) ].
  cbn beta zeta. intros [[crew_id info1] | e] t1 W; [ | exact W ].
  wp_step.
  eapply wp_mono; [ | exact W ].
  cbn beta. intros [[report report_text] | e] t2 W2;
    [ | cbn [app]; exact W2 ].
  wp_step.
  eapply wp_mono; [ | exact W2 ].
  cbn beta. intros [[decision_id info2] | e] t3 W3.
  - eapply wp_mono; [ | exact W3 ].
    cbn beta. intros out t4 W4. cbn [app]. rewrite <- ?app_assoc. exact W4.
  - cbn [app]. rewrite <- ?app_assoc. exact W3.
Qed.



Lemma kinds_app (t1 t2 : list event) : kinds (t1 ++ t2) = kinds t1 ++ kinds t2.
Proof. unfold kinds, calls, submissions. rewrite omap_app, !map_app. reflexivity. Qed.

Lemma crew_formation_block_ends (anomalies : list anomaly) (max_ppm : Q) :
  wp (validate_crew_formation_block g anomalies max_ppm untouched)
    (crew_block_ends g).
Proof.
  unfold validate_crew_formation_block, crew_block_ends.
  destruct (enabled_integrator g) as [bi | ] eqn:En;
    [ | cbn; split; [ constructor | ]; split; [ reflexivity | ];
        split; [ left; split; reflexivity | left; reflexivity ] ].
  pose proof (enabled_integrator_enabled g bi En) as Enabled.
  destruct (float_ge max_ppm (ABSOLUTE_EMERGENCY_PPM g));
    [ | cbn; split; [ constructor | ]; split; [ discriminate | ];
        split; [ left; split; reflexivity | left; reflexivity ] ].
  cbn zeta. wp_step. wp_step;
    [ | split; [ repeat constructor | split; [ discriminate | reflexivity ] ] ].
  wp_step.
  eapply wp_mono;
    [ | apply (wp_conj _ _ _
                 (validate_crew_formation_ends bi _ _ _)
                 (validate_crew_formation_backstage bi _ _ _)) ].
  cbn beta. intros [[[success crew_id] tx_hash] | e] t [E B];
    unfold crew_formation_ends in E; [ | contradiction ].
  rewrite Enabled in E.
  assert (B' : Forall (fun ev => backstage ev = true)
                 ([Event utcnow_isoformat (Ok a)] ++ t ++ [])).
  { rewrite app_nil_r. constructor; [ reflexivity | exact B ]. }
  assert (K : kinds ([Event utcnow_isoformat (Ok a)] ++ t ++ []) = kinds t).
  { rewrite app_nil_r. reflexivity. }
  destruct E as [(-> & -> & -> & C) | (c & now & id & h & -> & -> & -> & _ & _ & C)];
    cbn [andb truthy_int wp].
  - split; [ exact B' | ]. split; [ discriminate | ].
    split; [ left; split; reflexivity | ].
    rewrite K. unfold kinds. destruct C as [-> | [ev ->]]; [ left | right ];
      reflexivity.
  - destruct (Z.eqb_spec id 0) as [-> | Nz]; cbn [negb wp].
    + split; [ exact B' | ]. split; [ discriminate | ].
      split; [ left; split; reflexivity | ].
      rewrite K. unfold kinds. rewrite C. right. reflexivity.
    + split; [ exact B' | ]. split; [ discriminate | ].
      split; [ right; exists id, h; repeat split; assumption | ].
      cbn [truthy_int]. destruct (Z.eqb_spec id 0); [ contradiction | ].
      cbn [negb]. rewrite K. unfold kinds. rewrite C. reflexivity.
Qed.

Lemma reasoner_block_ends_ok (anomalies : list anomaly) (readings : list dict) :
  wp (call_llm_reasoner_block anomalies readings)
    (reasoner_block_ends anomalies readings).
Proof.
  unfold call_llm_reasoner_block, reasoner_block_ends.
  repeat wp_step; do 3 eexists;
    (split; [ reflexivity | split; [ reflexivity | ] ]);
    first [ reflexivity | split; reflexivity ].
Qed.



Lemma kinds_of_calls (t : list event) (cs : list contract_call) :
  calls t = cs -> kinds t = map kind_of cs.
Proof. unfold kinds. intros ->. reflexivity. Qed.

Lemma decision_block_ends_ok (crew_id : option Z) (max_ppm : Q)
  (report : value) (before : blockchain_info) :
  wp (validate_critical_decision_block g crew_id max_ppm report before)
    (decision_block_ends g crew_id report before).
Proof.
  assert (Skipped : decision_block_ends g crew_id report before
                      (Ok (None, before)) []).
  { split; [ constructor | ]. split; [ intros _; split; reflexivity | ].
    split; [ intros _; split; [ reflexivity | ];
             intros ? ? [= <- <-]; split; reflexivity | ].
    split; [ left; split; reflexivity | left; reflexivity ]. }
  unfold validate_critical_decision_block.
  destruct (enabled_integrator g) as [bi | ] eqn:En; [ | exact Skipped ].
  destruct crew_id as [crew | ]; [ | exact Skipped ].
  destruct (truthy_int (Some crew)
            && float_ge max_ppm (ABSOLUTE_EMERGENCY_PPM g)) eqn:T;
    [ | exact Skipped ].
  apply andb_true_iff in T as [T _]. clear Skipped.
  pose proof (enabled_integrator_enabled g bi En) as Enabled.
  cbn zeta. wp_step.
  eapply wp_mono;
    [ | apply (wp_conj _ _ _
                 (validate_critical_decision_ends bi crew report
                    (_get_crew_member_addresses g) max_ppm)
                 (wp_conj _ _ _
                    (validate_critical_decision_writes bi crew report
                       (_get_crew_member_addresses g) max_ppm)
                    (validate_critical_decision_backstage bi crew report
                       (_get_crew_member_addresses g) max_ppm))) ].
  cbn beta. intros out t (E & W & B).
  assert (NotDict : (forall d, report <> PDict d) -> calls t = []).
  { intros N. destruct W as [C | (c & d & ? & ? & ? & ? & ? & ? & D & _)];
      [ exact C | destruct (N d D) ]. }
  assert (Shapes :
            In (kinds t)
              [ []; [LogDecision]; [LogDecision; RequestConsensus];
                [LogDecision; RequestConsensus; CastVote] ]).
  { destruct W as [C | (c & d & ? & ? & ? & ? & ? & _ & _ & _ & _ & _ & _ & C)].
    - rewrite (kinds_of_calls _ _ C). left. reflexivity.
    - cbv zeta in C.
      destruct C as [C | [C | (r & C & _)]]; rewrite (kinds_of_calls _ _ C);
        cbn; tauto. }
  destruct out as [[[consensus_passed decision_id] tx_hash] | e];
    unfold decision_validation_ends in E.
  - destruct decision_id as [d | ].
    + destruct E as ([h ->] & _ & (logged & requested & rest & C & KL & KR)).
      assert (Two : kinds t = [LogDecision; RequestConsensus]
                    \/ kinds t = [LogDecision; RequestConsensus; CastVote]).
      { rewrite (kinds_of_calls _ _ C) in Shapes |- *. cbn [map] in *.
        rewrite KL, KR in *.
        destruct Shapes as [S | [S | [S | [S | []]]]];
          try discriminate S; rewrite <- S; tauto. }
      cbn [truthy_int]. destruct (Z.eqb_spec d 0) as [-> | Nz];
        cbn [negb wp]; rewrite app_nil_r.
      * split; [ exact B | ]. split; [ intros [N | N]; congruence | ].
        split; [ intros N; rewrite (NotDict N) in C; discriminate C | ].
        split; [ left; split; reflexivity | ].
        cbn. destruct Two as [-> | ->]; tauto.
      * split; [ exact B | ]. split; [ intros [N | N]; congruence | ].
        split; [ intros N; rewrite (NotDict N) in C; discriminate C | ].
        split; [ right; exists d, consensus_passed, h; repeat split;
                 assumption | ].
        cbn [truthy_int]. destruct (Z.eqb_spec d 0); [ contradiction | ].
        exact Two.
    + destruct E as [-> _]. cbn [truthy_int wp]. rewrite app_nil_r.
      split; [ exact B | ]. split; [ intros [N | N]; congruence | ].
      split; [ intros N; split;
               [ rewrite (kinds_of_calls _ _ (NotDict N)); reflexivity
               | intros ? ? [= <- <-]; split; reflexivity ] | ].
      split; [ left; split; reflexivity | exact Shapes ].
  - split; [ exact B | ]. split; [ intros [N | N]; congruence | ].
    split; [ intros N; split;
             [ rewrite (kinds_of_calls _ _ (NotDict N)); reflexivity | intros ? ? [=] ] | ].
    destruct E as [_ [[C ->] | ->]]; [ right | left; eexists; reflexivity ].
    split; [ reflexivity | ]. intros P. unfold enabled_integrator in En.
    destruct (blockchain_integrator g) as [bi' | ] eqn:G; [ | discriminate ].
    destruct (enable_blockchain bi') eqn:E'; [ | discriminate ].
    injection En as ->. destruct (P bi G E') as [c Some_c]. congruence.
Qed.



(** The block ends after the e-mail, sent or not. *)
Ltac mail_only :=
  cbn; do 3 eexists; split; [ reflexivity | ];
  split; [ left; reflexivity | ]; split; [ reflexivity | ];
  split; [ discriminate | ]; split; [ reflexivity | ];
  split; [ constructor | ]; split; [ left; reflexivity | ];
  intros _; split; reflexivity.

Lemma alert_block_ends_ok (send_to : option (list string))
  (anomalies : list anomaly) (report_text : string)
  (crew_id decision_id : option Z) (before : blockchain_info) :
  wp (send_alert_block g send_to anomalies report_text crew_id decision_id
        before)
    (alert_block_ends g send_to decision_id before).
Proof.
  unfold send_alert_block, alert_block_ends.
  destruct (recipients_of g send_to) as [ | r rs ] eqn:R.
  { cbn. do 3 eexists. split; [ reflexivity | ].
    split; [ left; reflexivity | repeat split ]. }
  cbn zeta. wp_step. wp_step. wp_step; cbn [app].
  2: { mail_only. }
  wp_step.
  destruct (blockchain_integrator g) as [bi | ].
  2: { mail_only. }
  destruct (truthy_int decision_id) eqn:T.
  2: { mail_only. }
  destruct (truthy_int_Some _ T) as (d & -> & Nz).
  wp_step.
  eapply wp_mono;
    [ | apply (wp_conj _ _ _
                 (mark_action_executed_ends bi (Some d) "email_alert" true)
                 (mark_action_executed_backstage bi (Some d) "email_alert"
                    true)) ].
  cbn beta. intros [tx_hash | e] t [E B]; unfold marking_ends in E;
    [ | contradiction ].
  assert (K : kinds t = [] \/ kinds t = [MarkExecuted]).
  { destruct (enable_blockchain bi).
    - destruct tx_hash as [h | ].
      + destruct E as [C _]. right. unfold kinds. rewrite C. reflexivity.
      + destruct E as [C | C]; [ left | right ]; unfold kinds; rewrite C;
          reflexivity.
    - destruct E as [_ ->]. left. reflexivity. }
  destruct (truthy_str tx_hash) eqn:S; cbn [wp]; rewrite !app_nil_r.
  - destruct tx_hash as [h | ]; [ | discriminate S ].
    do 3 eexists. split; [ reflexivity | ].
    split; [ right; exists h; split; [ exact T | reflexivity ] | ].
    split; [ reflexivity | ]. split; [ discriminate | ].
    split; [ reflexivity | ]. split; [ exact B | ]. split; [ exact K | ].
    intros [N | N]; [ discriminate N | congruence ].
  - do 3 eexists. split; [ reflexivity | ].
    split; [ left; reflexivity | ].
    split; [ reflexivity | ]. split; [ discriminate | ].
    split; [ reflexivity | ]. split; [ exact B | ]. split; [ exact K | ].
    intros [N | N]; [ discriminate N | congruence ].
Qed.


Lemma detection_pass_shape (limit : Z) (send_to : option (list string)) :
  wp (run_detection_with_blockchain_validation g limit send_to)
    (pass_shape g limit send_to).
Proof.
  apply detection_pass_rule.
  - apply fetch_failed.
  - apply no_readings.
  - apply malformed_reading.
  - apply no_anomalies.
  - intros answer anomalies max_ppm D Ne G. cbv zeta.
    wp_apply crew_formation_block_ends.
    intros [[crew_id info1] | e] t1 E1;
      [ | apply crew_block_raised; exact E1 ].
    wp_apply reasoner_block_ends_ok.
    intros out2 t2 E2.
    assert (exists report text, out2 = Ok (report, text))
      as (report & report_text & ->).
    { destruct E2 as (res & report & text & _ & -> & _). eauto. }
    wp_apply decision_block_ends_ok.
    intros [[decision_id info2] | e] t3 E3;
      [ | eapply decision_block_raised; eassumption ].
    wp_apply alert_block_ends_ok.
    intros out t4 E4. eapply alert_block_reached; eassumption.
Qed.

End PassBlocks.
(* ------------------------------------------------------------------ *)
(** ** The detection pass as a whole *)
(* ------------------------------------------------------------------ *)

Section PassFacts.
Import Py World Trace CrewBlockchainIntegrator CrewWithBlockchain.
Import Observe Outcome.

Lemma backstage_event (ev : event) :
  backstage ev = true ->
  mail_attempt ev = false /\ emailed ev = false /\ asks_reasoner ev = false
  /\ forall report, ~ reasoner_said report ev.
Proof.
  destruct ev as [B r res]; destruct r; cbn; intros E; try discriminate E;
    repeat split; auto.
Qed.

Lemma mail_event (ev : event) :
  mail_attempt ev = true ->
  backstage ev = false /\ submitted ev = None
  /\ forall report, ~ reasoner_said report ev.
Proof.
  destruct ev as [B r res]; destruct r; cbn; intros E; try discriminate E;
    repeat split; auto.
Qed.

Lemma emailed_is_attempt (ev : event) :
  emailed ev = true -> mail_attempt ev = true.
Proof.
  destruct ev as [B r res]; destruct r; cbn; intros E; try discriminate E;
    reflexivity.
Qed.

Lemma kinds_cons_quiet (ev : event) (t : list event) :
  submitted ev = None -> kinds (ev :: t) = kinds t.
Proof.
  intros E. unfold kinds, calls, submissions. cbn. rewrite E. reflexivity.
Qed.

Lemma backstage_no_mail (t : list event) :
  Forall (fun ev => backstage ev = true) t ->
  Forall (fun ev => mail_attempt ev = false) t.
Proof.
  intros F. eapply Forall_impl; [ exact F | ].
  intros ev E. apply backstage_event, E.
Qed.

Lemma no_mail_filter (pre t : list event) :
  Forall (fun ev => mail_attempt ev = false) pre ->
  List.filter mail_attempt (pre ++ t) = List.filter mail_attempt t.
Proof.
  induction 1 as [ | ev pre E _ IH ]; [ reflexivity | ].
  cbn. rewrite E. exact IH.
Qed.

Lemma no_mail_emailed (pre t : list event) :
  Forall (fun ev => mail_attempt ev = false) pre ->
  Exists (fun ev => emailed ev = true) (pre ++ t)
  <-> Exists (fun ev => emailed ev = true) t.
Proof.
  intros F. rewrite Exists_app. split; [ | auto ].
  intros [E | E]; [ | exact E ]. exfalso.
  apply Exists_exists in E as (ev & I & E).
  rewrite Forall_forall in F. apply emailed_is_attempt in E.
  rewrite (F ev I) in E. discriminate E.
Qed.

End PassFacts.

Section PassShapes.
Import Py World Trace CrewBlockchainIntegrator CrewWithBlockchain.
Import Observe Outcome.
Context {builtins : Builtins}.
Variable g : globals.

Lemma crew_block_kinds (crew_id : option Z) (info1 : blockchain_info)
  (t1 : list event) :
  crew_block_ends g (Ok (crew_id, info1)) t1 ->
  (truthy_int crew_id = true /\ kinds t1 = [FormCrew])
  \/ (truthy_int crew_id = false /\ info1 = untouched
      /\ (kinds t1 = [] \/ kinds t1 = [FormCrew])).
Proof.
  intros (_ & _ & A & K). destruct (truthy_int crew_id) eqn:T.
  - left. split; [ reflexivity | exact K ].
  - right. split; [ reflexivity | ]. split; [ | exact K ].
    destruct A as [[_ ->] | (c & h & -> & Nz & _)]; [ reflexivity | ].
    cbn in T. destruct (Z.eqb_spec c 0); [ contradiction | discriminate T ].
Qed.

Lemma decision_block_kinds (crew_id decision_id : option Z) (report : value)
  (info1 info2 : blockchain_info) (t3 : list event) :
  decision_block_ends g crew_id report info1 (Ok (decision_id, info2)) t3 ->
  (truthy_int decision_id = false /\ info2 = info1
   /\ (truthy_int crew_id = false -> t3 = [])
   /\ In (kinds t3)
        [ []; [LogDecision]; [LogDecision; RequestConsensus];
          [LogDecision; RequestConsensus; CastVote] ])
  \/ (truthy_int decision_id = true /\ truthy_int crew_id = true
      /\ (kinds t3 = [LogDecision; RequestConsensus]
          \/ kinds t3 = [LogDecision; RequestConsensus; CastVote])).
Proof.
  intros (_ & Skip & _ & A & K).
  destruct (truthy_int decision_id) eqn:T.
  - right. split; [ reflexivity | ]. split; [ | exact K ].
    destruct A as [[F _] | (d & b & h & _ & _ & C & _)];
      [ congruence | exact C ].
  - left. split; [ reflexivity | ].
    split; [ | split; [ intros F; apply Skip; right; exact F | exact K ] ].
    destruct A as [[_ ->] | (d & b & h & -> & Nz & _)]; [ reflexivity | ].
    cbn in T. destruct (Z.eqb_spec d 0); [ contradiction | discriminate T ].
Qed.

Lemma alert_block_kinds (send_to : option (list string))
  (decision_id : option Z) (info2 : blockchain_info)
  (out : result (bool * string * blockchain_info)) (t4 : list event) :
  alert_block_ends g send_to decision_id info2 out t4 ->
  kinds t4 = []
  \/ (kinds t4 = [MarkExecuted] /\ truthy_int decision_id = true).
Proof.
  intros (sent & text & info & _ & _ & M).
  destruct t4 as [ | mail rest ]; [ left; reflexivity | ].
  destruct M as (Mail & _ & _ & _ & K & Alone).
  rewrite kinds_cons_quiet by apply mail_event, Mail.
  destruct (truthy_int decision_id).
  - destruct K as [K | K]; [ left | right ]; auto.
  - left. destruct Alone as [-> _]; [ right | ]; reflexivity.
Qed.

Lemma reasoner_block_kinds (anomalies : list anomaly) (readings : list dict)
  (out2 : result (value * string)) (t2 : list event) :
  reasoner_block_ends anomalies readings out2 t2 ->
  kinds t2 = []
  /\ Forall (fun ev => mail_attempt ev = false /\ backstage ev = false) t2.
Proof.
  intros (res & report & text & -> & _).
  split; [ reflexivity | repeat constructor ].
Qed.

End PassShapes.

Section PassTheorems.
Import Py World Trace CrewBlockchainIntegrator CrewWithBlockchain.
Import Observe Outcome.
Context {builtins : Builtins} {signer : Web3.Secp256k1}.
Context {L : Type}.
Variable oracle : forall B : Type, L -> request B -> result B * L.
Variable g : globals.
Variable limit : Z.
Variable send_to : option (list string).

(** Every run of a pass has one of the shapes. *)
Lemma run_pass_shape (s : L) :
  let o :=
    run oracle (run_detection_with_blockchain_validation g limit send_to) s in
  pass_shape g limit send_to (returned o) (trace o).
Proof. exact (wp_run oracle _ _ s (detection_pass_shape g limit send_to)). Qed.

Ltac by_shape s :=
  cbv zeta;
  destruct (run_pass_shape s)
    as [ e | answer Empty | answer e Malformed | answer Quiet
       | answer e t1 E1
       | answer anomalies crew_id info1 report report_text e t1 t2 t3
           E1 E2 E3
       | answer anomalies crew_id decision_id info1 info2 report report_text
           out t1 t2 t3 t4 E1 E2 E3 E4 ].

Lemma kinds_of_blocks (answer : option (list dict))
  (anomalies : list anomaly) (readings : list dict)
  (out2 : result (value * string)) (t1 t2 t3 t4 : list event) :
  reasoner_block_ends anomalies readings out2 t2 ->
  kinds (Event (get_recent_readings limit) (Ok answer)
         :: t1 ++ t2 ++ t3 ++ t4)
  = kinds t1 ++ kinds t3 ++ kinds t4.
Proof.
  intros E2. rewrite kinds_cons_quiet by reflexivity.
  rewrite !kinds_app. destruct (reasoner_block_kinds _ _ _ _ E2) as [-> _].
  reflexivity.
Qed.

(** X18.  A detection pass submits its transactions in one fixed order:
    the formation of the crew, the logging of the decision, the request for
    consensus, the vote and the marking of the action as executed, each at
    most once and none without the ones before it, the vote alone being
    optional.  A pass never registers an agent. *)
Theorem pass_writes_in_order (s : L) :
  let o :=
    run oracle (run_detection_with_blockchain_validation g limit send_to) s in
  In (kinds (trace o)) write_sequences.
Proof.
  by_shape s; try (left; reflexivity).
  - destruct E1 as (_ & _ & ->). left. reflexivity.
  - rewrite <- (app_nil_r t3), (kinds_of_blocks _ _ _ _ _ _ _ _ E2).
    destruct E3 as (_ & _ & _ & K3).
    assert (kinds t3 = []) as -> by (destruct K3 as [[ppm ->] | [-> _]];
                                     reflexivity).
    destruct (crew_block_kinds g _ _ _ E1) as [[_ ->] | (_ & _ & [-> | ->])];
      cbn; tauto.
  - rewrite (kinds_of_blocks _ _ _ _ _ _ _ _ E2).
    destruct (crew_block_kinds g _ _ _ E1)
      as [[C1 K1] | (C1 & _ & K1)];
      destruct (decision_block_kinds g _ _ _ _ _ _ E3)
        as [(D3 & _ & Skip & K3) | (D3 & C3 & K3)];
      destruct (alert_block_kinds g _ _ _ _ _ E4) as [K4 | [K4 D4]];
      try congruence; rewrite K4.
    + rewrite K1. cbn in K3.
      destruct K3 as [<- | [<- | [<- | [<- | []]]]]; cbn; tauto.
    + rewrite K1. destruct K3 as [-> | ->]; cbn; tauto.
    + rewrite K1. destruct K3 as [-> | ->]; cbn; tauto.
    + rewrite (Skip C1). destruct K1 as [-> | ->]; cbn; tauto.
Qed.

(** X19.  The [blockchain_info] a pass returns is well formed: ids are
    never 0; there is a decision id only with a crew id, and the outcome of
    the consensus exactly with a decision id; the transactions listed are,
    in this order and each with its hash, "crew_formation" when there is a
    crew id, "decision_log" when there is a decision id, and possibly
    "mark_executed" after these two. *)
Theorem blockchain_info_is_well_formed (s : L) :
  let o :=
    run oracle (run_detection_with_blockchain_validation g limit send_to) s in
  match returned o with
  | Ok (sent, report_text, info) => well_formed_info info
  | Raise _ => True
  end.
Proof.
  by_shape s; try exact I; try reflexivity.
  destruct E4 as (sent & text & info3 & -> & A4 & _).
  destruct E1 as (_ & _ & A1 & _), E3 as (_ & _ & _ & A3 & _).
  unfold well_formed_info.
  destruct A3 as [[D3 ->] | (d & b & h2 & -> & Nd & C3 & ->)].
  - assert (info3 = info1) as ->.
    { destruct A4 as [-> | (h & T & _)]; [ reflexivity | congruence ]. }
    destruct A1 as [[_ ->] | (c & h1 & -> & Nc & ->)]; [ reflexivity | ].
    cbn. split; [ exact Nc | ]. exists h1. split; reflexivity.
  - destruct A1 as [[C1 _] | (c & h1 & -> & Nc & ->)]; [ congruence | ].
    destruct A4 as [-> | (h3 & _ & ->)]; cbn.
    + split; [ exact Nc | ]. exists h1. split; [ exact Nd | ].
      exists b, h2. split; [ reflexivity | left; reflexivity ].
    + split; [ exact Nc | ]. exists h1. split; [ exact Nd | ].
      exists b, h2. split; [ reflexivity | right; exists h3; reflexivity ].
Qed.

Lemma blocks_without_mail (answer : option (list dict))
  (anomalies : list anomaly)
  (readings : list dict) (out1 out3 : result (option Z * blockchain_info))
  (out2 : result (value * string)) (crew_id : option Z) (report : value)
  (info1 : blockchain_info) (t1 t2 t3 : list event) :
  crew_block_ends g out1 t1 ->
  reasoner_block_ends anomalies readings out2 t2 ->
  decision_block_ends g crew_id report info1 out3 t3 ->
  Forall (fun ev => mail_attempt ev = false)
    (Event (get_recent_readings limit) (Ok answer) :: t1 ++ t2 ++ t3).
Proof.
  intros (B1 & _) E2 (B3 & _).
  constructor; [ reflexivity | ].
  rewrite !Forall_app. split; [ apply backstage_no_mail, B1 | ].
  split; [ | apply backstage_no_mail, B3 ].
  destruct (reasoner_block_kinds _ _ _ _ E2) as [_ Q].
  eapply Forall_impl; [ exact Q | ]. cbn. tauto.
Qed.

Lemma alert_block_mail (decision_id : option Z) (info2 : blockchain_info)
  (out : result (bool * string * blockchain_info)) (t4 : list event) :
  alert_block_ends g send_to decision_id info2 out t4 ->
  exists sent text info,
    out = Ok (sent, text, info)
    /\ (sent = true <-> Exists (fun ev => emailed ev = true) t4)
    /\ (List.length (List.filter mail_attempt t4) <= 1)%nat
    /\ (recipients_of g send_to = [] -> t4 = [] /\ sent = false).
Proof.
  intros (sent & text & info & -> & _ & M). exists sent, text, info.
  split; [ reflexivity | ].
  destruct t4 as [ | mail rest ].
  - destruct M as (-> & _). split; [ | split; [ cbn; lia | auto ] ].
    split; [ discriminate | ]. intros E. inversion E.
  - destruct M as (Mail & R & -> & B & _).
    split; [ | split; [ | intros N; contradiction ] ].
    + rewrite Exists_cons. split; [ auto | ].
      intros [E | E]; [ exact E | exfalso ].
      apply Exists_exists in E as (ev & I & E).
      rewrite Forall_forall in B.
      destruct (backstage_event _ (B ev I)) as (_ & N & _). congruence.
    + cbn [List.filter]. rewrite Mail.
      rewrite <- (app_nil_r rest),
        (no_mail_filter _ _ (backstage_no_mail _ B)).
      cbn. lia.
Qed.

(** X20.  A pass tells the truth about the alert and sends it at most
    once: it hands at most one message to the mailer, the flag it returns
    is true exactly when the mailer accepted that message, and a pass that
    raises has not got as far as the mailer. *)
Theorem alert_flag_tells_mail_accepted (s : L) :
  let o :=
    run oracle (run_detection_with_blockchain_validation g limit send_to) s in
  match returned o with
  | Ok (sent, report_text, info) =>
      sent = true <-> Exists (fun ev => emailed ev = true) (trace o)
  | Raise _ => Forall (fun ev => mail_attempt ev = false) (trace o)
  end
  /\ (List.length (List.filter mail_attempt (trace o)) <= 1)%nat.
Proof.
  assert (No_mail : forall t : list event,
             Forall (fun ev => mail_attempt ev = false) t ->
             ~ Exists (fun ev => emailed ev = true) t
             /\ (List.length (List.filter mail_attempt t) <= 1)%nat).
  { intros t F. split.
    - intros E. apply (no_mail_emailed t []) in F.
      rewrite app_nil_r in F. apply F in E. inversion E.
    - rewrite <- (app_nil_r t), (no_mail_filter _ _ F). cbn. lia. }
  by_shape s.
  - split; [ repeat constructor | cbn; lia ].
  - split; [ | cbn; lia ]. split; [ discriminate | ].
    intros E. apply No_mail in E; [ contradiction | repeat constructor ].
  - split; [ repeat constructor | cbn; lia ].
  - split; [ | cbn; lia ]. split; [ discriminate | ].
    intros E. apply No_mail in E; [ contradiction | repeat constructor ].
  - assert (F : Forall (fun ev => mail_attempt ev = false)
                  (Event (get_recent_readings limit) (Ok answer) :: t1)).
    { constructor; [ reflexivity | ].
      destruct E1 as (B1 & _). apply backstage_no_mail, B1. }
    split; [ exact F | apply No_mail, F ].
  - pose proof (blocks_without_mail answer _ _ _ _ _ _ _ _ _ _ _ E1 E2 E3)
      as F.
    split; [ exact F | apply No_mail, F ].
  - pose proof (blocks_without_mail answer _ _ _ _ _ _ _ _ _ _ _ E1 E2 E3)
      as F.
    destruct (alert_block_mail _ _ _ _ E4)
      as (sent & text & info & -> & Sent & Once & _).
    replace (Event (get_recent_readings limit) (Ok answer)
             :: t1 ++ t2 ++ t3 ++ t4)
      with ((Event (get_recent_readings limit) (Ok answer)
             :: t1 ++ t2 ++ t3) ++ t4)
      by (cbn [app]; rewrite <- !app_assoc; reflexivity).
    rewrite (no_mail_emailed _ _ F), (no_mail_filter _ _ F).
    split; assumption.
Qed.

(** X21.  Without recipients a pass sends no alert and marks nothing as
    executed: it hands nothing to the mailer, submits no [markExecuted], and
    the flag it returns is false, whatever it has written to the ledger
    before. *)
Theorem no_recipients_no_alert (s : L) :
  recipients_of g send_to = [] ->
  let o :=
    run oracle (run_detection_with_blockchain_validation g limit send_to) s in
  Forall (fun ev => mail_attempt ev = false) (trace o)
  /\ (MarkExecuted ∉ kinds (trace o))
  /\ match returned o with
     | Ok (sent, report_text, info) => sent = false
     | Raise _ => True
     end.
Proof.
  intros None_configured.
  by_shape s.
  1-4: split; [ repeat constructor | ];
       (split; [ intros I; inversion I | try exact I; reflexivity ]).
  - split; [ | split; [ | exact I ] ].
    + constructor; [ reflexivity | ].
      destruct E1 as (B1 & _). apply backstage_no_mail, B1.
    + destruct E1 as (_ & _ & ->). intros I. cbn in I.
      inversion I.
  - split; [ | split; [ | exact I ] ].
    + exact (blocks_without_mail answer _ _ _ _ _ _ _ _ _ _ _ E1 E2 E3).
    + rewrite <- (app_nil_r t3), (kinds_of_blocks _ _ _ _ _ _ _ _ E2).
      destruct E3 as (_ & _ & _ & K3).
      assert (kinds t3 = []) as -> by (destruct K3 as [[ppm ->] | [-> _]];
                                       reflexivity).
      destruct (crew_block_kinds g _ _ _ E1)
        as [[_ ->] | (_ & _ & [-> | ->])];
        cbn; intros I; apply list_elem_of_In in I; cbn in I;
        intuition discriminate.
  - destruct (alert_block_mail _ _ _ _ E4)
      as (sent & text & info & -> & _ & _ & Empty).
    destruct (Empty None_configured) as [-> ->].
    split; [ | split; [ | reflexivity ] ].
    + rewrite app_nil_r.
      exact (blocks_without_mail answer _ _ _ _ _ _ _ _ _ _ _ E1 E2 E3).
    + rewrite (kinds_of_blocks _ _ _ _ _ _ _ _ E2), app_nil_r.
      assert (I1 : In (kinds t1) [ []; [FormCrew] ]).
      { destruct (crew_block_kinds g _ _ _ E1)
          as [[_ ->] | (_ & _ & [-> | ->])]; cbn; tauto. }
      assert (I3 : In (kinds t3)
                     [ []; [LogDecision]; [LogDecision; RequestConsensus];
                       [LogDecision; RequestConsensus; CastVote] ]).
      { destruct (decision_block_kinds g _ _ _ _ _ _ E3)
          as [(_ & _ & _ & K3) | (_ & _ & [-> | ->])];
          [ exact K3 | cbn; tauto | cbn; tauto ]. }
      revert I1 I3. generalize (kinds t1), (kinds t3). intros k1 k3 I1 I3 M.
      apply list_elem_of_In in M. cbn in I1, I3.
      destruct I1 as [<- | [<- | []]];
        destruct I3 as [<- | [<- | [<- | [<- | []]]]];
        cbn in M; intuition discriminate.
Qed.

(** X22.  With governance off, a pass leaves the ledger alone: when there
    is no integrator, or only one in simulation mode, the pass asks nothing
    of the node and never reads the clock, and the [blockchain_info] it
    returns is the untouched one. *)
Theorem governance_off_leaves_ledger_alone (s : L) :
  enabled_integrator g = None ->
  let o :=
    run oracle (run_detection_with_blockchain_validation g limit send_to) s in
  Forall (fun ev => backstage ev = false) (trace o)
  /\ match returned o with
     | Ok (sent, report_text, info) => info = untouched
     | Raise _ => True
     end.
Proof.
  intros Off. by_shape s.
  1-4: split; [ repeat constructor | try exact I; reflexivity ].
  - destruct E1 as (_ & Off1 & E1). rewrite (Off1 Off) in E1. discriminate E1.
  - destruct E3 as (_ & Skip & _). destruct (Skip (or_introl Off)) as [_ N].
    discriminate N.
  - destruct (crew_block_kinds g _ _ _ E1) as [[_ K1] | (C1 & -> & _)];
      destruct E1 as (_ & Off1 & _); rewrite (Off1 Off) in *;
      [ discriminate K1 | ].
    destruct E3 as (_ & Skip & _).
    destruct (Skip (or_introl Off)) as [-> [= -> ->]].
    destruct E2 as (res & ? & ? & -> & _).
    destruct E4 as (sent & text & info & -> & _ & M).
    destruct t4 as [ | mail rest ].
    + destruct M as (_ & _ & ->). split; [ repeat constructor | reflexivity ].
    + destruct M as (Mail & _ & _ & _ & _ & Alone).
      destruct Alone as [-> ->]; [ right; reflexivity | ].
      split; [ | reflexivity ]. cbn [app].
      repeat constructor. apply mail_event, Mail.
Qed.

(** X23.  Failures of the reasoning service, of the mailer and of ledger
    transactions never make a pass raise.  When every reading fetched
    converts, an enabled integrator has its client, and none of the three
    requests that no handler stands behind fails (the fetch of the readings,
    the clock, the [isCritical] read), the pass returns its triple. *)
Theorem pass_survives_failures (s : L) :
  let o :=
    run oracle (run_detection_with_blockchain_validation g limit send_to) s in
  client_present g ->
  Forall readings_convert (trace o) ->
  Forall (fun ev => fatal ev = false) (trace o) ->
  exists sent report_text info, returned o = Ok (sent, report_text, info).
Proof.
  by_shape s; intros Client Convert Safe.
  - apply Forall_cons in Safe as [Safe _]. discriminate Safe.
  - eauto.
  - apply Forall_cons in Convert as [Convert _]. cbn in Convert.
    apply (detection_returns_iff _ (ABSOLUTE_EMERGENCY_PPM g)) in Convert
      as [anomalies D].
    congruence.
  - eauto.
  - destruct E1 as (_ & _ & ->).
    apply Forall_cons in Safe as [_ Safe].
    apply Forall_cons in Safe as [Safe _]. discriminate Safe.
  - destruct E3 as (_ & _ & _ & [[ppm ->] | [_ N]]); [ | contradiction ].
    apply Forall_cons in Safe as [_ Safe].
    rewrite !Forall_app in Safe. destruct Safe as (_ & _ & Safe).
    apply Forall_cons in Safe as [Safe _]. discriminate Safe.
  - destruct E4 as (sent & text & info & -> & _). eauto.
Qed.

Lemma alert_block_events (decision_id : option Z) (info2 : blockchain_info)
  (out : result (bool * string * blockchain_info)) (t4 : list event) :
  alert_block_ends g send_to decision_id info2 out t4 ->
  match t4 with
  | [] => True
  | mail :: rest =>
      mail_attempt mail = true /\ Forall (fun ev => backstage ev = true) rest
  end.
Proof.
  intros (sent & text & info & _ & _ & M).
  destruct t4 as [ | mail rest ]; [ exact I | ].
  destruct M as (Mail & _ & _ & B & _). split; assumption.
Qed.

Lemma reasoner_said_in_block (said : value) (answer : option (list dict))
  (crew_id : option Z) (info1 : blockchain_info)
  (out1 out3 : result (option Z * blockchain_info)) (report : value)
  (t1 t2 t3 t4 : list event) :
  crew_block_ends g out1 t1 ->
  decision_block_ends g crew_id report info1 out3 t3 ->
  match t4 with
  | [] => True
  | mail :: rest =>
      mail_attempt mail = true /\ Forall (fun ev => backstage ev = true) rest
  end ->
  Exists (reasoner_said said)
    (Event (get_recent_readings limit) (Ok answer) :: t1 ++ t2 ++ t3 ++ t4) ->
  Exists (reasoner_said said) t2.
Proof.
  intros (B1 & _) (B3 & _) E4 S.
  assert (Quiet : forall t, Forall (fun ev => backstage ev = true) t ->
                            ~ Exists (reasoner_said said) t).
  { intros t B E. apply Exists_exists in E as (ev & I & E).
    rewrite Forall_forall in B.
    destruct (backstage_event _ (B ev I)) as (_ & _ & _ & N).
    exact (N said E). }
  apply Exists_cons in S as [S | S]; [ destruct S | ].
  rewrite !Exists_app in S.
  destruct S as [S | [S | [S | S]]];
    [ destruct (Quiet _ B1 S) | exact S | destruct (Quiet _ B3 S) | exfalso ].
  destruct t4 as [ | mail rest ]; [ inversion S | ].
  destruct E4 as (Mail & B).
  apply Exists_cons in S as [S | S];
    [ exact (proj2 (proj2 (mail_event _ Mail)) said S)
    | exact (Quiet _ B S) ].
Qed.

(** X24.  A report that is not a dictionary is never logged.  When the
    reasoning service answers with plain text, or with any value other than
    a dictionary, the pass submits no [logDecision] and reports no decision
    id. *)
Theorem report_that_is_no_dict_is_not_logged (s : L) (said : value) :
  let o :=
    run oracle (run_detection_with_blockchain_validation g limit send_to) s in
  (forall d, said <> PDict d) ->
  Exists (reasoner_said said) (trace o) ->
  (LogDecision ∉ kinds (trace o))
  /\ match returned o with
     | Ok (sent, report_text, info) => info_decision_id info = None
     | Raise _ => True
     end.
Proof.
  assert (Said : forall anomalies readings report' text t2,
             reasoner_block_ends anomalies readings (Ok (report', text)) t2 ->
             Exists (reasoner_said said) t2 -> report' = said).
  { intros anomalies readings report' text t2
      (res & ? & ? & -> & [= <- <-] & R) S.
    apply Exists_cons in S as [S | S]; [ | inversion S ].
    cbn in S. subst res. exact R. }
  by_shape s; intros No_dict S.
  1-4: apply Exists_cons in S as [[] | S]; inversion S.
  - destruct E1 as (B1 & _ & ->).
    apply Exists_cons in S as [[] | S].
    apply Exists_cons in S as [[] | S]. inversion S.
  - rewrite <- (app_nil_r t3) in S |- *.
    pose proof (reasoner_said_in_block said answer _ _ _ _ _ _ _ _ []
                  E1 E3 I S) as S2.
    rewrite (Said _ _ _ _ _ E2 S2) in E3.
    rewrite (kinds_of_blocks _ _ _ _ _ _ _ _ E2).
    destruct E3 as (_ & _ & ND & _). destruct (ND No_dict) as [-> _].
    split; [ | exact I ].
    destruct (crew_block_kinds g _ _ _ E1) as [[_ ->] | (_ & _ & [-> | ->])];
      cbn; intros M; apply list_elem_of_In in M; cbn in M;
      intuition discriminate.
  - pose proof (reasoner_said_in_block said answer _ _ _ _ _ _ _ _ _
                  E1 E3 (alert_block_events _ _ _ _ E4) S) as S2.
    rewrite (Said _ _ _ _ _ E2 S2) in E3.
    rewrite (kinds_of_blocks _ _ _ _ _ _ _ _ E2).
    pose proof E3 as (_ & _ & ND & _).
    destruct (ND No_dict) as [K3 Same].
    destruct (Same _ _ eq_refl) as [-> ->]. rewrite K3.
    destruct (alert_block_kinds g _ _ _ _ _ E4) as [-> | [_ D4]];
      [ | discriminate D4 ].
    destruct E4 as (sent & text & info & -> & A4 & _).
    split.
    + destruct (crew_block_kinds g _ _ _ E1)
        as [[_ ->] | (_ & _ & [-> | ->])];
        cbn; intros M; apply list_elem_of_In in M; cbn in M;
        intuition discriminate.
    + destruct A4 as [-> | (h & D4 & _)]; [ | discriminate D4 ].
      destruct E1 as (_ & _ & [[_ ->] | (c & h & _ & _ & ->)] & _);
        reflexivity.
Qed.

End PassTheorems.

Section PassWitnesses.
Import Py World Trace CrewWithBlockchain Observe Outcome.

(** A critical event in a process that has no recipient configured. *)
Lemma no_recipients_no_alert_witness :
  let o :=
    run (Scenario.world (Scenario.critical_event true (Ok Scenario.a_report)))
      (@run_detection_with_blockchain_validation Scenario.builtins
         Scenario.signer (Scenario.module_state (Some Scenario.integrator))
         50 None) tt in
  Forall (fun ev => mail_attempt ev = false) (trace o)
  /\ (MarkExecuted ∉ kinds (trace o))
  /\ match returned o with
     | Ok (sent, report_text, info) => sent = false
     | Raise _ => True
     end.
Proof.
  apply (@no_recipients_no_alert Scenario.builtins Scenario.signer unit
           (Scenario.world
              (Scenario.critical_event true (Ok Scenario.a_report)))
           (Scenario.module_state (Some Scenario.integrator)) 50 None tt).
  reflexivity.
Defined.

(** A critical event in a process whose integrator runs in simulation
    mode. *)
Lemma governance_off_leaves_ledger_alone_witness :
  let o :=
    run (Scenario.world (Scenario.critical_event true (Ok Scenario.a_report)))
      (@run_detection_with_blockchain_validation Scenario.builtins
         Scenario.signer (Scenario.module_state (Some Scenario.simulation))
         50 Scenario.recipients) tt in
  Forall (fun ev => backstage ev = false) (trace o)
  /\ match returned o with
     | Ok (sent, report_text, info) => info = untouched
     | Raise _ => True
     end.
Proof.
  apply (@governance_off_leaves_ledger_alone Scenario.builtins
           Scenario.signer unit
           (Scenario.world
              (Scenario.critical_event true (Ok Scenario.a_report)))
           (Scenario.module_state (Some Scenario.simulation)) 50
           Scenario.recipients tt).
  reflexivity.
Defined.

(** The pass whose reasoning service times out. *)
Lemma pass_survives_failures_witness :
  exists sent report_text info,
    returned Scenario.degraded_pass = Ok (sent, report_text, info).
Proof.
  apply (@pass_survives_failures Scenario.builtins Scenario.signer unit
           (Scenario.world
              (Scenario.critical_event true (Raise Scenario.timeout)))
           (Scenario.module_state (Some Scenario.integrator)) 50
           Scenario.recipients tt).
  - intros bi [= <-] _. eexists. reflexivity.
  - match goal with
    | |- Forall _ ?t => let t' := eval vm_compute in t in change t with t'
    end.
    repeat (apply Forall_cons; split;
            [ cbn; first [ exact I
                         | repeat constructor; eexists; reflexivity ] | ]).
    apply Forall_nil. exact I.
  - match goal with
    | |- Forall _ ?t => let t' := eval vm_compute in t in change t with t'
    end.
    repeat (apply Forall_cons; split; [ reflexivity | ]).
    apply Forall_nil. exact I.
Defined.

(** A reasoning service that answers with plain text. *)
Lemma report_that_is_no_dict_is_not_logged_witness :
  let o :=
    run (Scenario.world
           (Scenario.critical_event true (Ok (PStr "Methane is high."))))
      (@run_detection_with_blockchain_validation Scenario.builtins
         Scenario.signer (Scenario.module_state (Some Scenario.integrator))
         50 Scenario.recipients) tt in
  (LogDecision ∉ kinds (trace o))
  /\ match returned o with
     | Ok (sent, report_text, info) => info_decision_id info = None
     | Raise _ => True
     end.
Proof.
  apply (@report_that_is_no_dict_is_not_logged Scenario.builtins
           Scenario.signer unit
           (Scenario.world
              (Scenario.critical_event true (Ok (PStr "Methane is high."))))
           (Scenario.module_state (Some Scenario.integrator)) 50
           Scenario.recipients tt (PStr "Methane is high.")).
  - intros d. discriminate.
  - match goal with
    | |- Exists _ ?t => let t' := eval vm_compute in t in change t with t'
    end.
    repeat first [ apply Exists_cons_hd; reflexivity | apply Exists_cons_tl ].
Defined.

End PassWitnesses.
(* ------------------------------------------------------------------ *)
(** ** Start-up *)
(* ------------------------------------------------------------------ *)

Section StartupFacts.
Import Py Startup.
Context {L : Type}.
Variable oracle : forall B : Type, L -> request B -> result B * L.


End StartupFacts.

Section StartupShapes.
Import Py Startup.
Variable environ : gmap string string.

(** Answer the next request in both ways, and decide the next test. *)
Ltac answer :=
  cbn;
  repeat match goal with
         | |- forall res : result _, _ => intros [? | ?]; cbn
         | |- wp ?m _ =>
             match m with
             | context [if ?b then _ else _] => destruct b eqn:?; cbn
             | context [match ?x with Ok _ => _ | Raise _ => _ end] =>
                 destruct x; cbn
             end
         end.



End StartupShapes.

Section StartupTheorems.
Import Py Startup.
Context {L : Type}.
Variable oracle : forall B : Type, L -> request B -> result B * L.
Variable environ : gmap string string.



End StartupTheorems.
(* ------------------------------------------------------------------ *)
(** ** The monitoring loop *)
(* ------------------------------------------------------------------ *)

Section LoopFacts.
Import Py World Trace CrewWithBlockchain Observe Outcome Monitoring.
Context {builtins : Builtins} {signer : Web3.Secp256k1}.
Variable g : globals.
Variable limit : Z.
Variable send_to : option (list string).

Lemma backstage_no_fetch (t : list event) :
  Forall (fun ev => backstage ev = true) t ->
  List.filter (fetch limit) t = [].
Proof.
  induction 1 as [ | ev t B _ IH ]; [ reflexivity | ].
  cbn. rewrite IH.
  destruct ev as [C r res]; destruct r; try discriminate B; reflexivity.
Qed.

Lemma filter_fetch_app (t1 t2 : list event) :
  List.filter (fetch limit) (t1 ++ t2)
  = List.filter (fetch limit) t1 ++ List.filter (fetch limit) t2.
Proof. apply List.filter_app. Qed.

(** A pass fetches the readings once, first of all. *)
Lemma pass_fetches_once
  (out : result (bool * string * blockchain_info)) (t : list event) :
  pass_shape g limit send_to out t ->
  List.length (List.filter (fetch limit) t) = 1%nat.
Proof.
  assert (One : forall (res : result (option (list dict))) (t : list event),
             List.filter (fetch limit) t = [] ->
             List.length
               (List.filter (fetch limit)
                  (Event (get_recent_readings limit) res :: t)) = 1%nat).
  { intros res t' E. cbn. rewrite Z.eqb_refl. cbn. rewrite E. reflexivity. }
  assert (Reasoner : forall anomalies readings out2 t2,
             reasoner_block_ends anomalies readings out2 t2 ->
             List.filter (fetch limit) t2 = []).
  { intros anomalies readings out2 t2 (res & ? & ? & -> & _). reflexivity. }
  assert (Alert : forall decision_id info2 out4 t4,
             alert_block_ends g send_to decision_id info2 out4 t4 ->
             List.filter (fetch limit) t4 = []).
  { intros decision_id info2 out4 t4 E4.
    pose proof (alert_block_events g send_to _ _ _ _ E4) as M.
    destruct t4 as [ | mail rest ]; [ reflexivity | ].
    destruct M as [Mail B]. cbn.
    rewrite (backstage_no_fetch _ B).
    destruct mail as [C r res]; destruct r; try discriminate Mail;
      reflexivity. }
  intros [ e | answer _ | answer e _ | answer _ | answer e t1 E1
         | answer anomalies crew_id info1 report report_text e t1 t2 t3
             E1 E2 E3
         | answer anomalies crew_id decision_id info1 info2 report
             report_text out' t1 t2 t3 t4 E1 E2 E3 E4 ];
    apply One; try reflexivity.
  - destruct E1 as (B1 & _). apply backstage_no_fetch, B1.
  - destruct E1 as (B1 & _), E3 as (B3 & _).
    rewrite !filter_fetch_app, (backstage_no_fetch _ B1),
      (backstage_no_fetch _ B3), (Reasoner _ _ _ _ E2). reflexivity.
  - destruct E1 as (B1 & _), E3 as (B3 & _).
    rewrite !filter_fetch_app, (backstage_no_fetch _ B1),
      (backstage_no_fetch _ B3), (Reasoner _ _ _ _ E2),
      (Alert _ _ _ _ E4). reflexivity.
Qed.

Variable CHECK_INTERVAL_SECONDS : Q.

Lemma detection_round_fetches_once :
  wp (detection_round g limit send_to)
    (fun out t =>
       out = Ok tt
       /\ List.length (List.filter (fetch limit) t) = 1%nat).
Proof.
  unfold detection_round. wp_step. wp_step.
  wp_apply (detection_pass_shape g limit send_to).
  intros [[[sent report] info] | e] t S; apply pass_fetches_once in S.
  - wp_step. wp_step; cbn [wp].
    + split; [ reflexivity | ].
      rewrite !filter_fetch_app. cbn. rewrite ?app_nil_r. exact S.
    + split; [ reflexivity | ].
      rewrite !filter_fetch_app. cbn. rewrite ?app_nil_r. exact S.
  - cbn. split; [ reflexivity | ]. rewrite app_nil_r. exact S.
Qed.

Lemma monitoring_loop_fetches (rounds : nat) :
  (0 <= CHECK_INTERVAL_SECONDS)%Q ->
  wp (run_monitoring_loop g CHECK_INTERVAL_SECONDS rounds limit send_to)
    (fun out t =>
       out = Ok tt
       /\ List.length (List.filter (fetch limit) t) = rounds).
Proof.
  intros Interval.
  induction rounds as [ | rounds IH ]; [ split; reflexivity | ].
  cbn [run_monitoring_loop]. wp_step.
  wp_apply detection_round_fetches_once.
  intros out t [-> Once].
  wp_step. unfold sleep.
  apply Qle_bool_iff in Interval. rewrite Interval. cbn [wp].
  wp_apply IH. intros out t' [-> Rest].
  split; [ reflexivity | ].
  rewrite !filter_fetch_app, !length_app, Once, Rest. reflexivity.
Qed.

End LoopFacts.

Section LoopTheorems.
Import Py World Trace CrewWithBlockchain Observe Monitoring.
Context {builtins : Builtins} {signer : Web3.Secp256k1}.
Context {L : Type}.
Variable oracle : forall B : Type, L -> request B -> result B * L.
Variable g : globals.
Variable CHECK_INTERVAL_SECONDS : Q.

(** X27.  The monitoring loop keeps polling.  With a sleep interval that
    is not negative, no failure inside a round ends the loop: whatever the
    store, the ledger, the reasoning service, the mailer and the clock
    answer, every one of its rounds is run, and each fetches the readings
    exactly once, with the limit given. *)
Theorem monitoring_keeps_polling (rounds : nat) (limit : Z)
  (send_to : option (list string)) (s : L) :
  (0 <= CHECK_INTERVAL_SECONDS)%Q ->
  let o :=
    run oracle
      (run_monitoring_loop g CHECK_INTERVAL_SECONDS rounds limit send_to) s in
  returned o = Ok tt
  /\ List.length (List.filter (fetch limit) (trace o)) = rounds.
Proof.
  intros Interval.
  exact (wp_run oracle _ _ s
           (monitoring_loop_fetches g limit send_to CHECK_INTERVAL_SECONDS
              rounds Interval)).
Qed.

End LoopTheorems.

Section LoopWitnesses.
Import Py World CrewWithBlockchain Observe Monitoring.

(** Three rounds, 15 seconds apart, against a ledger that reverts every
    transaction. *)
Lemma monitoring_keeps_polling_witness :
  let o :=
    run (Scenario.world Scenario.rejecting)
      (@run_monitoring_loop Scenario.builtins Scenario.signer
         (Scenario.module_state (Some Scenario.integrator)) 15 3 50
         Scenario.recipients) tt in
  returned o = Ok tt
  /\ List.length (List.filter (fetch 50) (trace o)) = 3%nat.
Proof.
  apply (@monitoring_keeps_polling Scenario.builtins Scenario.signer unit
           (Scenario.world Scenario.rejecting)
           (Scenario.module_state (Some Scenario.integrator)) 15 3 50
           Scenario.recipients tt).
  discriminate.
Defined.

End LoopWitnesses.
(* ------------------------------------------------------------------ *)
(** ** What the transactions of a pass carry *)
(* ------------------------------------------------------------------ *)

Section PassCallsFacts.
Import Py World Trace CrewBlockchainIntegrator CrewWithBlockchain.
Import Observe Outcome PassCalls.
Context {builtins : Builtins} {signer : Web3.Secp256k1}.
Variable g : globals.












Context {L : Type}.
Variable oracle : forall B : Type, L -> request B -> result B * L.


End PassCallsFacts.
